(** * Block-reaction engine: a shallow embedding and its properties

    The development embeds the TypeScript services of the repository

      - [src/services/BlockchainService.ts]      (push feed, WebSocket),
      - [src/services/BlockchainServiceHTTP.ts]  (pull feed, HTTP polling),
      - [src/config/ConfigLoader.ts]             (environment loading),

    and proves properties of the parameter cache, the dispatch controller,
    the confirmation monitor, the refresh scheduler and the poll loop.

    Modelling conventions.

    - JavaScript [number] counters, block numbers, nonces and millisecond
      clocks, and [bigint] prices are integers ([Z]).  The loader, which
      works on the result of [parseFloat], has its own number type
      ([ConfigLoader.number]); the first model of the engine takes the
      configuration with integral numeric fields.
    - The chain client ([ethers] provider and wallet) is outside the
      repository: every handler receives an [Env] holding the clock reading
      ([Date.now()], one reading per handler run) and the answers the client
      gives while that handler runs.  [None] as an answer is a rejected
      promise.
    - Every chain call is appended to the ghost field [calls] of the state, so
      that "no query is performed" and "exactly one query" are statements about
      the state.
    - There are two models of the engine.  In the first one, of both
      services, an [async] handler is run in one piece, with one [Env]: it
      describes a handler during whose waits no other handler runs, and a
      run ([run]) in which handlers do not overlap.  There console output is
      not modelled and block headers arrive decoded (the hexadecimal [number]
      of a header is the integer [parseInt] gives).  The second one
      ([Async], of the push service) suspends a handler at each [await] and
      lets other handlers run in between, takes the configuration as the
      loader returns it, and has the failures of [toISOString] and
      [ethers.parseUnits]; the properties of dispatch under overlap, of the
      skipped blocks, of the confirmations and of the default fee rate are
      stated over it.  [process.exit] ends the run. *)

From Stdlib Require Import ZArith QArith List String Bool Lia.
From Stdlib Require Import DecimalString HexadecimalString.
Import ListNotations.
Close Scope Q_scope.
Open Scope string_scope.
Open Scope Z_scope.

Set Implicit Arguments.

(** ** Data model ([src/types/index.ts]) *)

Record BlockData := mkBlockData {
  bd_number : Z;                     (* parseInt(blockData.number, 16) *)
  bd_hash : string;
  bd_timestamp : string;
  bd_transactions : list string
}.

Record ConfirmationMetrics := mkMetrics {
  transactionHash : string;
  sentBlockNumber : Z;
  confirmedBlockNumber : Z;
  blocksToConfirm : Z;
  confirmationTimeMs : Z;
  gasUsed : Z;
  effectiveGasPrice : Z;
  cm_sentBlockTimestamp : string;
  confirmedBlockTimestamp : string;
  cm_sentTimestamp : Z
}.

Record BlockReactionConfig := mkConfig {
  websocketUrl : string;
  httpRpcUrl : string;
  privateKey : string;
  recipientAddress : string;
  gasLimit : Z;
  gasPriceGwei : Z;
  initialBlocksToSkip : Z;
  transactionCount : Z
}.

Record CachedGasData := mkCachedGas {
  gasPrice : Z;
  maxFeePerGas : option Z;
  maxPriorityFeePerGas : option Z;
  lastUpdated : Z
}.

(** The nonce cell [{ nonce: number; lastUpdated: number }]. *)
Record CachedNonce := mkCachedNonce {
  nonce : Z;
  nonce_lastUpdated : Z
}.

(** The value type of the [pendingTransactions] map. *)
Record PendingInfo := mkPending {
  sentBlock : Z;
  startTime : Z;
  sentBlockTimestamp : string;
  sentTimestamp : Z
}.

(** ** The chain client *)

Record FeeData := mkFeeData {
  fd_gasPrice : option Z;
  fd_maxFeePerGas : option Z;
  fd_maxPriorityFeePerGas : option Z
}.

Record TxRequest := mkTx {
  tx_to : string;
  tx_value : Z;
  tx_gasLimit : Z;
  tx_gasPrice : Z;
  tx_nonce : Z
}.

Record TransactionReceipt := mkReceipt {
  r_blockNumber : Z;
  r_gasUsed : Z;
  r_gasPrice : Z
}.

Record Block := mkBlock {
  b_number : Z;
  b_hash : option string;
  b_timestamp : Z;
  b_transactions : list string
}.

(** What the client answers while one handler runs. *)
Record Chain := mkChain {
  getFeeData : option FeeData;
  getNonce : option Z;
  wallet_sendTransaction : TxRequest -> option string;
  getTransactionReceipt : string -> option (option TransactionReceipt);
  getBlock : Z -> option (option Block);
  getBlockNumber : option Z
}.

Record Env := mkEnv {
  now : Z;          (* Date.now() *)
  chain : Chain
}.

(** A chain call together with how it ended. *)
Inductive Call :=
| CallFeeData (ok : bool)
| CallNonce (ok : bool)
| CallSend (tx : TxRequest) (res : option string)
| CallReceipt (hash : string) (ok : bool)
| CallBlock (n : Z) (ok : bool)
| CallBlockNumber (ok : bool).

(** ** Engine state

    One record for both services: [isConnected] belongs to the push service,
    [isPolling] and [lastProcessedBlock] to the pull service, the rest is
    common.  [calls] (most recent first), [exitScheduled] and [exited] are
    ghost fields for the client traffic and for [process.exit]. *)
Record State := mkState {
  blockCount : Z;
  pendingTransactions : list (string * PendingInfo);
  confirmationMetrics : list ConfirmationMetrics;
  isConnected : bool;
  isPolling : bool;
  sentTransactionCount : Z;
  lastProcessedBlock : Z;
  cachedGasData : option CachedGasData;
  cachedNonce : option CachedNonce;
  calls : list Call;
  exitScheduled : bool;
  exited : bool
}.

Definition initState : State :=
  mkState 0 [] [] false false 0 0 None None [] false false.

Definition set_blockCount (v : Z) (s : State) : State :=
  mkState v (pendingTransactions s) (confirmationMetrics s) (isConnected s)
    (isPolling s) (sentTransactionCount s) (lastProcessedBlock s)
    (cachedGasData s) (cachedNonce s) (calls s) (exitScheduled s) (exited s).

Definition set_pendingTransactions (v : list (string * PendingInfo)) (s : State) : State :=
  mkState (blockCount s) v (confirmationMetrics s) (isConnected s)
    (isPolling s) (sentTransactionCount s) (lastProcessedBlock s)
    (cachedGasData s) (cachedNonce s) (calls s) (exitScheduled s) (exited s).

Definition set_confirmationMetrics (v : list ConfirmationMetrics) (s : State) : State :=
  mkState (blockCount s) (pendingTransactions s) v (isConnected s)
    (isPolling s) (sentTransactionCount s) (lastProcessedBlock s)
    (cachedGasData s) (cachedNonce s) (calls s) (exitScheduled s) (exited s).

Definition set_isConnected (v : bool) (s : State) : State :=
  mkState (blockCount s) (pendingTransactions s) (confirmationMetrics s) v
    (isPolling s) (sentTransactionCount s) (lastProcessedBlock s)
    (cachedGasData s) (cachedNonce s) (calls s) (exitScheduled s) (exited s).

Definition set_isPolling (v : bool) (s : State) : State :=
  mkState (blockCount s) (pendingTransactions s) (confirmationMetrics s)
    (isConnected s) v (sentTransactionCount s) (lastProcessedBlock s)
    (cachedGasData s) (cachedNonce s) (calls s) (exitScheduled s) (exited s).

Definition set_sentTransactionCount (v : Z) (s : State) : State :=
  mkState (blockCount s) (pendingTransactions s) (confirmationMetrics s)
    (isConnected s) (isPolling s) v (lastProcessedBlock s)
    (cachedGasData s) (cachedNonce s) (calls s) (exitScheduled s) (exited s).

Definition set_lastProcessedBlock (v : Z) (s : State) : State :=
  mkState (blockCount s) (pendingTransactions s) (confirmationMetrics s)
    (isConnected s) (isPolling s) (sentTransactionCount s) v
    (cachedGasData s) (cachedNonce s) (calls s) (exitScheduled s) (exited s).

Definition set_cachedGasData (v : option CachedGasData) (s : State) : State :=
  mkState (blockCount s) (pendingTransactions s) (confirmationMetrics s)
    (isConnected s) (isPolling s) (sentTransactionCount s) (lastProcessedBlock s)
    v (cachedNonce s) (calls s) (exitScheduled s) (exited s).

Definition set_cachedNonce (v : option CachedNonce) (s : State) : State :=
  mkState (blockCount s) (pendingTransactions s) (confirmationMetrics s)
    (isConnected s) (isPolling s) (sentTransactionCount s) (lastProcessedBlock s)
    (cachedGasData s) v (calls s) (exitScheduled s) (exited s).

Definition set_calls (v : list Call) (s : State) : State :=
  mkState (blockCount s) (pendingTransactions s) (confirmationMetrics s)
    (isConnected s) (isPolling s) (sentTransactionCount s) (lastProcessedBlock s)
    (cachedGasData s) (cachedNonce s) v (exitScheduled s) (exited s).

Definition set_exitScheduled (v : bool) (s : State) : State :=
  mkState (blockCount s) (pendingTransactions s) (confirmationMetrics s)
    (isConnected s) (isPolling s) (sentTransactionCount s) (lastProcessedBlock s)
    (cachedGasData s) (cachedNonce s) (calls s) v (exited s).

Definition set_exited (v : bool) (s : State) : State :=
  mkState (blockCount s) (pendingTransactions s) (confirmationMetrics s)
    (isConnected s) (isPolling s) (sentTransactionCount s) (lastProcessedBlock s)
    (cachedGasData s) (cachedNonce s) (calls s) (exitScheduled s) v.

(** ** The handler monad: state, exceptions and process exit *)

Inductive Outcome (A : Type) :=
| Ok (a : A)          (* the promise resolves *)
| Throw (e : Call)    (* it rejects: the failed chain call *)
| Exit.               (* process.exit was called *)
Arguments Ok {A} a.
Arguments Throw {A} e.
Arguments Exit {A}.

Definition M (A : Type) : Type := State -> Outcome A * State.

Definition ret {A} (a : A) : M A := fun s => (Ok a, s).

Definition bind {A B} (m : M A) (f : A -> M B) : M B :=
  fun s =>
    match m s with
    | (Ok a, s') => f a s'
    | (Throw e, s') => (Throw e, s')
    | (Exit, s') => (Exit, s')
    end.

Notation "x <- m ;; k" := (bind m (fun x => k))
  (at level 61, m at next level, right associativity).
Notation "m ;; k" := (bind m (fun _ => k))
  (at level 61, right associativity).

Definition get : M State := fun s => (Ok s, s).
Definition modify (f : State -> State) : M unit := fun s => (Ok tt, f s).
Definition throw {A} (e : Call) : M A := fun s => (Throw e, s).

(** [try { m } catch (error) { h error }]: only exceptions are caught. *)
Definition try_catch {A} (m : M A) (h : Call -> M A) : M A :=
  fun s =>
    match m s with
    | (Throw e, s') => h e s'
    | r => r
    end.

Definition process_exit {A} : M A := fun s => (Exit, set_exited true s).

(** An awaited chain call: it is recorded, then resolves or rejects. *)
Definition rpc {A} (c : bool -> Call) (answer : option A) : M A :=
  match answer with
  | Some a => modify (fun s => set_calls (c true :: calls s) s) ;; ret a
  | None => modify (fun s => set_calls (c false :: calls s) s) ;; throw (c false)
  end.

Fixpoint forM_ {A} (l : list A) (body : A -> M unit) : M unit :=
  match l with
  | [] => ret tt
  | x :: l' => body x ;; forM_ l' body
  end.

(** [for (let i = start; ...; i++)] with [n] iterations. *)
Fixpoint for_range (n : nat) (i : Z) (body : Z -> M unit) : M unit :=
  match n with
  | O => ret tt
  | S n' => body i ;; for_range n' (i + 1) body
  end.

(** ** JavaScript helpers *)

(** A [Map<string, V>]: an association list in insertion order, one entry per
    key. *)
Fixpoint map_set {V} (k : string) (v : V) (m : list (string * V)) : list (string * V) :=
  match m with
  | [] => [(k, v)]
  | (k', v') :: m' =>
      if String.eqb k' k then (k', v) :: m' else (k', v') :: map_set k v m'
  end.

Definition map_delete {V} (k : string) (m : list (string * V)) : list (string * V) :=
  filter (fun kv => negb (String.eqb (fst kv) k)) m.

(** [a || b] for [a : bigint | null]: [null] and [0n] are falsy. *)
Definition bigint_or (a : option Z) (b : Z) : Z :=
  match a with
  | Some v => if v =? 0 then b else v
  | None => b
  end.

(** [a || undefined] for [a : bigint | null]. *)
Definition bigint_or_undefined (a : option Z) : option Z :=
  match a with
  | Some v => if v =? 0 then None else Some v
  | None => None
  end.

(** [s || ''] for a string. *)
Definition string_or_empty (s : option string) : string :=
  match s with Some v => v | None => "" end.

(** [n.toString()] for an integral number. *)
Definition toString (n : Z) : string :=
  DecimalString.NilZero.string_of_int (Z.to_int n).

(** [ethers.parseUnits(`${g}`, 'gwei')] for a whole number of gwei. *)
Definition parseUnits_gwei (g : Z) : Z := g * 10 ^ 9.

(** [ethers.parseEther('0.00000000000000001')], in wei. *)
Definition transferValue : Z := 10.

Definition GAS_CACHE_TTL : Z := 30000.
Definition NONCE_CACHE_TTL : Z := 60000.
Definition BLOCK_CONFIRMATION_DELAY : Z := 0.

(** [n.toString(16)] for an integral number. *)
Definition toString16 (n : Z) : string :=
  HexadecimalString.NilZero.string_of_int (Z.to_hex_int n).

(** ** The services *)

Section Engine.

Variable config : BlockReactionConfig.

(** *** Parameter cache ([getCachedGasData], [getCachedNonce]) *)

(** Lines 250-265 of [getCachedGasData]: the path below the TTL check. *)
Definition fetchGasData (env : Env) : M (Z * bool) :=
  feeData <- rpc CallFeeData (getFeeData (chain env)) ;;
  let gasPrice :=
    bigint_or (fd_gasPrice feeData) (parseUnits_gwei (gasPriceGwei config)) in
  modify (set_cachedGasData
            (Some (mkCachedGas gasPrice
                     (bigint_or_undefined (fd_maxFeePerGas feeData))
                     (bigint_or_undefined (fd_maxPriorityFeePerGas feeData))
                     (now env)))) ;;
  ret (gasPrice, false).

Definition getCachedGasData (env : Env) : M (Z * bool) :=
  s <- get ;;
  match cachedGasData s with
  | Some c =>
      if now env - lastUpdated c <? GAS_CACHE_TTL
      then ret (gasPrice c, true)
      else fetchGasData env
  | None => fetchGasData env
  end.

(** Lines 282-289 of [getCachedNonce]. *)
Definition fetchNonce (env : Env) : M (Z * bool) :=
  nonce <- rpc CallNonce (getNonce (chain env)) ;;
  modify (set_cachedNonce (Some (mkCachedNonce nonce (now env)))) ;;
  ret (nonce, false).

Definition getCachedNonce (env : Env) : M (Z * bool) :=
  s <- get ;;
  match cachedNonce s with
  | Some c =>
      if now env - nonce_lastUpdated c <? NONCE_CACHE_TTL
      then ret (nonce c, true)
      else fetchNonce env
  | None => fetchNonce env
  end.

(** *** Dispatch ([sendTransaction], the same text in both services) *)

(** The [try] block of [sendTransaction]. *)
Definition sendTransaction_try (env : Env) (blockNumber : Z) (blockData : BlockData)
  : M unit :=
  gasData <- getCachedGasData env ;;
  nonceData <- getCachedNonce env ;;
  let tx := mkTx (recipientAddress config) transferValue (gasLimit config)
              (fst gasData) (fst nonceData) in
  modify (fun s => set_sentTransactionCount (sentTransactionCount s + 1) s) ;;
  let sendTimestamp := now env in
  let response := wallet_sendTransaction (chain env) tx in
  hash <- rpc (fun _ => CallSend tx response) response ;;
  modify (fun s =>
            match cachedNonce s with
            | Some c => set_cachedNonce (Some (mkCachedNonce (nonce c + 1) (nonce_lastUpdated c))) s
            | None => s
            end) ;;
  modify (fun s =>
            set_pendingTransactions
              (map_set hash (mkPending blockNumber (now env) (bd_timestamp blockData) sendTimestamp)
                 (pendingTransactions s)) s).

Definition sendTransaction (env : Env) (blockNumber : Z) (blockData : BlockData)
  : M unit :=
  try_catch (sendTransaction_try env blockNumber blockData)
    (fun _ => modify (fun s => set_sentTransactionCount (sentTransactionCount s - 1) s)).

(** *** Lifecycle *)

(** [BlockchainService.start]: the two cells are fetched before the socket is
    opened and the timers are started (the socket and the timers deliver the
    events of a run). *)
Definition start (env : Env) : M unit :=
  getCachedGasData env ;;
  getCachedNonce env ;;
  ret tt.

(** [BlockchainServiceHTTP.start]. *)
Definition startHTTP (env : Env) : M unit :=
  getCachedGasData env ;;
  getCachedNonce env ;;
  height <- rpc CallBlockNumber (getBlockNumber (chain env)) ;;
  modify (set_lastProcessedBlock height) ;;
  modify (set_isPolling true).

Definition completed (s : State) : bool :=
  Z.of_nat (List.length (confirmationMetrics s)) =? transactionCount config.

(** [BlockchainService.stop] (the socket handle is not modelled). *)
Definition stop : M unit :=
  modify (set_isConnected false) ;;
  s <- get ;;
  if completed s then process_exit else ret tt.

(** [BlockchainServiceHTTP.stop]. *)
Definition stopHTTP : M unit :=
  modify (set_isPolling false) ;;
  s <- get ;;
  if completed s then process_exit else ret tt.

Definition isRunning (s : State) : bool :=
  isConnected s || negb (Nat.eqb (List.length (pendingTransactions s)) 0).

Definition isRunningHTTP (s : State) : bool :=
  isPolling s || negb (Nat.eqb (List.length (pendingTransactions s)) 0).

Definition shouldContinue (s : State) : bool :=
  sentTransactionCount s <? transactionCount config.

Definition isCompleted (s : State) : bool := completed s.

Definition getStatus (s : State) : Z * Z * Z :=
  (sentTransactionCount s, Z.of_nat (List.length (confirmationMetrics s)),
   transactionCount config).

(** *** Push feed: [BlockchainService.handleNewBlock] *)

Definition handleNewBlock (env : Env) (blockData : BlockData) : M unit :=
  modify (fun s => set_blockCount (blockCount s + 1) s) ;;
  let blockNumber := bd_number blockData in
  s <- get ;;
  if blockCount s <=? initialBlocksToSkip config then ret tt
  else
    if sentTransactionCount s <? transactionCount config
    then sendTransaction env blockNumber blockData
    else stop.

(** *** Pull feed: [BlockchainServiceHTTP.processBlock] and the poll loop *)

Definition processBlock (env : Env) (blockNumber : Z) : M unit :=
  try_catch
    (block <- rpc (CallBlock blockNumber) (getBlock (chain env) blockNumber) ;;
     match block with
     | None => ret tt
     | Some block =>
         modify (fun s => set_blockCount (blockCount s + 1) s) ;;
         s <- get ;;
         if blockCount s <=? initialBlocksToSkip config then ret tt
         else
           let blockData :=
             mkBlockData (b_number block) (string_or_empty (b_hash block))
               (toString16 (b_timestamp block)) (b_transactions block) in
           if sentTransactionCount s <? transactionCount config
           then sendTransaction env blockNumber blockData
           else stopHTTP
     end)
    (fun _ => ret tt).

(** The body of the gap loop of [pollBlocks]; [envs b] is the environment
    while block [b] is processed. *)
Definition poll_body (envs : Z -> Env) (blockNumber : Z) : M unit :=
  processBlock (envs blockNumber) blockNumber ;;
  modify (set_lastProcessedBlock blockNumber).

(** One run of the [pollBlocks] closure of [startBlockPolling]: [env] answers
    the height query. *)
Definition pollBlocks (env : Env) (envs : Z -> Env) : M unit :=
  s <- get ;;
  if negb (isPolling s) then ret tt
  else
    try_catch
      (currentBlock <- rpc CallBlockNumber (getBlockNumber (chain env)) ;;
       s <- get ;;
       if currentBlock >? lastProcessedBlock s + BLOCK_CONFIRMATION_DELAY
       then
         for_range
           (Z.to_nat (currentBlock - BLOCK_CONFIRMATION_DELAY - lastProcessedBlock s))
           (lastProcessedBlock s + 1)
           (poll_body envs)
       else ret tt)
      (fun _ => ret tt).

(** *** Confirmation monitor *)

Definition processConfirmedTransaction (env : Env) (hash : string)
    (receipt : TransactionReceipt) (info : PendingInfo) : M unit :=
  let blocksToConfirm := r_blockNumber receipt - sentBlock info in
  let confirmationTimeMs := now env - startTime info in
  confirmedBlock <- rpc (CallBlock (r_blockNumber receipt))
                      (getBlock (chain env) (r_blockNumber receipt)) ;;
  let metrics :=
    mkMetrics hash (sentBlock info) (r_blockNumber receipt) blocksToConfirm
      confirmationTimeMs (r_gasUsed receipt)
      (bigint_or (Some (r_gasPrice receipt)) 0)
      (sentBlockTimestamp info)
      (match confirmedBlock with
       | Some b => toString (b_timestamp b)
       | None => ""
       end)
      (sentTimestamp info) in
  modify (fun s => set_confirmationMetrics (confirmationMetrics s ++ [metrics]) s) ;;
  s <- get ;;
  if completed s
  then modify (set_exitScheduled true)   (* setTimeout(() => process.exit(0), 1000) *)
  else ret tt.

(** The body of the loop of [startTransactionMonitoring], for one entry
    [[hash, info]] of the pending map. *)
Definition monitor_body (env : Env) (entry : string * PendingInfo) : M unit :=
  let hash := fst entry in
  let info := snd entry in
  try_catch
    (receipt <- rpc (CallReceipt hash) (getTransactionReceipt (chain env) hash) ;;
     match receipt with
     | Some receipt =>
         processConfirmedTransaction env hash receipt info ;;
         modify (fun s =>
                   set_pendingTransactions
                     (map_delete hash (pendingTransactions s)) s)
     | None => ret tt
     end)
    (fun _ => ret tt).

(** The interval callback of [startTransactionMonitoring].  No entry is added
    while the callback runs, so iterating the live map is iterating the
    entries it had at the start. *)
Definition transactionMonitoringTick (env : Env) : M unit :=
  s <- get ;;
  if Nat.eqb (List.length (pendingTransactions s)) 0 then ret tt
  else forM_ (pendingTransactions s) (monitor_body env).

(** *** Refresh scheduler: the interval callback of [startGasDataRefresh]
    ([startDataRefresh] in the pull service) *)

Definition gasDataRefreshTick (env : Env) : M unit :=
  try_catch
    (getCachedGasData env ;; getCachedNonce env ;; ret tt)
    (fun _ => ret tt).

(** *** Runs *)

Inductive Event :=
| NewBlock (env : Env) (blockData : BlockData)
| PollTick (env : Env) (envs : Z -> Env)
| MonitorTick (env : Env)
| RefreshTick (env : Env).

Definition handle (ev : Event) : M unit :=
  match ev with
  | NewBlock env blockData => handleNewBlock env blockData
  | PollTick env envs => pollBlocks env envs
  | MonitorTick env => transactionMonitoringTick env
  | RefreshTick env => gasDataRefreshTick env
  end.

(** Nothing runs once the process has exited. *)
Definition step (s : State) (ev : Event) : State :=
  if exited s then s else snd (handle ev s).

Definition run (evs : list Event) (s : State) : State := fold_left step evs s.

End Engine.

(** ** Configuration loading ([src/config/ConfigLoader.ts]) *)

Module ConfigLoader.

(** A JavaScript number as [parseFloat] can return it.  Only comparisons are
    made on it, and they are exact. *)
Inductive number :=
| NaN
| PosInfinity
| NegInfinity
| Fin (q : Q).

(** [a <= b] and [a < b]; every comparison with [NaN] is false. *)
Definition leb (a b : number) : bool :=
  match a, b with
  | NaN, _ | _, NaN => false
  | NegInfinity, _ => true
  | _, PosInfinity => true
  | PosInfinity, _ => false
  | _, NegInfinity => false
  | Fin x, Fin y => Qle_bool x y
  end.

Definition ltb (a b : number) : bool :=
  match a, b with
  | NaN, _ | _, NaN => false
  | _, _ => negb (leb b a)
  end.

Definition isNaN (a : number) : bool :=
  match a with NaN => true | _ => false end.

Definition of_Z (z : Z) : number := Fin (inject_Z z).

Record BlockReactionConfig := mkConfig {
  websocketUrl : string;
  httpRpcUrl : string;
  privateKey : string;
  recipientAddress : string;
  gasLimit : number;
  gasPriceGwei : number;
  initialBlocksToSkip : number;
  transactionCount : number
}.

Inductive ConfigError :=
| MissingRequired (key : string)
| BadWebsocketUrl
| BadHttpRpcUrl
| BadPrivateKey
| BadRecipientAddress
| BadGasLimit
| BadGasPriceGwei (got : number)
| BadInitialBlocksToSkip
| BadTransactionCount.

Inductive Result (A : Type) :=
| Loaded (a : A)
| Thrown (e : ConfigError).
Arguments Loaded {A} a.
Arguments Thrown {A} e.

Definition andThen {A B} (r : Result A) (f : A -> Result B) : Result B :=
  match r with
  | Loaded a => f a
  | Thrown e => Thrown e
  end.

Section Loader.

(** [process.env] after [dotenv.config()], and the built-in [parseFloat]. *)
Variable process_env : string -> option string.
Variable parseFloat : string -> number.

(** [!value] for [value : string | undefined]. *)
Definition falsy (value : option string) : bool :=
  match value with
  | None => true
  | Some v => String.eqb v ""
  end.

Definition getRequiredEnvVar (key : string) : Result string :=
  match process_env key with
  | Some v => if String.eqb v "" then Thrown (MissingRequired key) else Loaded v
  | None => Thrown (MissingRequired key)
  end.

Definition getEnvVarAsNumber (key : string) (defaultValue : number) : number :=
  match process_env key with
  | None => defaultValue
  | Some value =>
      if String.eqb value "" then defaultValue
      else
        let num := parseFloat value in
        if isNaN num then defaultValue else num
  end.

Definition startsWith (s p : string) : bool := String.prefix p s.

Definition check (failed : bool) (e : ConfigError) : Result unit :=
  if failed then Thrown e else Loaded tt.

Definition validateConfig (config : BlockReactionConfig) : Result unit :=
  andThen (check (negb (startsWith (websocketUrl config) "wss://")
                  && negb (startsWith (websocketUrl config) "ws://"))
             BadWebsocketUrl) (fun _ =>
  andThen (check (negb (startsWith (httpRpcUrl config) "http://")
                  && negb (startsWith (httpRpcUrl config) "https://"))
             BadHttpRpcUrl) (fun _ =>
  andThen (check (negb (startsWith (privateKey config) "0x")
                  || negb (Nat.eqb (String.length (privateKey config)) 66))
             BadPrivateKey) (fun _ =>
  andThen (check (negb (startsWith (recipientAddress config) "0x")
                  || negb (Nat.eqb (String.length (recipientAddress config)) 42))
             BadRecipientAddress) (fun _ =>
  andThen (check (leb (gasLimit config) (of_Z 0)) BadGasLimit) (fun _ =>
  andThen (check (leb (gasPriceGwei config) (of_Z 0))
             (BadGasPriceGwei (gasPriceGwei config))) (fun _ =>
  andThen (check (ltb (initialBlocksToSkip config) (of_Z 0))
             BadInitialBlocksToSkip) (fun _ =>
  check (leb (transactionCount config) (of_Z 0)
         || ltb (of_Z 10) (transactionCount config))
    BadTransactionCount))))))).

Definition load : Result BlockReactionConfig :=
  andThen (getRequiredEnvVar "WEBSOCKET_URL") (fun websocketUrl =>
  andThen (getRequiredEnvVar "HTTP_RPC_URL") (fun httpRpcUrl =>
  andThen (getRequiredEnvVar "PRIVATE_KEY") (fun privateKey =>
  andThen (getRequiredEnvVar "RECIPIENT_ADDRESS") (fun recipientAddress =>
  let config :=
    mkConfig websocketUrl httpRpcUrl privateKey recipientAddress
      (getEnvVarAsNumber "GAS_LIMIT" (of_Z 21000))
      (getEnvVarAsNumber "GAS_PRICE_GWEI" (of_Z 20))
      (getEnvVarAsNumber "INITIAL_BLOCKS_TO_SKIP" (of_Z 10))
      (getEnvVarAsNumber "TRANSACTION_COUNT" (of_Z 5)) in
  andThen (validateConfig config) (fun _ => Loaded config))))).

(** The value of a numeric variable does not parse as a number. *)
Definition unparsable (key : string) : Prop :=
  exists value, process_env key = Some value /\ parseFloat value = NaN.

(** The value of a numeric variable parsed to the number [n]. *)
Definition parsed (key : string) (n : number) : Prop :=
  exists value,
    process_env key = Some value /\ value <> "" /\
    parseFloat value = n /\ n <> NaN.

End Loader.

End ConfigLoader.

(** ** Vocabulary of the properties *)

(** The TTL test of the two cache cells at clock reading [t]. *)
Definition gas_fresh (t : Z) (s : State) : bool :=
  match cachedGasData s with
  | Some c => t - lastUpdated c <? GAS_CACHE_TTL
  | None => false
  end.

Definition nonce_fresh (t : Z) (s : State) : bool :=
  match cachedNonce s with
  | Some c => t - nonce_lastUpdated c <? NONCE_CACHE_TTL
  | None => false
  end.

(** The state after one more recorded chain call. *)
Definition logged (c : Call) (s : State) : State := set_calls (c :: calls s) s.


(** Accepted submissions among recorded calls. *)
Definition is_accepted_send (c : Call) : bool :=
  match c with
  | CallSend _ (Some _) => true
  | _ => false
  end.

Definition accepted_sends (l : list Call) : Z :=
  Z.of_nat (List.length (filter is_accepted_send l)).

Definition is_send (c : Call) : bool :=
  match c with
  | CallSend _ _ => true
  | _ => false
  end.

(** The sequence number held by the cache. *)
Definition cached_sequence (s : State) : option Z := option_map nonce (cachedNonce s).

(** The transaction [sendTransaction] builds from the two fetched values. *)
Definition built_tx (config : BlockReactionConfig) (price sequence : Z) : TxRequest :=
  mkTx (recipientAddress config) transferValue (gasLimit config) price sequence.

(** How a dispatch attempt started in state [s] ends. *)
Inductive DispatchResult :=
| ParameterFetchFailed        (* the fee-rate or the sequence query rejected *)
| SubmissionRejected          (* both values fetched, the send rejected *)
| Accepted (hash : string).

Definition dispatch_result (config : BlockReactionConfig) (env : Env) (s : State)
  : DispatchResult :=
  match getCachedGasData config env s with
  | (Ok g, s1) =>
      match getCachedNonce env s1 with
      | (Ok n, _) =>
          match wallet_sendTransaction (chain env) (built_tx config (fst g) (fst n)) with
          | Some h => Accepted h
          | None => SubmissionRejected
          end
      | _ => ParameterFetchFailed
      end
  | _ => ParameterFetchFailed
  end.

(** [m] keeps [I]: whatever the outcome, the state it leaves satisfies [I]. *)
Definition preserves {A} (I : State -> Prop) (m : M A) : Prop :=
  forall s, I s -> I (snd (m s)).

(** A state predicate that does not look at a given part of the state; of the
    recorded calls it may look at the submissions only. *)
Definition ignores_calls (I : State -> Prop) : Prop :=
  forall c s, is_send c = false -> I s -> I (logged c s).
Definition ignores_gas_cell (I : State -> Prop) : Prop :=
  forall v s, I s -> I (set_cachedGasData v s).
Definition ignores_nonce_cell (I : State -> Prop) : Prop :=
  forall v s, I s -> I (set_cachedNonce v s).
Definition ignores_pending (I : State -> Prop) : Prop :=
  forall v s, I s -> I (set_pendingTransactions v s).
Definition ignores_metrics (I : State -> Prop) : Prop :=
  forall v s, I s -> I (set_confirmationMetrics v s).
Definition ignores_blockCount (I : State -> Prop) : Prop :=
  forall v s, I s -> I (set_blockCount v s).
Definition ignores_baseline (I : State -> Prop) : Prop :=
  forall v s, I s -> I (set_lastProcessedBlock v s).
Definition ignores_lifecycle (I : State -> Prop) : Prop :=
  forall v s,
    I s ->
    I (set_isConnected v s) /\ I (set_isPolling v s) /\
    I (set_exitScheduled v s) /\ I (set_exited v s).

(** A dispatch started after the budget test has passed keeps [I]. *)
Definition dispatch_keeps (config : BlockReactionConfig) (I : State -> Prop)
    (env : Env) : Prop :=
  forall bn bd s,
    I s -> sentTransactionCount s < transactionCount config ->
    I (snd (sendTransaction config env bn bd s)).



(** The fetch of block [b] fails: the call rejects or returns no block. *)
Definition fetch_fails (env : Env) (b : Z) : Prop :=
  getBlock (chain env) b = None \/ getBlock (chain env) b = Some None.

(** ** Sample data for the examples *)

Definition sample_config : BlockReactionConfig :=
  mkConfig "wss://node.example" "https://node.example"
    "0x0123456789abcdef0123456789abcdef0123456789abcdef0123456789abcdef"
    "0x742d35Cc6634C0532925a3b8D4C9db96C4b4d8b6"
    21000 20 1 2.

(** A client whose every call rejects. *)
Definition failing_chain : Chain :=
  mkChain None None (fun _ => None) (fun _ => None) (fun _ => None) None.

(** A client that reports fee data [fd] and sequence [n], accepts every
    submission with the hash [h], and has no receipt and no block yet. *)
Definition answering_chain (fd : FeeData) (n : Z) (h : string) : Chain :=
  mkChain (Some fd) (Some n) (fun _ => Some h) (fun _ => Some None)
    (fun _ => Some None) (Some 0).

Definition sample_fees : FeeData := mkFeeData (Some 30000000000) None None.

Definition sample_block (n : Z) : BlockData := mkBlockData n "0xb10c" "65a4f1c8" [].

(** The engine after [start()] at clock reading 0: both cells were fetched
    (price 30 gwei, sequence 5). *)
Definition started_state : State :=
  mkState 0 [] [] true false 0 0
    (Some (mkCachedGas 30000000000 None None 0))
    (Some (mkCachedNonce 5 0))
    [CallNonce true; CallFeeData true] false false.

(** The pull service after [start()] at height 10. *)
Definition polling_state : State :=
  mkState 0 [] [] false true 0 10
    (Some (mkCachedGas 30000000000 None None 0))
    (Some (mkCachedNonce 5 0))
    [CallBlockNumber true; CallNonce true; CallFeeData true] false false.

(** A client at height [h] whose block fetches reject. *)
Definition blockless_chain (h : Z) : Chain :=
  mkChain (Some sample_fees) (Some 5) (fun _ => Some "0xaa") (fun _ => Some None)
    (fun _ => None) (Some h).

(** A client at height [h] that serves every block. *)
Definition serving_chain (h : Z) : Chain :=
  mkChain (Some sample_fees) (Some 5) (fun _ => Some "0xaa") (fun _ => Some None)
    (fun n => Some (Some (mkBlock n (Some "0xb10c") 1700000000 []))) (Some h).

(** A client on which transaction [h] is confirmed in block [n]. *)
Definition confirming_chain (h : string) (n : Z) : Chain :=
  mkChain (Some sample_fees) (Some 5) (fun _ => None)
    (fun h' => if String.eqb h' h
               then Some (Some (mkReceipt n 21000 30000000000))
               else Some None)
    (fun b => Some (Some (mkBlock b (Some "0xb10c") 1700000000 [])))
    (Some n).

(** Budget 2, skip 1: block 100 is skipped, blocks 101 and 102 trigger the two
    dispatches, the receipts arrive for blocks 103 and 104. *)
Definition sample_run : list Event :=
  [NewBlock (mkEnv 1000 (answering_chain sample_fees 5 "0xaa")) (sample_block 100);
   NewBlock (mkEnv 2000 (answering_chain sample_fees 5 "0xaa")) (sample_block 101);
   NewBlock (mkEnv 3000 (answering_chain sample_fees 5 "0xbb")) (sample_block 102);
   MonitorTick (mkEnv 4000 (confirming_chain "0xaa" 103));
   MonitorTick (mkEnv 6000 (confirming_chain "0xbb" 104))].

(** [parseFloat] on what the examples feed it: an unsigned run of decimal
    digits at the start of the string gives its value, anything else [NaN]. *)
Definition digit_value (c : Ascii.ascii) : option Z :=
  let n := Z.of_nat (Ascii.nat_of_ascii c) in
  if (48 <=? n) && (n <=? 57) then Some (n - 48) else None.

Fixpoint leading_digits (s : string) (acc : option Z) : option Z :=
  match s with
  | EmptyString => acc
  | String c s' =>
      match digit_value c with
      | Some d =>
          leading_digits s'
            (Some (10 * match acc with Some a => a | None => 0 end + d))
      | None => acc
      end
  end.

Definition sample_parseFloat (s : string) : ConfigLoader.number :=
  match leading_digits s None with
  | Some n => ConfigLoader.of_Z n
  | None => ConfigLoader.NaN
  end.

(** An environment whose gas limit and transaction count are not numbers and
    whose other numeric variables are unset or empty. *)
Definition sample_env (key : string) : option string :=
  if String.eqb key "WEBSOCKET_URL" then Some "wss://node.example"
  else if String.eqb key "HTTP_RPC_URL" then Some "https://node.example"
  else if String.eqb key "PRIVATE_KEY"
  then Some "0x0123456789abcdef0123456789abcdef0123456789abcdef0123456789abcdef"
  else if String.eqb key "RECIPIENT_ADDRESS"
  then Some "0x742d35Cc6634C0532925a3b8D4C9db96C4b4d8b6"
  else if String.eqb key "GAS_LIMIT" then Some "plenty"
  else if String.eqb key "GAS_PRICE_GWEI" then Some ""
  else if String.eqb key "TRANSACTION_COUNT" then Some "many"
  else None.

(** The same environment with a transaction count of 11. *)
Definition greedy_env (key : string) : option string :=
  if String.eqb key "TRANSACTION_COUNT" then Some "11" else sample_env key.

(** ** Proof automation *)

(** Evaluation of the monad operations in a goal or a hypothesis. *)
Ltac munfold :=
  unfold bind, ret, get, modify, throw, try_catch, process_exit, rpc, logged in *;
  simpl in *.

(** Case analysis on whatever the program under evaluation branches on. *)
Ltac mcase :=
  match goal with
  | |- context [match ?x with _ => _ end] =>
      lazymatch x with
      | context [match _ with _ => _ end] => fail
      | _ => let E := fresh "E" in destruct x eqn:E
      end
  end.

Ltac mcrush := munfold; repeat (mcase; munfold).

(** Projections of updated states, without touching the arithmetic. *)
Ltac fields :=
  cbn [fst snd option_map
       blockCount pendingTransactions confirmationMetrics isConnected isPolling
       sentTransactionCount lastProcessedBlock cachedGasData cachedNonce calls
       exitScheduled exited
       set_blockCount set_pendingTransactions set_confirmationMetrics
       set_isConnected set_isPolling set_sentTransactionCount
       set_lastProcessedBlock set_cachedGasData set_cachedNonce set_calls
       set_exitScheduled set_exited logged
       nonce nonce_lastUpdated gasPrice lastUpdated
       is_send is_accepted_send] in *.

(** ** Further services and vocabulary *)

(** *** The entry point of the pull service ([src/index-http.ts]) *)

Section EntryPoint.

Variable config : BlockReactionConfig.

(** [handleShutdown], given the value of [shutdownRequested]; it returns
    the new value of the flag. *)
Definition handleShutdown (shutdownRequested : bool) : M bool :=
  if shutdownRequested then process_exit
  else
    stopHTTP config ;;
    s <- get ;;
    if negb (shouldContinue config s) then process_exit else ret true.

(** The five-second completion check of [main]. *)
Definition completionCheck : M unit :=
  s <- get ;;
  if isCompleted config s then process_exit else ret tt.

End EntryPoint.

(** *** The socket of the push service ([connectWebSocket],
    [subscribeToNewBlocks], [stop])

    The engine state together with the socket handle [this.ws].  Sockets are
    numbered in the order they are created; [subscriptions] and [closing]
    record on which sockets an [eth_subscribe] request was sent and [close()]
    was called (most recent first), [reconnects] counts the pending
    [setTimeout(() => this.connectWebSocket(), 5000)] timers. *)
Record PushService := mkPush {
  engine : State;
  ws : option nat;
  created : nat;
  subscriptions : list nat;
  closing : list nat;
  reconnects : nat
}.

Definition with_engine (s : State) (p : PushService) : PushService :=
  mkPush s (ws p) (created p) (subscriptions p) (closing p) (reconnects p).

(** A frame received on the socket: [JSON.parse] throws, or gives a message
    with its [method] and its [params.result]. *)
Inductive Inbound :=
| Malformed
| Parsed (method : string) (result : option BlockData).

Section Socket.

Variable config : BlockReactionConfig.

(** The assignment [this.ws = new WebSocket(...)] of [connectWebSocket]; the
    four handlers it registers are the functions below. *)
Definition connectWebSocket (p : PushService) : PushService :=
  mkPush (engine p) (Some (created p)) (S (created p)) (subscriptions p)
    (closing p) (reconnects p).

Definition subscribeToNewBlocks (p : PushService) : PushService :=
  match ws p with
  | Some socket =>
      if isConnected (engine p)
      then mkPush (engine p) (ws p) (created p) (socket :: subscriptions p)
             (closing p) (reconnects p)
      else p
  | None => p
  end.

Definition on_open (p : PushService) : PushService :=
  subscribeToNewBlocks (with_engine (set_isConnected true (engine p)) p).

Definition on_error (p : PushService) : PushService :=
  with_engine (set_isConnected false (engine p)) p.

Definition on_close (p : PushService) : PushService :=
  mkPush (set_isConnected false (engine p)) (ws p) (created p)
    (subscriptions p) (closing p) (S (reconnects p)).

(** A reconnect timer fires. *)
Definition on_reconnect_timer (p : PushService) : PushService :=
  match reconnects p with
  | O => p
  | S n =>
      connectWebSocket
        (mkPush (engine p) (ws p) (created p) (subscriptions p) (closing p) n)
  end.

(** [if (this.ws) { this.ws.close(); this.ws = null; }], the first statement
    of [stop]. *)
Definition close_socket (p : PushService) : PushService :=
  match ws p with
  | Some socket =>
      mkPush (engine p) None (created p) (subscriptions p)
        (socket :: closing p) (reconnects p)
  | None => p
  end.

(** [BlockchainService.stop], socket included. *)
Definition pushStop (p : PushService) : PushService :=
  let p1 := close_socket p in
  with_engine (snd (stop config (engine p1))) p1.

(** [handleNewBlock] takes its last branch, the call of [stop]. *)
Definition reaches_stop (s : State) : bool :=
  negb (blockCount s + 1 <=? initialBlocksToSkip config)
  && negb (sentTransactionCount s <? transactionCount config).

(** The [message] handler. *)
Definition on_message (env : Env) (frame : Inbound) (p : PushService) : PushService :=
  match frame with
  | Parsed method (Some blockData) =>
      if String.eqb method "eth_subscription"
      then
        let p1 := if reaches_stop (engine p) then close_socket p else p in
        with_engine (snd (handleNewBlock config env blockData (engine p))) p1
      else p
  | _ => p
  end.

End Socket.

(** *** Footprints

    The elementary state changes the handlers are made of. *)
Inductive Update :=
| Record_call (c : Call)
| Store_gas (c : CachedGasData)
| Store_nonce (c : CachedNonce)
| Advance_nonce
| Reserve_slot                       (* sentTransactionCount++ *)
| Release_slot                       (* sentTransactionCount-- *)
| Track (hash : string) (info : PendingInfo)
| Untrack (hash : string)
| Append_metrics (m : ConfirmationMetrics)
| Schedule_exit
| Count_block                        (* blockCount++ *)
| Move_baseline (b : Z)
| Disconnect
| Stop_polling
| Exit_process.

Definition apply_update (u : Update) (s : State) : State :=
  match u with
  | Record_call c => set_calls (c :: calls s) s
  | Store_gas c => set_cachedGasData (Some c) s
  | Store_nonce c => set_cachedNonce (Some c) s
  | Advance_nonce =>
      match cachedNonce s with
      | Some c =>
          set_cachedNonce (Some (mkCachedNonce (nonce c + 1) (nonce_lastUpdated c))) s
      | None => s
      end
  | Reserve_slot => set_sentTransactionCount (sentTransactionCount s + 1) s
  | Release_slot => set_sentTransactionCount (sentTransactionCount s - 1) s
  | Track hash info =>
      set_pendingTransactions (map_set hash info (pendingTransactions s)) s
  | Untrack hash =>
      set_pendingTransactions (map_delete hash (pendingTransactions s)) s
  | Append_metrics m =>
      set_confirmationMetrics (confirmationMetrics s ++ [m]) s
  | Schedule_exit => set_exitScheduled true s
  | Count_block => set_blockCount (blockCount s + 1) s
  | Move_baseline b => set_lastProcessedBlock b s
  | Disconnect => set_isConnected false s
  | Stop_polling => set_isPolling false s
  | Exit_process => set_exited true s
  end.

(** The updates of the two cache getters. *)
Definition cache_update (u : Update) : bool :=
  match u with
  | Record_call (CallFeeData _) | Record_call (CallNonce _)
  | Store_gas _ | Store_nonce _ => true
  | _ => false
  end.

(** The updates of [sendTransaction]. *)
Definition dispatch_update (u : Update) : bool :=
  match u with
  | Record_call (CallSend _ _) | Advance_nonce | Reserve_slot | Release_slot
  | Track _ _ => true
  | _ => cache_update u
  end.

(** The updates of the confirmation monitor. *)
Definition monitor_update (u : Update) : bool :=
  match u with
  | Record_call (CallReceipt _ _) | Record_call (CallBlock _ _)
  | Append_metrics _ | Schedule_exit | Untrack _ => true
  | _ => false
  end.

(** The updates of [handleNewBlock]. *)
Definition push_update (u : Update) : bool :=
  match u with
  | Count_block | Disconnect | Exit_process => true
  | _ => dispatch_update u
  end.

(** The updates of [processBlock] and of the poll loop. *)
Definition pull_update (u : Update) : bool :=
  match u with
  | Count_block | Stop_polling | Exit_process | Move_baseline _
  | Record_call (CallBlock _ _) | Record_call (CallBlockNumber _) => true
  | _ => dispatch_update u
  end.

Definition event_update (ev : Event) (u : Update) : bool :=
  match ev with
  | NewBlock _ _ => push_update u
  | PollTick _ _ => pull_update u
  | MonitorTick _ => monitor_update u
  | RefreshTick _ => cache_update u
  end.

(** [I] survives every update of the kind [U]. *)
Definition keeps (U : Update -> bool) (I : State -> Prop) : Prop :=
  forall u s, U u = true -> I s -> I (apply_update u s).

(** *** Vocabulary of the further properties *)

(** What one monitor tick makes of one pending entry: the metrics entry it
    records, or [None] when the entry stays pending (no receipt yet, or the
    receipt lookup or the block lookup rejects). *)
Definition confirmation_of (env : Env) (entry : string * PendingInfo)
  : option ConfirmationMetrics :=
  let hash := fst entry in
  let info := snd entry in
  match getTransactionReceipt (chain env) hash with
  | Some (Some receipt) =>
      match getBlock (chain env) (r_blockNumber receipt) with
      | Some confirmedBlock =>
          Some (mkMetrics hash (sentBlock info) (r_blockNumber receipt)
                  (r_blockNumber receipt - sentBlock info)
                  (now env - startTime info) (r_gasUsed receipt)
                  (bigint_or (Some (r_gasPrice receipt)) 0)
                  (sentBlockTimestamp info)
                  (match confirmedBlock with
                   | Some b => toString (b_timestamp b)
                   | None => ""
                   end)
                  (sentTimestamp info))
      | None => None
      end
  | _ => None
  end.

Definition still_pending (env : Env) (entry : string * PendingInfo) : bool :=
  match confirmation_of env entry with
  | Some _ => false
  | None => true
  end.

Definition confirmed_now (env : Env) (entries : list (string * PendingInfo))
  : list ConfirmationMetrics :=
  flat_map (fun entry =>
              match confirmation_of env entry with
              | Some m => [m]
              | None => []
              end) entries.

(** Receipt and block lookups among recorded calls. *)
Definition is_lookup (c : Call) : bool :=
  match c with
  | CallReceipt _ _ | CallBlock _ _ => true
  | _ => false
  end.

(** The fields the confirmation monitor has no business with. *)
Definition same_outside_monitor (s s' : State) : Prop :=
  blockCount s' = blockCount s /\
  sentTransactionCount s' = sentTransactionCount s /\
  lastProcessedBlock s' = lastProcessedBlock s /\
  cachedGasData s' = cachedGasData s /\
  cachedNonce s' = cachedNonce s /\
  isConnected s' = isConnected s /\
  isPolling s' = isPolling s /\
  exited s' = exited s.

(** A submission goes to the configured recipient, with the fixed amount and
    the configured gas limit. *)
Definition to_recipient (config : BlockReactionConfig) (c : Call) : Prop :=
  match c with
  | CallSend tx _ =>
      tx_to tx = recipientAddress config /\ tx_value tx = transferValue /\
      tx_gasLimit tx = gasLimit config
  | _ => True
  end.


(** A client whose fee-rate query rejects and whose other calls answer. *)
Definition feeless_chain : Chain :=
  mkChain None (Some 9) (fun _ => Some "0xaa") (fun _ => Some None)
    (fun _ => Some None) (Some 0).

(** The block numbers asked of the client, most recent first. *)
Definition block_fetches (l : list Call) : list Z :=
  flat_map (fun c => match c with CallBlock n _ => [n] | _ => [] end) l.

(** [top], [top - 1], ...: [n] numbers. *)
Fixpoint countdown (n : nat) (top : Z) : list Z :=
  match n with
  | O => []
  | S n' => top :: countdown n' (top - 1)
  end.

(** The block numbers above [last] up to [cur], highest first. *)
Definition gap_desc (last cur : Z) : list Z := countdown (Z.to_nat (cur - last)) cur.

Definition is_feed_event (ev : Event) : bool :=
  match ev with
  | PollTick _ _ | RefreshTick _ => true
  | _ => false
  end.

(** What a run of the pull feed has fetched since the baseline was [last0]
    and the fetches were [fetched0]. *)
Definition replayed (last0 : Z) (fetched0 : list Z) (s : State) : Prop :=
  exited s = false ->
  last0 <= lastProcessedBlock s /\
  block_fetches (calls s) = (gap_desc last0 (lastProcessedBlock s) ++ fetched0)%list.

(** The client accepted a submission and answered with the hash [h]. *)
Definition accepted (h : string) (l : list Call) : Prop :=
  exists tx, In (CallSend tx (Some h)) l.

(** The hashes the engine keeps, pending or confirmed, are the hashes the
    client answered submissions with. *)
Definition accounted (s : State) : Prop :=
  forall h,
    accepted h (calls s) <->
    In h (List.map fst (pendingTransactions s)) \/
    In h (List.map transactionHash (confirmationMetrics s)).

(** [accounted], and every hash of [keys] was answered. *)
Definition accounted_with (keys : list string) (s : State) : Prop :=
  accounted s /\ forall k, In k keys -> accepted k (calls s).

(** The required variables, in the order [load] reads them, and the first of
    them that is unset or empty. *)
Definition required_keys : list string :=
  ["WEBSOCKET_URL"; "HTTP_RPC_URL"; "PRIVATE_KEY"; "RECIPIENT_ADDRESS"].

Definition first_missing (process_env : string -> option string) : option string :=
  find (fun key => ConfigLoader.falsy (process_env key)) required_keys.

(** A configuration whose strings have the expected shape and whose numbers
    are numbers in range. *)
Definition well_formed (c : ConfigLoader.BlockReactionConfig) : Prop :=
  (ConfigLoader.startsWith (ConfigLoader.websocketUrl c) "wss://" = true \/
   ConfigLoader.startsWith (ConfigLoader.websocketUrl c) "ws://" = true) /\
  (ConfigLoader.startsWith (ConfigLoader.httpRpcUrl c) "http://" = true \/
   ConfigLoader.startsWith (ConfigLoader.httpRpcUrl c) "https://" = true) /\
  (ConfigLoader.startsWith (ConfigLoader.privateKey c) "0x" = true /\
   String.length (ConfigLoader.privateKey c) = 66%nat) /\
  (ConfigLoader.startsWith (ConfigLoader.recipientAddress c) "0x" = true /\
   String.length (ConfigLoader.recipientAddress c) = 42%nat) /\
  ConfigLoader.ltb (ConfigLoader.of_Z 0) (ConfigLoader.gasLimit c) = true /\
  ConfigLoader.ltb (ConfigLoader.of_Z 0) (ConfigLoader.gasPriceGwei c) = true /\
  ConfigLoader.leb (ConfigLoader.of_Z 0) (ConfigLoader.initialBlocksToSkip c) = true /\
  ConfigLoader.ltb (ConfigLoader.of_Z 0) (ConfigLoader.transactionCount c) = true /\
  ConfigLoader.leb (ConfigLoader.transactionCount c) (ConfigLoader.of_Z 10) = true.

(** The four required variables are set, to strings of the expected
    shape. *)
Definition strings_pass (process_env : string -> option string)
    (w h p r : string) : Prop :=
  process_env "WEBSOCKET_URL" = Some w /\
  process_env "HTTP_RPC_URL" = Some h /\
  process_env "PRIVATE_KEY" = Some p /\
  process_env "RECIPIENT_ADDRESS" = Some r /\
  (ConfigLoader.startsWith w "wss://" = true \/
   ConfigLoader.startsWith w "ws://" = true) /\
  (ConfigLoader.startsWith h "http://" = true \/
   ConfigLoader.startsWith h "https://" = true) /\
  (ConfigLoader.startsWith p "0x" = true /\ String.length p = 66%nat) /\
  (ConfigLoader.startsWith r "0x" = true /\ String.length r = 42%nat).



(** The process has ended only if every confirmation is in. *)
Definition exit_justified (config : BlockReactionConfig) (s : State) : Prop :=
  exited s = true -> completed config s = true.

(** The updates that neither end the process nor record a confirmation. *)
Definition quiet_update (u : Update) : bool :=
  match u with
  | Exit_process | Append_metrics _ => false
  | _ => true
  end.

(** The events that deliver blocks: notifications and polls. *)
Definition is_feed_source (ev : Event) : bool :=
  match ev with
  | NewBlock _ _ | PollTick _ _ => true
  | _ => false
  end.

(** A submission with a fee rate other than 0. *)
Definition priced (c : Call) : Prop :=
  match c with
  | CallSend tx _ => tx_gasPrice tx <> 0
  | _ => True
  end.

(** The fee cell holds no rate of 0, and no submission was made with one. *)
Definition never_free (s : State) : Prop :=
  (forall c, cachedGasData s = Some c -> gasPrice c <> 0) /\
  Forall priced (calls s).

(** What a run has added: the confirmation entries are kept and appended to,
    the block counter does not go down, a scheduled exit stays scheduled. *)
Definition grown_from (s0 s : State) : Prop :=
  (exists more, confirmationMetrics s = (confirmationMetrics s0 ++ more)%list) /\
  blockCount s0 <= blockCount s /\
  (exitScheduled s0 = true -> exitScheduled s = true).

(** ** The push service, await by await ([src/services/BlockchainService.ts])

    The definitions above run every handler in one piece.  That is how a
    handler runs when nothing else becomes ready while it waits; it is not
    the only way.  [handleNewBlock] is called from the [message] handler
    without being awaited, and the monitor and the refresh callbacks are
    [async] functions given to [setInterval]: every handler is suspended at
    each of its [await]s, and other handlers run in between.

    This second model follows the push service await by await.

    - A handler is a [Proc]: synchronous reads and writes of the state, and
      [Await], where it is suspended.  A suspended handler is resumed with
      the [Env] of the turn that resumes it: the clock reading of that turn
      and what the client answers at that turn.
    - The configuration is the record the loader returns, with JavaScript
      numbers ([ConfigLoader.number]) in its numeric fields: nothing on the
      way from the loader to the engine makes them whole.
    - Block headers arrive as the strings of the notification;
      [parseInt], [Date.prototype.toISOString] and [ethers.parseUnits] are
      partial and are modelled with their failures.
    - [pendingTransactions] is a JavaScript [Map]: a list of entry slots in
      insertion order, where [delete] leaves an empty slot and an iterator is
      a position in that list, so that a [for...of] loop sees what is added
      and deleted while it is suspended.
    - A JavaScript number is the rational it prints as (whole numbers below
      2^53 and decimal fractions of up to 15 digits are themselves).

    A [Pool] is the engine state together with the suspended handlers; an
    [Action] starts a handler or resumes a suspended one, in any order.
    Every order of the event loop is among them, and so are some it never
    produces (a continuation that waits for a promise of the service itself
    runs before the next timer or message): what is proved for all schedules
    holds of the event loop, and the sample schedules are schedules of the
    event loop. *)

Module Async.
Import ConfigLoader.

(** *** JavaScript numbers and the built-ins applied to them *)

(** [a === b]. *)
Definition eqb (a b : number) : bool :=
  match a, b with
  | Fin x, Fin y => Qeq_bool x y
  | PosInfinity, PosInfinity => true
  | NegInfinity, NegInfinity => true
  | _, _ => false
  end.

(** [a - b]. *)
Definition sub (a b : number) : number :=
  match a, b with
  | NaN, _ | _, NaN => NaN
  | Fin x, Fin y => Fin (Qred (Qminus x y))
  | PosInfinity, PosInfinity | NegInfinity, NegInfinity => NaN
  | PosInfinity, _ => PosInfinity
  | NegInfinity, _ => NegInfinity
  | Fin _, PosInfinity => NegInfinity
  | Fin _, NegInfinity => PosInfinity
  end.

(** [new Date(seconds * 1000).toISOString()] returns: the time value is a
    number within 8.64e15 ms of the epoch.  Otherwise the date is invalid and
    [toISOString] throws a [RangeError]. *)
Definition date_ok (seconds : number) : bool :=
  match seconds with
  | Fin q =>
      Qle_bool (inject_Z (-8640000000000000)) (Qmult q (inject_Z 1000))
      && Qle_bool (Qmult q (inject_Z 1000)) (inject_Z 8640000000000000)
  | _ => false
  end.

(** [parseInt(s, radix)] for [radix] 16 or absent ([None]): leading white
    space, a sign, the prefix [0x] or [0X] (radix 16 or absent), then the
    longest run of digits of the radix; [NaN] if there is none. *)
Definition is_white_space (c : Ascii.ascii) : bool :=
  let n := Z.of_nat (Ascii.nat_of_ascii c) in
  ((9 <=? n) && (n <=? 13)) || (n =? 32).

Fixpoint trim_start (s : string) : string :=
  match s with
  | String c s' => if is_white_space c then trim_start s' else s
  | EmptyString => s
  end.

Definition digit_of (radix : Z) (c : Ascii.ascii) : option Z :=
  let n := Z.of_nat (Ascii.nat_of_ascii c) in
  let v :=
    if (48 <=? n) && (n <=? 57) then Some (n - 48)
    else if (97 <=? n) && (n <=? 122) then Some (n - 87)
    else if (65 <=? n) && (n <=? 90) then Some (n - 55)
    else None in
  match v with
  | Some d => if d <? radix then Some d else None
  | None => None
  end.

Fixpoint digits_of (radix : Z) (s : string) (acc : option Z) : option Z :=
  match s with
  | EmptyString => acc
  | String c s' =>
      match digit_of radix c with
      | Some d =>
          digits_of radix s'
            (Some (radix * match acc with Some a => a | None => 0 end + d))
      | None => acc
      end
  end.

Definition code (c : Ascii.ascii) : Z := Z.of_nat (Ascii.nat_of_ascii c).

Definition strip_sign (s : string) : Z * string :=
  match s with
  | String c s' =>
      if code c =? 45 then (-1, s')            (* - *)
      else if code c =? 43 then (1, s')        (* + *)
      else (1, s)
  | EmptyString => (1, s)
  end.

Definition strip_0x (s : string) : option string :=
  match s with
  | String c1 (String c2 s') =>
      if (code c1 =? 48) && ((code c2 =? 120) || (code c2 =? 88))   (* 0x, 0X *)
      then Some s' else None
  | _ => None
  end.

Definition parseInt (s : string) (radix : option Z) : number :=
  let (sign, s1) := strip_sign (trim_start s) in
  let (r, s2) :=
    match strip_0x s1 with
    | Some rest => (16, rest)
    | None => (match radix with Some r => r | None => 10 end, s1)
    end in
  match digits_of r s2 None with
  | Some v => of_Z (sign * v)
  | None => NaN
  end.

(** [ethers.parseUnits(`${n}`, 'gwei')].  The string of a number is in
    exponent notation from 1e21 on and below 1e-6, and is [NaN] or
    [Infinity] for those; [parseUnits] throws on all of these, and on a
    decimal with more than 9 digits after the point.  [None]: it throws. *)
Definition abs_ge (q lo : Q) : bool :=
  Qle_bool lo q || Qle_bool q (Qopp lo).

Definition plain_notation (q : Q) : bool :=
  Qeq_bool q (inject_Z 0)
  || (abs_ge q (Qmake 1 1000000%positive)
      && negb (abs_ge q (inject_Z (10 ^ 21)))).

Definition parseUnits_gwei (n : number) : option Z :=
  match n with
  | Fin q =>
      let scaled := Qred (Qmult q (inject_Z (10 ^ 9))) in
      if plain_notation q && Pos.eqb (Qden scaled) 1%positive
      then Some (Qnum scaled) else None
  | _ => None
  end.

(** *** Data *)

(** A [newHeads] notification, as the strings it carries. *)
Record BlockData := mkBlockData {
  bd_number : string;
  bd_hash : string;
  bd_timestamp : string
}.

Record PendingInfo := mkPending {
  sentBlock : number;              (* parseInt(blockData.number, 16) *)
  startTime : Z;
  sentBlockTimestamp : string;
  sentTimestamp : Z
}.

Record ConfirmationMetrics := mkMetrics {
  transactionHash : string;
  sentBlockNumber : number;
  confirmedBlockNumber : Z;
  blocksToConfirm : number;
  confirmationTimeMs : Z;
  gasUsed : Z;
  effectiveGasPrice : Z;
  cm_sentBlockTimestamp : string;
  confirmedBlockTimestamp : string;
  cm_sentTimestamp : Z
}.

Record TxRequest := mkTx {
  tx_to : string;
  tx_value : Z;
  tx_gasLimit : number;
  tx_gasPrice : Z;
  tx_nonce : Z
}.

(** What the client answers at one turn of the event loop; [None] is a
    rejected promise. *)
Record Chain := mkChain {
  getFeeData : option FeeData;
  getNonce : option Z;
  wallet_sendTransaction : TxRequest -> option string;
  getTransactionReceipt : string -> option (option TransactionReceipt);
  getBlock : Z -> option (option Block)
}.

Record Env := mkEnv {
  now : Z;          (* Date.now() at this turn *)
  chain : Chain
}.

(** A chain call that has been answered, and how. *)
Inductive Call :=
| CallFeeData (ok : bool)
| CallNonce (ok : bool)
| CallSend (tx : TxRequest) (res : option string)
| CallReceipt (hash : string) (ok : bool)
| CallBlock (n : Z) (ok : bool).

Inductive Error :=
| Rejected (c : Call)       (* the rejection of a chain call *)
| RangeError                (* toISOString of an invalid date *)
| NumericFault.             (* parseUnits *)

(** The fields of [BlockchainService]; [calls] (most recent first),
    [exitScheduled] and [exited] are ghost fields for the answered calls, for
    [setTimeout(() => process.exit(0), 1000)] and for [process.exit]. *)
Record State := mkState {
  blockCount : Z;
  pendingTransactions : list (option (string * PendingInfo));
  confirmationMetrics : list ConfirmationMetrics;
  isConnected : bool;
  sentTransactionCount : Z;
  cachedGasData : option CachedGasData;
  cachedNonce : option CachedNonce;
  calls : list Call;
  exitScheduled : bool;
  exited : bool
}.

Definition initState : State :=
  mkState 0 [] [] false 0 None None [] false false.

Definition set_blockCount (v : Z) (s : State) : State :=
  mkState v (pendingTransactions s) (confirmationMetrics s) (isConnected s)
    (sentTransactionCount s) (cachedGasData s) (cachedNonce s) (calls s)
    (exitScheduled s) (exited s).

Definition set_pendingTransactions (v : list (option (string * PendingInfo)))
    (s : State) : State :=
  mkState (blockCount s) v (confirmationMetrics s) (isConnected s)
    (sentTransactionCount s) (cachedGasData s) (cachedNonce s) (calls s)
    (exitScheduled s) (exited s).

Definition set_confirmationMetrics (v : list ConfirmationMetrics) (s : State) : State :=
  mkState (blockCount s) (pendingTransactions s) v (isConnected s)
    (sentTransactionCount s) (cachedGasData s) (cachedNonce s) (calls s)
    (exitScheduled s) (exited s).

Definition set_isConnected (v : bool) (s : State) : State :=
  mkState (blockCount s) (pendingTransactions s) (confirmationMetrics s) v
    (sentTransactionCount s) (cachedGasData s) (cachedNonce s) (calls s)
    (exitScheduled s) (exited s).

Definition set_sentTransactionCount (v : Z) (s : State) : State :=
  mkState (blockCount s) (pendingTransactions s) (confirmationMetrics s)
    (isConnected s) v (cachedGasData s) (cachedNonce s) (calls s)
    (exitScheduled s) (exited s).

Definition set_cachedGasData (v : option CachedGasData) (s : State) : State :=
  mkState (blockCount s) (pendingTransactions s) (confirmationMetrics s)
    (isConnected s) (sentTransactionCount s) v (cachedNonce s) (calls s)
    (exitScheduled s) (exited s).

Definition set_cachedNonce (v : option CachedNonce) (s : State) : State :=
  mkState (blockCount s) (pendingTransactions s) (confirmationMetrics s)
    (isConnected s) (sentTransactionCount s) (cachedGasData s) v (calls s)
    (exitScheduled s) (exited s).

Definition set_calls (v : list Call) (s : State) : State :=
  mkState (blockCount s) (pendingTransactions s) (confirmationMetrics s)
    (isConnected s) (sentTransactionCount s) (cachedGasData s) (cachedNonce s) v
    (exitScheduled s) (exited s).

Definition set_exitScheduled (v : bool) (s : State) : State :=
  mkState (blockCount s) (pendingTransactions s) (confirmationMetrics s)
    (isConnected s) (sentTransactionCount s) (cachedGasData s) (cachedNonce s)
    (calls s) v (exited s).

Definition set_exited (v : bool) (s : State) : State :=
  mkState (blockCount s) (pendingTransactions s) (confirmationMetrics s)
    (isConnected s) (sentTransactionCount s) (cachedGasData s) (cachedNonce s)
    (calls s) (exitScheduled s) v.

Definition logged (c : Call) (s : State) : State := set_calls (c :: calls s) s.

(** *** The [Map] of pending transactions *)

Section MapOps.

Variable V : Type.

(** [map.set(k, v)]: the value of an existing entry is replaced in its slot,
    a new entry is appended. *)
Fixpoint map_set (k : string) (v : V) (m : list (option (string * V)))
  : list (option (string * V)) :=
  match m with
  | [] => [Some (k, v)]
  | Some (k', v') :: m' =>
      if String.eqb k' k then Some (k, v) :: m'
      else Some (k', v') :: map_set k v m'
  | None :: m' => None :: map_set k v m'
  end.

(** [map.delete(k)]: the slot is emptied and stays. *)
Definition map_delete (k : string) (m : list (option (string * V)))
  : list (option (string * V)) :=
  List.map (fun slot =>
              match slot with
              | Some (k', v') => if String.eqb k' k then None else slot
              | None => None
              end) m.

(** The entries, in insertion order. *)
Definition map_entries (m : list (option (string * V))) : list (string * V) :=
  flat_map (fun slot => match slot with Some e => [e] | None => [] end) m.

(** [map.size]. *)
Definition map_size (m : list (option (string * V))) : nat :=
  List.length (map_entries m).

(** [iterator.next()] of an iterator standing at slot [i]: the first entry at
    or after slot [i], with the position behind it; [None] when done. *)
Fixpoint map_next (i : nat) (m : list (option (string * V)))
  : option (nat * (string * V)) :=
  match m with
  | [] => None
  | slot :: m' =>
      match i, slot with
      | O, Some e => Some (1%nat, e)
      | O, None =>
          match map_next O m' with
          | Some (j, e) => Some (S j, e)
          | None => None
          end
      | S i', _ =>
          match map_next i' m' with
          | Some (j, e) => Some (S j, e)
          | None => None
          end
      end
  end.

End MapOps.

(** *** Handlers as resumptions *)

Inductive Outcome (A : Type) :=
| Ok (a : A)                (* returns *)
| Throw (e : Error)         (* throws, or its promise rejects *)
| Exit.                     (* process.exit was called *)
Arguments Ok {A} a.
Arguments Throw {A} e.
Arguments Exit {A}.

Inductive Proc (A : Type) : Type :=
| Ret (o : Outcome A)
| Upd (f : State -> State) (p : Proc A)       (* a write *)
| Get (k : State -> Proc A)                   (* a read *)
| Await (k : Env -> Proc A).                  (* suspended until a later turn *)
Arguments Ret {A} o.
Arguments Upd {A} f p.
Arguments Get {A} k.
Arguments Await {A} k.

(** [p], then [f] on how [p] ended. *)
Fixpoint settle {A B} (p : Proc A) (f : Outcome A -> Proc B) : Proc B :=
  match p with
  | Ret o => f o
  | Upd u p' => Upd u (settle p' f)
  | Get k => Get (fun s => settle (k s) f)
  | Await k => Await (fun env => settle (k env) f)
  end.

Definition bind {A B} (p : Proc A) (f : A -> Proc B) : Proc B :=
  settle p (fun o =>
              match o with
              | Ok a => f a
              | Throw e => Ret (Throw e)
              | Exit => Ret Exit
              end).

(** [try { p } catch (e) { h e }]. *)
Definition try_catch {A} (p : Proc A) (h : Error -> Proc A) : Proc A :=
  settle p (fun o =>
              match o with
              | Throw e => h e
              | _ => Ret o
              end).

(** [const a = await p(); k a] for a call of an [async] function of the
    service: [p] runs up to its own first [await] at once; the caller goes on
    in a later turn, whether [p] returned or threw. *)
Definition awaited {A B} (p : Proc A) (k : Env -> A -> Proc B) : Proc B :=
  settle p (fun o =>
              match o with
              | Ok a => Await (fun env => k env a)
              | Throw e => Await (fun _ => Ret (Throw e))
              | Exit => Ret Exit
              end).

(** [const a = await call; k a] for a call of the chain client: the answer
    is the one the client gives at the turn that resumes the handler. *)
Definition rpc {A B} (c : bool -> Call) (answer : Chain -> option A)
    (k : Env -> A -> Proc B) : Proc B :=
  Await (fun env =>
           match answer (chain env) with
           | Some a => Upd (logged (c true)) (k env a)
           | None => Upd (logged (c false)) (Ret (Throw (Rejected (c false))))
           end).

Section Engine.

Variable config : BlockReactionConfig.

(** *** Parameter cache *)

(** [feeData.gasPrice || ethers.parseUnits(...)]: the right operand is
    evaluated only when the left one is [null] or [0n]. *)
Definition gasPrice_or_default (feeData : FeeData) : Outcome Z :=
  match fd_gasPrice feeData with
  | Some v =>
      if v =? 0 then
        match parseUnits_gwei (gasPriceGwei config) with
        | Some d => Ok d
        | None => Throw NumericFault
        end
      else Ok v
  | None =>
      match parseUnits_gwei (gasPriceGwei config) with
      | Some d => Ok d
      | None => Throw NumericFault
      end
  end.

Definition getCachedGasData (env : Env) : Proc (Z * bool) :=
  let now := now env in
  let fetch :=
    rpc CallFeeData getFeeData (fun _ feeData =>
      match gasPrice_or_default feeData with
      | Ok gasPrice =>
          Upd (set_cachedGasData
                 (Some (mkCachedGas gasPrice
                          (bigint_or_undefined (fd_maxFeePerGas feeData))
                          (bigint_or_undefined (fd_maxPriorityFeePerGas feeData))
                          now)))
            (Ret (Ok (gasPrice, false)))
      | Throw e => Ret (Throw e)
      | Exit => Ret Exit
      end) in
  Get (fun s =>
         match cachedGasData s with
         | Some c =>
             if now - lastUpdated c <? GAS_CACHE_TTL
             then Ret (Ok (gasPrice c, true))
             else fetch
         | None => fetch
         end).

Definition getCachedNonce (env : Env) : Proc (Z * bool) :=
  let now := now env in
  let fetch :=
    rpc CallNonce getNonce (fun _ nonce =>
      Upd (set_cachedNonce (Some (mkCachedNonce nonce now)))
        (Ret (Ok (nonce, false)))) in
  Get (fun s =>
         match cachedNonce s with
         | Some c =>
             if now - nonce_lastUpdated c <? NONCE_CACHE_TTL
             then Ret (Ok (nonce c, true))
             else fetch
         | None => fetch
         end).

(** *** Dispatch *)

Definition built_tx (price sequence : Z) : TxRequest :=
  mkTx (recipientAddress config) transferValue (gasLimit config) price sequence.

Definition sendTransaction (env : Env) (blockNumber : number)
    (blockData : BlockData) : Proc unit :=
  try_catch
    (awaited (getCachedGasData env) (fun env1 gasData =>
     awaited (getCachedNonce env1) (fun env2 nonceData =>
     let tx := built_tx (fst gasData) (fst nonceData) in
     Upd (fun s => set_sentTransactionCount (sentTransactionCount s + 1) s)
       (let sendTimestamp := now env2 in
        Await (fun env3 =>
          match wallet_sendTransaction (chain env3) tx with
          | None =>
              Upd (logged (CallSend tx None))
                (Ret (Throw (Rejected (CallSend tx None))))
          | Some hash =>
              Upd (logged (CallSend tx (Some hash)))
             (Upd (fun s =>
                     match cachedNonce s with
                     | Some c =>
                         set_cachedNonce
                           (Some (mkCachedNonce (nonce c + 1) (nonce_lastUpdated c))) s
                     | None => s
                     end)
             (Upd (fun s =>
                     set_pendingTransactions
                       (map_set hash
                          (mkPending blockNumber (now env3)
                             (bd_timestamp blockData) sendTimestamp)
                          (pendingTransactions s)) s)
                (Ret (Ok tt))))
          end)))))
    (fun _ =>
       Upd (fun s => set_sentTransactionCount (sentTransactionCount s - 1) s)
         (Ret (Ok tt))).

(** *** Lifecycle *)

Definition completed (s : State) : bool :=
  eqb (of_Z (Z.of_nat (List.length (confirmationMetrics s))))
    (transactionCount config).

(** [stop] (the socket handle is not part of this state). *)
Definition stop : Proc unit :=
  Upd (set_isConnected false)
    (Get (fun s =>
            if completed s then Upd (set_exited true) (Ret Exit)
            else Ret (Ok tt))).

(** The two prefetches of [start]. *)
Definition start (env : Env) : Proc unit :=
  awaited (getCachedGasData env) (fun env1 _ =>
  awaited (getCachedNonce env1) (fun _ _ => Ret (Ok tt))).

(** *** Block notifications *)

(** The timestamp of a header formats. *)
Definition header_date_ok (blockData : BlockData) : bool :=
  date_ok (parseInt (bd_timestamp blockData) (Some 16)).

Definition handleNewBlock (env : Env) (blockData : BlockData) : Proc unit :=
  Upd (fun s => set_blockCount (blockCount s + 1) s)
    (let blockNumber := parseInt (bd_number blockData) (Some 16) in
     Get (fun s =>
       if leb (of_Z (blockCount s)) (initialBlocksToSkip config)
       then
         (* blockTimestamp = new Date(...).toISOString(), then the logs *)
         if header_date_ok blockData then Ret (Ok tt) else Ret (Throw RangeError)
       else
         (* the log of the header's timestamp *)
         if header_date_ok blockData
         then
           if ltb (of_Z (sentTransactionCount s)) (transactionCount config)
           then awaited (sendTransaction env blockNumber blockData)
                  (fun _ _ => Ret (Ok tt))
           else stop
         else Ret (Throw RangeError))).

(** *** Confirmation monitor *)

(** [metrics.x || '0']. *)
Definition or_zero (s : string) : string :=
  if String.eqb s "" then "0" else s.

(** The dates [printFinalSummary] formats for one entry: the two block
    timestamps (seconds) and the clock reading of the submission
    (milliseconds). *)
Definition entry_prints (m : ConfirmationMetrics) : bool :=
  date_ok (parseInt (or_zero (cm_sentBlockTimestamp m)) (Some 16))
  && date_ok (parseInt (or_zero (confirmedBlockTimestamp m)) None)
  && ((-8640000000000000 <=? cm_sentTimestamp m)
      && (cm_sentTimestamp m <=? 8640000000000000)).

(** [printFinalSummary]: output only, unless a date does not format. *)
Definition printFinalSummary : Proc unit :=
  Get (fun s =>
         if forallb entry_prints (confirmationMetrics s)
         then Ret (Ok tt) else Ret (Throw RangeError)).

Definition processConfirmedTransaction (env : Env) (hash : string)
    (receipt : TransactionReceipt) (info : PendingInfo) : Proc unit :=
  let blocksToConfirm := sub (of_Z (r_blockNumber receipt)) (sentBlock info) in
  let confirmationTimeMs := now env - startTime info in
  rpc (CallBlock (r_blockNumber receipt))
    (fun c => getBlock c (r_blockNumber receipt))
    (fun _ confirmedBlock =>
       let metrics :=
         mkMetrics hash (sentBlock info) (r_blockNumber receipt) blocksToConfirm
           confirmationTimeMs (r_gasUsed receipt)
           (bigint_or (Some (r_gasPrice receipt)) 0)
           (sentBlockTimestamp info)
           (match confirmedBlock with
            | Some b => toString (b_timestamp b)
            | None => ""
            end)
           (sentTimestamp info) in
       Upd (fun s => set_confirmationMetrics (confirmationMetrics s ++ [metrics]) s)
         (Get (fun s =>
                 if completed s
                 then bind printFinalSummary (fun _ =>
                        Upd (set_exitScheduled true) (Ret (Ok tt)))
                 else Ret (Ok tt)))).

(** One turn of the loop of the monitor, from the answer to
    [getTransactionReceipt(hash)] on. *)
Definition monitor_turn (hash : string) (info : PendingInfo) : Env -> Proc unit :=
  fun env =>
    try_catch
      (match getTransactionReceipt (chain env) hash with
       | None =>
           Upd (logged (CallReceipt hash false))
             (Ret (Throw (Rejected (CallReceipt hash false))))
       | Some receipt =>
           Upd (logged (CallReceipt hash true))
             (match receipt with
              | Some receipt =>
                  awaited (processConfirmedTransaction env hash receipt info)
                    (fun _ _ =>
                       Upd (fun s =>
                              set_pendingTransactions
                                (map_delete hash (pendingTransactions s)) s)
                         (Ret (Ok tt)))
              | None => Ret (Ok tt)
              end)
       end)
      (fun _ => Ret (Ok tt)).

(** *** Refresh scheduler *)

Definition gasDataRefresh (env : Env) : Proc unit :=
  try_catch
    (awaited (getCachedGasData env) (fun env1 _ =>
     awaited (getCachedNonce env1) (fun _ _ => Ret (Ok tt))))
    (fun _ => Ret (Ok tt)).

(** *** Turns of the event loop *)

(** A handler runs until it is suspended or done. *)
Inductive Paused (A : Type) :=
| Finished (o : Outcome A)
| Suspended (k : Env -> Proc A).
Arguments Finished {A} o.
Arguments Suspended {A} k.

Fixpoint segment {A} (p : Proc A) (s : State) : Paused A * State :=
  match p with
  | Ret o => (Finished o, s)
  | Upd f p' => segment p' (f s)
  | Get k => segment (k s) s
  | Await k => (Suspended k, s)
  end.

(** A handler run with nothing in between: every turn that resumes it sees
    [env]. *)
Fixpoint alone {A} (env : Env) (p : Proc A) (s : State) : Outcome A * State :=
  match p with
  | Ret o => (o, s)
  | Upd f p' => alone env p' (f s)
  | Get k => alone env (k s) s
  | Await k => alone env (k env) s
  end.

Inductive Event :=
| NewBlock (blockData : BlockData)
| MonitorTick
| RefreshTick.

(** A suspended handler; of a monitor tick also the position of the iterator
    of its [for...of] loop. *)
Inductive Task :=
| Handler (k : Env -> Proc unit)
| Tick (i : nat) (k : Env -> Proc unit).

(** The engine, the suspended handlers in the order they were started, and
    the errors handlers have rejected with (most recent first).  Nothing in
    the service catches them; what the runtime does with the process on an
    unhandled rejection is outside the model. *)
Record Pool := mkPool {
  engine : State;
  tasks : list Task;
  rejections : list Error
}.

Inductive After :=
| Gone
| Waiting (t : Task)
| Failed (e : Error).

(** The [for...of] loop of the monitor takes its next entry and asks for its
    receipt. *)
Definition advance (i : nat) (s : State) : After :=
  match map_next i (pendingTransactions s) with
  | Some (j, (hash, info)) => Waiting (Tick j (monitor_turn hash info))
  | None => Gone
  end.

Definition turn (t : Task) (env : Env) (s : State) : After * State :=
  match t with
  | Handler k =>
      match segment (k env) s with
      | (Finished (Throw e), s') => (Failed e, s')
      | (Finished _, s') => (Gone, s')
      | (Suspended k', s') => (Waiting (Handler k'), s')
      end
  | Tick i k =>
      match segment (k env) s with
      | (Finished (Ok _), s') => (advance i s', s')
      | (Finished (Throw e), s') => (Failed e, s')
      | (Finished Exit, s') => (Gone, s')
      | (Suspended k', s') => (Waiting (Tick i k'), s')
      end
  end.

(** The first turn of the handler of an event. *)
Definition fire (ev : Event) (env : Env) (s : State) : After * State :=
  match ev with
  | NewBlock blockData => turn (Handler (fun e => handleNewBlock e blockData)) env s
  | RefreshTick => turn (Handler gasDataRefresh) env s
  | MonitorTick =>
      if Nat.eqb (map_size (pendingTransactions s)) 0 then (Gone, s)
      else (advance 0 s, s)
  end.

Inductive Action :=
| Fire (ev : Event) (env : Env)       (* a notification arrives, a timer fires *)
| Resume (i : nat) (env : Env).       (* the [i]-th suspended handler goes on *)

Fixpoint replace_nth (i : nat) (t : option Task) (l : list Task) : list Task :=
  match l, i with
  | [], _ => []
  | _ :: l', O => match t with Some t' => t' :: l' | None => l' end
  | x :: l', S i' => x :: replace_nth i' t l'
  end.

Definition step (P : Pool) (a : Action) : Pool :=
  if exited (engine P) then P
  else
    match a with
    | Fire ev env =>
        match fire ev env (engine P) with
        | (Gone, s') => mkPool s' (tasks P) (rejections P)
        | (Waiting t, s') => mkPool s' (tasks P ++ [t]) (rejections P)
        | (Failed e, s') => mkPool s' (tasks P) (e :: rejections P)
        end
    | Resume i env =>
        match nth_error (tasks P) i with
        | None => P
        | Some t =>
            match turn t env (engine P) with
            | (Gone, s') => mkPool s' (replace_nth i None (tasks P)) (rejections P)
            | (Waiting t', s') =>
                mkPool s' (replace_nth i (Some t') (tasks P)) (rejections P)
            | (Failed e, s') =>
                mkPool s' (replace_nth i None (tasks P)) (e :: rejections P)
            end
        end
    end.

Definition run (acts : list Action) (P : Pool) : Pool := fold_left step acts P.

End Engine.

(** *** Vocabulary of the properties *)

Definition is_send (c : Call) : bool :=
  match c with
  | CallSend _ _ => true
  | _ => false
  end.




(** Every write of [p], on whatever path, keeps [I]. *)
Inductive respects {A : Type} (I : State -> Prop) : Proc A -> Prop :=
| respects_Ret o : respects I (Ret o)
| respects_Upd f p :
    (forall s, I s -> I (f s)) -> respects I p -> respects I (Upd f p)
| respects_Get k : (forall s, respects I (k s)) -> respects I (Get k)
| respects_Await k : (forall env, respects I (k env)) -> respects I (Await k).


(** Every way [p] can end, on whatever path, is in [Q]. *)
Inductive ends {A : Type} (Q : Outcome A -> Prop) : Proc A -> Prop :=
| ends_Ret o : Q o -> ends Q (Ret o)
| ends_Upd f p : ends Q p -> ends Q (Upd f p)
| ends_Get k : (forall s, ends Q (k s)) -> ends Q (Get k)
| ends_Await k : (forall env, ends Q (k env)) -> ends Q (Await k).

(** An outcome that is no error outside [R]. *)
Definition rejects_only {A : Type} (R : Error -> Prop) (o : Outcome A) : Prop :=
  match o with
  | Throw e => R e
  | _ => True
  end.

(** A suspended handler, of a notification or of a tick, whose writes keep
    [I]; one that ends in [Q]. *)
Definition task_respects (I : State -> Prop) (t : Task) : Prop :=
  match t with
  | Handler k | Tick _ k => forall env, respects I (k env)
  end.

Definition task_ends (Q : Outcome unit -> Prop) (t : Task) : Prop :=
  match t with
  | Handler k | Tick _ k => forall env, ends Q (k env)
  end.

(** The headers the actions notify satisfy [good]. *)
Definition notifies (good : BlockData -> Prop) (a : Action) : Prop :=
  match a with
  | Fire (NewBlock blockData) _ => good blockData
  | _ => True
  end.


(** The arithmetic of a metrics entry. *)
Definition metric_subtracts (m : ConfirmationMetrics) : Prop :=
  blocksToConfirm m = sub (of_Z (confirmedBlockNumber m)) (sentBlockNumber m).

(** Every metrics entry of the engine has that arithmetic. *)
Definition subtracting (s : State) : Prop :=
  Forall metric_subtracts (confirmationMetrics s).

(** The TTL test of the two cells at clock reading [t]. *)
Definition gas_fresh (t : Z) (s : State) : bool :=
  match cachedGasData s with
  | Some c => t - lastUpdated c <? GAS_CACHE_TTL
  | None => false
  end.

Definition nonce_fresh (t : Z) (s : State) : bool :=
  match cachedNonce s with
  | Some c => t - nonce_lastUpdated c <? NONCE_CACHE_TTL
  | None => false
  end.





(** *** Sample data *)

(** Budget 2, one block to skip. *)
Definition sample_config : BlockReactionConfig :=
  mkConfig "wss://node.example" "https://node.example"
    "0x0123456789abcdef0123456789abcdef0123456789abcdef0123456789abcdef"
    "0x742d35Cc6634C0532925a3b8D4C9db96C4b4d8b6"
    (of_Z 21000) (of_Z 20) (of_Z 1) (of_Z 2).


Definition fractional_config : BlockReactionConfig :=
  mkConfig "wss://node.example" "https://node.example"
    "0x0123456789abcdef0123456789abcdef0123456789abcdef0123456789abcdef"
    "0x742d35Cc6634C0532925a3b8D4C9db96C4b4d8b6"
    (of_Z 21000) (of_Z 20) (of_Z 1) (Fin (Qmake 5 2)).

(** A client that reports the fee data [fd] and the sequence 5, answers a
    submission with [send], has no receipt and no block. *)
Definition client (fd : FeeData) (send : option string) : Chain :=
  mkChain (Some fd) (Some 5) (fun _ => send) (fun _ => Some None)
    (fun _ => Some None).

(** A turn at clock reading [t] at which a submission is answered with
    [send]. *)
Definition at_ (t : Z) (send : option string) : Env :=
  mkEnv t (client sample_fees send).

(** A client on which the transaction [h] has its receipt in block [n], and
    which serves every block. *)
Definition confirming (h : string) (n : Z) : Chain :=
  mkChain (Some sample_fees) (Some 5) (fun _ => None)
    (fun h' => if String.eqb h' h
               then Some (Some (mkReceipt n 21000 30000000000))
               else Some None)
    (fun b => Some (Some (mkBlock b (Some "0xb10c") 1700000000 []))).

(** The header of block [number] (in hexadecimal), stamped 2024-01-15. *)
Definition header (number : string) : BlockData :=
  mkBlockData number "0xb10c" "0x65a4f1c8".


(** The engine after [start()] at clock reading 0: both cells fetched (30
    gwei, sequence 5). *)
Definition started : State :=
  mkState 0 [] [] true 0
    (Some (mkCachedGas 30000000000 None None 0))
    (Some (mkCachedNonce 5 0))
    [CallNonce true; CallFeeData true] false false.

(** The schedules below follow the order of the event loop: a continuation
    that waits for a promise of the service itself runs in the turn that
    settles it, before any other handler. *)

(** Block 0x64 is skipped.  Then the node delivers three heads 250 ms apart,
    31 s after [start()], when the fee cell, fetched at 0, has expired; a fee
    query takes about 1 s.  The handlers of 0x65, 0x66 and 0x67 each pass the
    budget test and wait for their fee query.  Then each gets its fee data,
    goes on to the sequence (still cached), increments the counter and
    submits. *)
Definition three_in_flight : list Action :=
  [Fire (NewBlock (header "0x64")) (at_ 19000 None);
   Fire (NewBlock (header "0x65")) (at_ 31000 None);
   Fire (NewBlock (header "0x66")) (at_ 31250 None);
   Fire (NewBlock (header "0x67")) (at_ 31500 None);
   Resume 0 (at_ 32000 None); Resume 0 (at_ 32000 None); Resume 0 (at_ 32000 None);
   Resume 1 (at_ 32250 None); Resume 1 (at_ 32250 None); Resume 1 (at_ 32250 None);
   Resume 2 (at_ 32500 None); Resume 2 (at_ 32500 None); Resume 2 (at_ 32500 None)].

(** The client accepts the first of the three submissions and rejects the
    two copies of it; each handler returns when its submission is
    answered. *)
Definition three_answers : list Action :=
  [Resume 0 (at_ 33000 (Some "0xaa")); Resume 0 (at_ 33000 (Some "0xaa"));
   Resume 0 (at_ 33250 None); Resume 0 (at_ 33250 None);
   Resume 0 (at_ 33500 None); Resume 0 (at_ 33500 None)].

(** The notification of block [number] at [t], its handler run to its end
    before anything else happens; the client accepts the submission under the
    hash [h], 300 ms later. *)
Definition in_turn (number : string) (t : Z) (h : string) : list Action :=
  [Fire (NewBlock (header number)) (at_ t (Some h));
   Resume 0 (at_ t (Some h)); Resume 0 (at_ t (Some h));
   Resume 0 (at_ (t + 300) (Some h)); Resume 0 (at_ (t + 300) (Some h))].

(** Block 0x64 is skipped, then three notifications one after the other. *)
Definition three_in_turn : list Action :=
  (Fire (NewBlock (header "0x64")) (at_ 1000 None)
     :: in_turn "0x65" 2000 "0xaa" ++ in_turn "0x66" 3000 "0xbb"
     ++ in_turn "0x67" 4000 "0xcc")%list.

(** Block 0x64 is skipped, the transaction 0xaa is sent for block 0x65
    (101). *)
Definition one_dispatch : list Action :=
  Fire (NewBlock (header "0x64")) (at_ 1000 None) :: in_turn "0x65" 2000 "0xaa".

(** Two monitor ticks, 2 s apart, on a client that takes its time.  The
    first finds the receipt of 0xaa (block 103) at 41900 and waits for the
    block; the second starts at 42000, finds the same entry still in the map
    and its receipt, and waits for the block too.  At 42300 the first gets
    the block, records its metrics entry and deletes the entry from the map;
    at 42400 the second gets the block and records its own. *)
Definition two_ticks : list Action :=
  let e := fun t => mkEnv t (confirming "0xaa" 103) in
  [Fire MonitorTick (e 40000); Resume 0 (e 41900);
   Fire MonitorTick (e 42000); Resume 1 (e 42100);
   Resume 0 (e 42300); Resume 0 (e 42300);
   Resume 0 (e 42400); Resume 0 (e 42400)].

(** One tick on a client that reports the receipt of 0xaa in block 98, as
    after a reorganisation of the chain. *)
Definition early_receipt : list Action :=
  let e := fun t => mkEnv t (confirming "0xaa" 98) in
  [Fire MonitorTick (e 40000); Resume 0 (e 40100); Resume 0 (e 40200);
   Resume 0 (e 40200)].

(** An environment file that sets the budget to 2.5. *)
Definition fractional_env (key : string) : option string :=
  if String.eqb key "WEBSOCKET_URL" then Some "wss://node.example"
  else if String.eqb key "HTTP_RPC_URL" then Some "https://node.example"
  else if String.eqb key "PRIVATE_KEY"
  then Some "0x0123456789abcdef0123456789abcdef0123456789abcdef0123456789abcdef"
  else if String.eqb key "RECIPIENT_ADDRESS"
  then Some "0x742d35Cc6634C0532925a3b8D4C9db96C4b4d8b6"
  else if String.eqb key "INITIAL_BLOCKS_TO_SKIP" then Some "1"
  else if String.eqb key "TRANSACTION_COUNT" then Some "2.5"
  else None.

(** A write that keeps a property of fields it does not touch. *)
Ltac same := let s := fresh "s" in let H := fresh "H" in intros s H; exact H.

End Async.

(** * Properties *)

Unset Implicit Arguments.

(** ** Parameter cache *)

Section CacheFacts.

Variable config : BlockReactionConfig.





Lemma getCachedGasData_fresh env s c :
  cachedGasData s = Some c ->
  now env - lastUpdated c < GAS_CACHE_TTL ->
  getCachedGasData config env s = (Ok (gasPrice c, true), s).
Proof.
  intros Hc Ht. unfold getCachedGasData, bind, get. rewrite Hc.
  apply Z.ltb_lt in Ht. rewrite Ht. reflexivity.
Qed.

Lemma getCachedGasData_stale env s :
  gas_fresh (now env) s = false ->
  getCachedGasData config env s = fetchGasData config env s.
Proof.
  unfold gas_fresh, getCachedGasData, bind, get.
  destruct (cachedGasData s) as [c|]; [intros ->|]; reflexivity.
Qed.

Lemma fetchGasData_ok env s fd :
  getFeeData (chain env) = Some fd ->
  let price := bigint_or (fd_gasPrice fd) (parseUnits_gwei (gasPriceGwei config)) in
  fetchGasData config env s =
    (Ok (price, false),
     set_cachedGasData
       (Some (mkCachedGas price (bigint_or_undefined (fd_maxFeePerGas fd))
                (bigint_or_undefined (fd_maxPriorityFeePerGas fd)) (now env)))
       (logged (CallFeeData true) s)).
Proof. intros H. unfold fetchGasData, rpc. rewrite H. reflexivity. Qed.

Lemma fetchGasData_fail env s :
  getFeeData (chain env) = None ->
  fetchGasData config env s = (Throw (CallFeeData false), logged (CallFeeData false) s).
Proof. intros H. unfold fetchGasData, rpc. rewrite H. reflexivity. Qed.


End CacheFacts.



(** ** Invariants through the handler monad *)

Section Preserves.

Variable I : State -> Prop.

Lemma preserves_ret A (a : A) : preserves I (ret a).
Proof. intros s H. exact H. Qed.

Lemma preserves_get : preserves I get.
Proof. intros s H. exact H. Qed.

Lemma preserves_throw A e : preserves I (@throw A e).
Proof. intros s H. exact H. Qed.

Lemma preserves_modify f : (forall s, I s -> I (f s)) -> preserves I (modify f).
Proof. intros Hf s H. apply Hf, H. Qed.

Lemma preserves_bind A B (m : M A) (f : A -> M B) :
  preserves I m -> (forall a, preserves I (f a)) -> preserves I (bind m f).
Proof.
  intros Hm Hf s H. unfold bind. specialize (Hm s H).
  destruct (m s) as [[a|e|] s']; simpl in *; auto. now apply Hf.
Qed.

Lemma preserves_try_catch A (m : M A) h :
  preserves I m -> (forall e, preserves I (h e)) -> preserves I (try_catch m h).
Proof.
  intros Hm Hh s H. unfold try_catch. specialize (Hm s H).
  destruct (m s) as [[a|e|] s']; simpl in *; auto. now apply Hh.
Qed.

Lemma preserves_forM A (l : list A) body :
  (forall x, In x l -> preserves I (body x)) -> preserves I (forM_ l body).
Proof.
  induction l as [|x l IH]; intros Hb; simpl.
  - apply preserves_ret.
  - apply preserves_bind.
    + apply Hb. now left.
    + intros _. apply IH. intros y Hy. apply Hb. now right.
Qed.

Lemma preserves_for_range n i body :
  (forall j, preserves I (body j)) -> preserves I (for_range n i body).
Proof.
  intros Hb. revert i. induction n as [|n IH]; intros i; simpl.
  - apply preserves_ret.
  - apply preserves_bind; auto.
Qed.

Lemma preserves_rpc A (c : bool -> Call) (answer : option A) :
  (forall b, is_send (c b) = false) ->
  ignores_calls I -> preserves I (rpc c answer).
Proof.
  intros Hs Hc s H. unfold rpc.
  destruct answer; unfold bind, modify, ret, throw; simpl; apply Hc; auto.
Qed.

Lemma preserves_if A (b : bool) (m1 m2 : M A) :
  preserves I m1 -> preserves I m2 -> preserves I (if b then m1 else m2).
Proof. destruct b; auto. Qed.

End Preserves.

(** ** Dispatch *)

Section DispatchFacts.

Variable config : BlockReactionConfig.

(** The cache getters never exit the process and touch nothing but their own
    cell and the recorded calls. *)
Lemma getCachedGasData_outcome env s :
  fst (getCachedGasData config env s) <> Exit.
Proof. unfold getCachedGasData, fetchGasData. mcrush; discriminate. Qed.

Lemma getCachedNonce_outcome env s :
  fst (getCachedNonce env s) <> Exit.
Proof. unfold getCachedNonce, fetchNonce. mcrush; discriminate. Qed.

Lemma preserves_getCachedGasData I env :
  ignores_calls I -> ignores_gas_cell I ->
  preserves I (getCachedGasData config env).
Proof.
  intros Hc Hg. unfold getCachedGasData, fetchGasData.
  apply preserves_bind; [apply preserves_get|]. intros s0.
  assert (Hf : preserves I (fetchGasData config env)).
  { unfold fetchGasData. apply preserves_bind; [apply preserves_rpc; auto|].
    intros fd. apply preserves_bind; [apply preserves_modify; auto|].
    intros _. apply preserves_ret. }
  destruct (cachedGasData s0) as [c|]; [|exact Hf].
  apply preserves_if; [apply preserves_ret | exact Hf].
Qed.

Lemma preserves_getCachedNonce I env :
  ignores_calls I -> ignores_nonce_cell I ->
  preserves I (getCachedNonce env).
Proof.
  intros Hc Hg. unfold getCachedNonce.
  apply preserves_bind; [apply preserves_get|]. intros s0.
  assert (Hf : preserves I (fetchNonce env)).
  { unfold fetchNonce. apply preserves_bind; [apply preserves_rpc; auto|].
    intros fd. apply preserves_bind; [apply preserves_modify; auto|].
    intros _. apply preserves_ret. }
  destruct (cachedNonce s0) as [c|]; [|exact Hf].
  apply preserves_if; [apply preserves_ret | exact Hf].
Qed.

(** [sendTransaction], outcome by outcome. *)
Lemma sendTransaction_gas_fails env bn bd s e s1 :
  getCachedGasData config env s = (Throw e, s1) ->
  sendTransaction config env bn bd s
  = (Ok tt, set_sentTransactionCount (sentTransactionCount s1 - 1) s1).
Proof.
  intros H. unfold sendTransaction, sendTransaction_try, try_catch, bind.
  rewrite H. reflexivity.
Qed.

Lemma sendTransaction_nonce_fails env bn bd s g s1 e s2 :
  getCachedGasData config env s = (Ok g, s1) ->
  getCachedNonce env s1 = (Throw e, s2) ->
  sendTransaction config env bn bd s
  = (Ok tt, set_sentTransactionCount (sentTransactionCount s2 - 1) s2).
Proof.
  intros H1 H2. unfold sendTransaction, sendTransaction_try, try_catch, bind.
  rewrite H1, H2. reflexivity.
Qed.

Lemma sendTransaction_rejected env bn bd s g s1 n s2 :
  getCachedGasData config env s = (Ok g, s1) ->
  getCachedNonce env s1 = (Ok n, s2) ->
  wallet_sendTransaction (chain env) (built_tx config (fst g) (fst n)) = None ->
  sendTransaction config env bn bd s
  = (Ok tt,
     set_sentTransactionCount (sentTransactionCount s2)
       (logged (CallSend (built_tx config (fst g) (fst n)) None) s2)).
Proof.
  intros H1 H2 H3. unfold sendTransaction, sendTransaction_try, try_catch, bind.
  rewrite H1, H2. unfold built_tx in H3. munfold. rewrite H3. simpl.
  unfold set_sentTransactionCount, set_calls; simpl. do 2 f_equal. lia.
Qed.

Lemma sendTransaction_accepted env bn bd s g s1 n s2 h :
  getCachedGasData config env s = (Ok g, s1) ->
  getCachedNonce env s1 = (Ok n, s2) ->
  wallet_sendTransaction (chain env) (built_tx config (fst g) (fst n)) = Some h ->
  sendTransaction config env bn bd s
  = (Ok tt,
     set_pendingTransactions
       (map_set h (mkPending bn (now env) (bd_timestamp bd) (now env))
          (pendingTransactions s2))
       (set_cachedNonce
          (option_map (fun c => mkCachedNonce (nonce c + 1) (nonce_lastUpdated c))
             (cachedNonce s2))
          (set_sentTransactionCount (sentTransactionCount s2 + 1)
             (logged (CallSend (built_tx config (fst g) (fst n)) (Some h)) s2)))).
Proof.
  intros H1 H2 H3. unfold sendTransaction, sendTransaction_try, try_catch, bind.
  rewrite H1, H2. unfold built_tx in H3. munfold. rewrite H3. simpl.
  destruct s2 as [? ? ? ? ? ? ? ? [c|] ? ? ?]; reflexivity.
Qed.

End DispatchFacts.

Section DispatchResults.

Variable config : BlockReactionConfig.

Lemma getCachedGasData_frame env s :
  let s1 := snd (getCachedGasData config env s) in
  s1 = set_cachedGasData (cachedGasData s1) (set_calls (calls s1) s).
Proof.
  unfold getCachedGasData, fetchGasData. destruct s. mcrush; reflexivity.
Qed.

Lemma getCachedNonce_frame env s :
  let s1 := snd (getCachedNonce env s) in
  s1 = set_cachedNonce (cachedNonce s1) (set_calls (calls s1) s).
Proof.
  unfold getCachedNonce, fetchNonce. destruct s. mcrush; reflexivity.
Qed.

(** A rejected query leaves its cell as it was. *)
Lemma getCachedGasData_throw env s e s1 :
  getCachedGasData config env s = (Throw e, s1) ->
  s1 = logged (CallFeeData false) s.
Proof.
  unfold getCachedGasData, fetchGasData. mcrush; intros H; inversion H; reflexivity.
Qed.

Lemma getCachedNonce_throw env s e s1 :
  getCachedNonce env s = (Throw e, s1) ->
  s1 = logged (CallNonce false) s.
Proof.
  unfold getCachedNonce, fetchNonce. mcrush; intros H; inversion H; reflexivity.
Qed.

(** The three ways a dispatch attempt ends, on the fields a dispatch owns. *)
Lemma sendTransaction_parameter_fetch_failed env bn bd s :
  dispatch_result config env s = ParameterFetchFailed ->
  let s' := snd (sendTransaction config env bn bd s) in
  sentTransactionCount s' = sentTransactionCount s - 1 /\
  pendingTransactions s' = pendingTransactions s /\
  cachedNonce s' = cachedNonce s /\
  filter is_send (calls s') = filter is_send (calls s).
Proof.
  unfold dispatch_result. intros H.
  pose proof (getCachedGasData_outcome config env s) as Hg.
  pose proof (getCachedGasData_frame env s) as Fg.
  destruct (getCachedGasData config env s) as [[g|e|] s1] eqn:E1; simpl in *;
    [|clear H|congruence].
  - pose proof (getCachedNonce_outcome env s1) as Hn.
    destruct (getCachedNonce env s1) as [[n|e|] s2] eqn:E2; simpl in *;
      [|clear H|congruence].
    + destruct (wallet_sendTransaction _ _); discriminate.
    + erewrite sendTransaction_nonce_fails by eassumption. simpl.
      apply getCachedNonce_throw in E2. subst s2. simpl.
      rewrite Fg. simpl.
      repeat split.
      (* the fee cell may have been refreshed first: only fee calls were added *)
      clear -E1. unfold getCachedGasData, fetchGasData in E1. revert E1.
      mcrush; intros H; inversion H; subst; reflexivity.
  - erewrite sendTransaction_gas_fails by eassumption. simpl.
    apply getCachedGasData_throw in E1. subst s1. simpl. repeat split.
Qed.

Lemma sendTransaction_submission_rejected env bn bd s :
  dispatch_result config env s = SubmissionRejected ->
  let s' := snd (sendTransaction config env bn bd s) in
  sentTransactionCount s' = sentTransactionCount s /\
  pendingTransactions s' = pendingTransactions s /\
  cachedNonce s' = cachedNonce (snd (getCachedNonce env (snd (getCachedGasData config env s)))).
Proof.
  unfold dispatch_result. intros H.
  pose proof (getCachedGasData_frame env s) as Fg.
  destruct (getCachedGasData config env s) as [[g|e|] s1] eqn:E1; simpl in *;
    try discriminate.
  pose proof (getCachedNonce_frame env s1) as Fn.
  destruct (getCachedNonce env s1) as [[n|e|] s2] eqn:E2; simpl in *;
    try discriminate.
  destruct (wallet_sendTransaction _ _) eqn:E3; try discriminate.
  erewrite sendTransaction_rejected by eassumption. simpl.
  rewrite Fn, Fg. simpl. repeat split.
Qed.

Lemma sendTransaction_accepted_result env bn bd s h :
  dispatch_result config env s = Accepted h ->
  let s2 := snd (getCachedNonce env (snd (getCachedGasData config env s))) in
  let s' := snd (sendTransaction config env bn bd s) in
  sentTransactionCount s' = sentTransactionCount s + 1 /\
  pendingTransactions s'
  = map_set h (mkPending bn (now env) (bd_timestamp bd) (now env))
      (pendingTransactions s) /\
  cachedNonce s'
  = option_map (fun c => mkCachedNonce (nonce c + 1) (nonce_lastUpdated c))
      (cachedNonce s2) /\
  exists tx, calls s' = CallSend tx (Some h) :: calls s2.
Proof.
  unfold dispatch_result. intros H.
  pose proof (getCachedGasData_frame env s) as Fg.
  destruct (getCachedGasData config env s) as [[g|e|] s1] eqn:E1; simpl in *;
    try discriminate.
  pose proof (getCachedNonce_frame env s1) as Fn.
  destruct (getCachedNonce env s1) as [[n|e|] s2] eqn:E2; simpl in *;
    try discriminate.
  destruct (wallet_sendTransaction _ _) eqn:E3; try discriminate.
  injection H as ->.
  erewrite sendTransaction_accepted by eassumption. simpl.
  rewrite Fn, Fg. simpl. repeat split. eexists. reflexivity.
Qed.

(** A dispatch attempt moves the counter by at most one, either way. *)
Lemma sendTransaction_sent_bounds env bn bd s :
  let s' := snd (sendTransaction config env bn bd s) in
  sentTransactionCount s - 1 <= sentTransactionCount s' <= sentTransactionCount s + 1.
Proof.
  destruct (dispatch_result config env s) eqn:R.
  - destruct (sendTransaction_parameter_fetch_failed env bn bd s R) as (H & _). simpl. lia.
  - destruct (sendTransaction_submission_rejected env bn bd s R) as (H & _). simpl. lia.
  - destruct (sendTransaction_accepted_result env bn bd s _ R) as (H & _). simpl. lia.
Qed.

End DispatchResults.

(** C1.  The cells expire at 30 s and 60 s; at clock reading 45000 the fee
    cell is stale and the client rejects the fee-rate query.  The dispatch
    attempt creates no pending entry and leaves the sequence cell alone, but
    [sentTransactionCount] drops from 0 to -1: the handler's decrement runs
    although the increment was never reached. *)
Theorem fee_query_failure_decrements_counter :
  let s := set_blockCount 1 started_state in
  let s' := snd (handleNewBlock sample_config (mkEnv 45000 failing_chain)
                   (sample_block 101) s) in
  dispatch_result sample_config (mkEnv 45000 failing_chain) s = ParameterFetchFailed /\
  sentTransactionCount s = 0 /\
  sentTransactionCount s' = -1 /\
  pendingTransactions s' = [] /\
  cachedNonce s' = cachedNonce s.
Proof. vm_compute. repeat split. Qed.

(** What the lowered counter costs: with a budget of 2, after the failed fee
    query three more block events each have a submission accepted. *)
Example fee_query_failure_admits_extra_submission :
  let ok := fun t h => mkEnv t (answering_chain sample_fees 5 h) in
  let s := run sample_config
             [NewBlock (mkEnv 45000 failing_chain) (sample_block 101);
              NewBlock (ok 46000 "0xaa") (sample_block 102);
              NewBlock (ok 47000 "0xbb") (sample_block 103);
              NewBlock (ok 48000 "0xcc") (sample_block 104)]
             (set_blockCount 1 started_state) in
  transactionCount sample_config = 2 /\
  accepted_sends (calls s) = 3 /\
  List.map fst (pendingTransactions s) = ["0xaa"; "0xbb"; "0xcc"] /\
  sentTransactionCount s = 2.
Proof. vm_compute. repeat split. Qed.

(** ** Invariants through the handlers *)

Section HandlerFacts.

Variable config : BlockReactionConfig.
Variable I : State -> Prop.

Lemma preserves_gasDataRefreshTick env :
  ignores_calls I -> ignores_gas_cell I -> ignores_nonce_cell I ->
  preserves I (gasDataRefreshTick config env).
Proof.
  intros Hc Hg Hn. unfold gasDataRefreshTick.
  apply preserves_try_catch; [|intros e; apply preserves_ret].
  apply preserves_bind; [now apply preserves_getCachedGasData|]. intros _.
  apply preserves_bind; [now apply preserves_getCachedNonce|]. intros _.
  apply preserves_ret.
Qed.

Lemma preserves_stop :
  ignores_lifecycle I -> preserves I (stop config).
Proof.
  intros Hl. unfold stop.
  apply preserves_bind; [apply preserves_modify; intros s H; apply Hl, H|].
  intros _. apply preserves_bind; [apply preserves_get|]. intros s.
  apply preserves_if; [|apply preserves_ret].
  intros s' H. apply Hl, H.
Qed.

Lemma preserves_stopHTTP :
  ignores_lifecycle I -> preserves I (stopHTTP config).
Proof.
  intros Hl. unfold stopHTTP.
  apply preserves_bind; [apply preserves_modify; intros s H; apply Hl, H|].
  intros _. apply preserves_bind; [apply preserves_get|]. intros s.
  apply preserves_if; [|apply preserves_ret].
  intros s' H. apply Hl, H.
Qed.

Lemma preserves_handleNewBlock env bd :
  ignores_blockCount I -> ignores_lifecycle I -> dispatch_keeps config I env ->
  preserves I (handleNewBlock config env bd).
Proof.
  intros Hb Hl Hd s H. unfold handleNewBlock, bind, modify, get. simpl.
  destruct (_ <=? _); [apply Hb, H|].
  destruct (_ <? _) eqn:E.
  - apply Hd; [apply Hb, H|]. simpl. now apply Z.ltb_lt.
  - apply preserves_stop; auto.
Qed.

Lemma preserves_processBlock env bn :
  ignores_calls I -> ignores_blockCount I -> ignores_lifecycle I ->
  dispatch_keeps config I env ->
  preserves I (processBlock config env bn).
Proof.
  intros Hc Hb Hl Hd. unfold processBlock.
  apply preserves_try_catch; [|intros e; apply preserves_ret].
  apply preserves_bind; [apply preserves_rpc; auto|]. intros [block|];
    [|apply preserves_ret].
  intros s H. unfold bind, modify, get. simpl.
  destruct (_ <=? _); [apply Hb, H|].
  destruct (_ <? _) eqn:E.
  - apply Hd; [apply Hb, H|]. simpl. now apply Z.ltb_lt.
  - apply preserves_stopHTTP; auto.
Qed.

Lemma preserves_pollBlocks env envs :
  ignores_calls I -> ignores_blockCount I -> ignores_lifecycle I ->
  ignores_baseline I ->
  (forall b, dispatch_keeps config I (envs b)) ->
  preserves I (pollBlocks config env envs).
Proof.
  intros Hc Hb Hl Hp Hd. unfold pollBlocks.
  apply preserves_bind; [apply preserves_get|]. intros s0.
  apply preserves_if; [apply preserves_ret|].
  apply preserves_try_catch; [|intros e; apply preserves_ret].
  apply preserves_bind; [apply preserves_rpc; auto|]. intros cur.
  apply preserves_bind; [apply preserves_get|]. intros s1.
  apply preserves_if; [|apply preserves_ret].
  apply preserves_for_range. intros b.
  apply preserves_bind; [apply preserves_processBlock; auto|]. intros _.
  apply preserves_modify. intros s H. apply Hp, H.
Qed.

Lemma preserves_processConfirmedTransaction env hash receipt info :
  ignores_calls I -> ignores_lifecycle I ->
  (forall s m, I s -> transactionHash m = hash ->
               sentBlockNumber m = sentBlock info ->
               confirmedBlockNumber m = r_blockNumber receipt ->
               blocksToConfirm m = r_blockNumber receipt - sentBlock info ->
               I (set_confirmationMetrics (confirmationMetrics s ++ [m]) s)) ->
  preserves I (processConfirmedTransaction config env hash receipt info).
Proof.
  intros Hc Hl Hm. unfold processConfirmedTransaction.
  apply preserves_bind; [apply preserves_rpc; auto|]. intros blk.
  apply preserves_bind; [apply preserves_modify; intros s H; now apply Hm|].
  intros _. apply preserves_bind; [apply preserves_get|]. intros s.
  apply preserves_if; [|apply preserves_ret].
  apply preserves_modify. intros s' H. apply Hl, H.
Qed.

Lemma preserves_transactionMonitoringTick env :
  ignores_calls I -> ignores_lifecycle I -> ignores_metrics I -> ignores_pending I ->
  preserves I (transactionMonitoringTick config env).
Proof.
  intros Hc Hl Hm Hp. unfold transactionMonitoringTick.
  apply preserves_bind; [apply preserves_get|]. intros s0.
  apply preserves_if; [apply preserves_ret|].
  apply preserves_forM. intros [hash info] _. simpl.
  apply preserves_try_catch; [|intros e; apply preserves_ret].
  apply preserves_bind; [apply preserves_rpc; auto|]. intros [receipt|];
    [|apply preserves_ret].
  apply preserves_bind.
  - apply preserves_processConfirmedTransaction; auto.
  - intros _. apply preserves_modify. intros s H. apply Hp, H.
Qed.

(** An invariant of every handler is an invariant of every run. *)
Lemma run_preserves evs :
  (forall ev, In ev evs -> preserves I (handle config ev)) ->
  forall s, I s -> I (run config evs s).
Proof.
  induction evs as [|ev evs IH]; intros Hh s H; simpl.
  - exact H.
  - apply IH.
    + intros ev' Hin. apply Hh. now right.
    + unfold step. destruct (exited s); [exact H|]. apply Hh; [now left|exact H].
Qed.

End HandlerFacts.

(** ** Sequence cell *)

Section Sequence.

Variable config : BlockReactionConfig.
Variables init t0 a0 : Z.






End Sequence.




(** ** Refresh scheduler *)

(** C4.  The engine started at clock reading 0 (fee cell and sequence cell
    fetched then); the first refresh tick fires at 20000, when the client
    would report a fee rate of 45 gwei and sequence 9.  Both cells are still
    within their TTL, so the tick makes no query and leaves both cells, values
    and timestamps, untouched. *)
Theorem refresh_tick_within_ttl_is_idle :
  let env := mkEnv 20000
               (answering_chain (mkFeeData (Some 45000000000) None None) 9 "0xaa") in
  gasDataRefreshTick sample_config env started_state = (Ok tt, started_state) /\
  calls (snd (gasDataRefreshTick sample_config env started_state))
  = calls started_state /\
  cachedGasData started_state = Some (mkCachedGas 30000000000 None None 0) /\
  cachedNonce started_state = Some (mkCachedNonce 5 0).
Proof. vm_compute. repeat split. Qed.

(** ** Pull feed *)

Section Poll.

Variable config : BlockReactionConfig.

Lemma sendTransaction_frame env bn bd s :
  let s' := snd (sendTransaction config env bn bd s) in
  fst (sendTransaction config env bn bd s) = Ok tt /\
  s' = set_pendingTransactions (pendingTransactions s')
         (set_cachedNonce (cachedNonce s')
            (set_cachedGasData (cachedGasData s')
               (set_sentTransactionCount (sentTransactionCount s')
                  (set_calls (calls s') s)))).
Proof.
  pose proof (getCachedGasData_outcome config env s) as Hg.
  pose proof (getCachedGasData_frame config env s) as Fg.
  destruct (getCachedGasData config env s) as [[g|e|] s1] eqn:E1; simpl in *;
    [| |congruence].
  - pose proof (getCachedNonce_outcome env s1) as Hn.
    pose proof (getCachedNonce_frame env s1) as Fn.
    destruct (getCachedNonce env s1) as [[n|e|] s2] eqn:E2; simpl in *;
      [| |congruence].
    + destruct (wallet_sendTransaction (chain env) (built_tx config (fst g) (fst n)))
        as [h|] eqn:E3.
      * erewrite sendTransaction_accepted by eassumption. simpl.
        rewrite Fn, Fg. split; reflexivity.
      * erewrite sendTransaction_rejected by eassumption. simpl.
        rewrite Fn, Fg. split; reflexivity.
    + erewrite sendTransaction_nonce_fails by eassumption. simpl.
      rewrite Fn, Fg. split; reflexivity.
  - erewrite sendTransaction_gas_fails by eassumption. simpl.
    rewrite Fg. split; reflexivity.
Qed.

(** [processBlock] never rejects; it ends the process or returns. *)
Lemma processBlock_outcome env b s :
  exited s = false ->
  let r := processBlock config env b s in
  (fst r = Ok tt /\ exited (snd r) = false) \/
  (fst r = Exit /\ exited (snd r) = true).
Proof.
  intros Hx. unfold processBlock, try_catch, bind at 1.
  destruct (getBlock (chain env) b) as [[block|]|]; munfold; auto.
  destruct (_ <=? _); simpl; auto.
  destruct (_ <? _); simpl.
  - destruct (sendTransaction_frame env b
                (mkBlockData (b_number block) (string_or_empty (b_hash block))
                   (toString16 (b_timestamp block)) (b_transactions block))
                (set_blockCount (blockCount s + 1) (set_calls (CallBlock b true :: calls s) s)))
      as [Ho Hs].
    destruct (sendTransaction _ _ _ _ _) as [o s']. simpl in *. subst o.
    left. split; [reflexivity|]. rewrite Hs. simpl. exact Hx.
  - unfold stopHTTP. munfold. destruct (completed _ _); simpl; auto.
Qed.

(** A block whose fetch fails is neither counted nor dispatched. *)
Lemma processBlock_fetch_fails env b s :
  fetch_fails env b ->
  exists ok, processBlock config env b s = (Ok tt, logged (CallBlock b ok) s).
Proof.
  intros [H|H]; unfold processBlock, try_catch, bind, rpc; rewrite H; munfold;
    eexists; reflexivity.
Qed.

Lemma for_range_S n i body s :
  for_range (S n) i body s
  = match body i s with
    | (Ok _, s') => for_range n (i + 1) body s'
    | (Throw e, s') => (Throw e, s')
    | (Exit, s') => (Exit, s')
    end.
Proof. reflexivity. Qed.

(** One turn of the gap loop: the baseline moves to [b] unless the process
    exits. *)
Lemma poll_body_outcome envs b s :
  exited s = false ->
  (exists s1, poll_body config envs b s = (Ok tt, set_lastProcessedBlock b s1) /\
              exited s1 = false) \/
  (exists s1, poll_body config envs b s = (Exit, s1) /\ exited s1 = true).
Proof.
  intros Hx. unfold poll_body, bind.
  destruct (processBlock_outcome (envs b) b s Hx) as [[Ho Hs]|[Ho Hs]];
    destruct (processBlock config (envs b) b s) as [o s1]; simpl in Ho, Hs; subst o.
  - left. exists s1. split; [reflexivity|exact Hs].
  - right. exists s1. split; [reflexivity|exact Hs].
Qed.

(** The gap loop: it stops early on process exit only, and otherwise leaves
    the baseline at the last number of the range. *)
Lemma poll_loop envs n : forall i s,
  exited s = false ->
  let r := for_range n i (poll_body config envs) s in
  (fst r = Ok tt /\ exited (snd r) = false /\
   lastProcessedBlock (snd r)
   = if Nat.eqb n 0 then lastProcessedBlock s else i + Z.of_nat n - 1) \/
  (fst r = Exit /\ exited (snd r) = true).
Proof.
  induction n as [|n IH]; intros i s Hx; cbv zeta.
  - left. cbn [for_range]. auto.
  - rewrite for_range_S.
    destruct (poll_body_outcome envs i s Hx) as [(s1 & E & Hs)|(s1 & E & Hs)];
      rewrite E; [|right; auto].
    specialize (IH (i + 1) (set_lastProcessedBlock i s1) Hs). cbv zeta in IH.
    destruct IH as [(A & B & C)|(A & B)]; [left|right; auto].
    repeat split; auto. rewrite C. fields.
    destruct n; cbn [Nat.eqb]; lia.
Qed.

(** One poll that finds the chain ahead of the baseline runs the gap loop. *)
Lemma pollBlocks_gap env envs s cur :
  isPolling s = true ->
  getBlockNumber (chain env) = Some cur ->
  lastProcessedBlock s < cur ->
  snd (pollBlocks config env envs s)
  = snd (for_range (Z.to_nat (cur - lastProcessedBlock s)) (lastProcessedBlock s + 1)
           (poll_body config envs) (logged (CallBlockNumber true) s)).
Proof.
  intros Hp Hh Hlt. unfold pollBlocks, bind at 1, get. rewrite Hp. cbn [negb].
  unfold try_catch, bind at 1, rpc. rewrite Hh.
  unfold bind at 1, modify, ret, bind at 1, get. fields.
  unfold BLOCK_CONFIRMATION_DELAY.
  rewrite Z.add_0_r, Z.sub_0_r.
  assert (E : (cur >? lastProcessedBlock s) = true) by (apply Z.gtb_lt; lia).
  rewrite E.
  set (r := for_range _ _ (poll_body config envs) _).
  change (snd (let (o, s') := r in
               match o with
               | Ok a => (Ok a, s')
               | Throw _ => (Ok tt, s')
               | Exit => (Exit, s')
               end) = snd r).
  destruct r as [[a|e|] s']; reflexivity.
Qed.

Lemma pollBlocks_height_fails env envs s :
  isPolling s = true ->
  getBlockNumber (chain env) = None ->
  pollBlocks config env envs s = (Ok tt, logged (CallBlockNumber false) s).
Proof.
  intros Hp Hh. unfold pollBlocks, bind at 1, get. rewrite Hp. cbn [negb].
  unfold try_catch, bind at 1, rpc. rewrite Hh. reflexivity.
Qed.

End Poll.

(** C3, as the code has it.  A poll that finds the chain at height [cur],
    above the baseline, and that is not cut short by process exit leaves
    [lastProcessedBlock = cur]: the baseline is set to every block number of
    the gap after [processBlock] returns for it.  For a block whose fetch
    fails (the call rejects, or no block is returned) the loop turn records
    the call, delivers nothing and still moves the baseline to that number.
    Only a rejected height query leaves the baseline where it was. *)
Theorem poll_moves_baseline_past_every_block (config : BlockReactionConfig)
    (env : Env) (envs : Z -> Env) (s : State) (cur : Z) :
  isPolling s = true ->
  exited s = false ->
  getBlockNumber (chain env) = Some cur ->
  lastProcessedBlock s < cur ->
  let s' := snd (pollBlocks config env envs s) in
  (exited s' = false -> lastProcessedBlock s' = cur) /\
  (forall b st,
      fetch_fails (envs b) b ->
      exists ok,
        poll_body config envs b st
        = (Ok tt, set_lastProcessedBlock b (logged (CallBlock b ok) st))) /\
  (forall env0,
      getBlockNumber (chain env0) = None ->
      lastProcessedBlock (snd (pollBlocks config env0 envs s)) = lastProcessedBlock s).
Proof.
  intros Hp Hx Hh Hlt s'. repeat split.
  - intros Hx'. subst s'. rewrite (pollBlocks_gap config env envs s cur Hp Hh Hlt) in *.
    destruct (poll_loop config envs (Z.to_nat (cur - lastProcessedBlock s))
                (lastProcessedBlock s + 1) (logged (CallBlockNumber true) s) Hx)
      as [(_ & _ & C)|(_ & B)]; [|congruence].
    rewrite C. fields.
    destruct (Z.to_nat (cur - lastProcessedBlock s)) eqn:En; [lia|].
    cbn [Nat.eqb]. lia.
  - intros b st Hf. unfold poll_body, bind.
    destruct (processBlock_fetch_fails config (envs b) b st Hf) as [ok E].
    exists ok. rewrite E. reflexivity.
  - intros env0 H0. rewrite (pollBlocks_height_fails config env0 envs s Hp H0).
    reflexivity.
Qed.

Lemma poll_moves_baseline_past_every_block_witness :
  let env := mkEnv 100 (blockless_chain 12) in
  lastProcessedBlock polling_state = 10 /\
  lastProcessedBlock (snd (pollBlocks sample_config env (fun _ => env) polling_state))
  = 12.
Proof.
  intros env.
  destruct (poll_moves_baseline_past_every_block sample_config env (fun _ => env)
              polling_state 12 eq_refl eq_refl eq_refl) as [H _].
  - simpl. lia.
  - split; [reflexivity|]. apply H. reflexivity.
Defined.

(** C3, counterexample.  The baseline is 10 and the chain is at height 11,
    but the fetch of block 11 rejects.  The poll delivers nothing
    ([blockCount] stays 0) and yet leaves the baseline at 11; on the next
    poll, when block 11 could be fetched, the only call made is the height
    query: block 11 is never asked for again. *)
Lemma failed_block_is_not_retried :
  let down := mkEnv 100 (blockless_chain 11) in
  let up := mkEnv 120 (serving_chain 11) in
  let s1 := snd (pollBlocks sample_config down (fun _ => down) polling_state) in
  let s2 := snd (pollBlocks sample_config up (fun _ => up) s1) in
  lastProcessedBlock polling_state = 10 /\
  getBlock (chain down) 11 = None /\
  blockCount s1 = 0 /\
  lastProcessedBlock s1 = 11 /\
  calls s2 = CallBlockNumber true :: calls s1 /\
  blockCount s2 = 0.
Proof. vm_compute. repeat split. Qed.

(** ** Confirmation monitor *)

Section MapFacts.

Variable V : Type.
Implicit Types (m : list (string * V)) (k : string).

Lemma map_set_keys k v m k' :
  In k' (List.map fst (map_set k v m)) <-> k' = k \/ In k' (List.map fst m).
Proof.
  induction m as [|[k0 v0] m IH]; simpl.
  - intuition.
  - destruct (String.eqb_spec k0 k) as [->|Hne]; simpl.
    + intuition.
    + rewrite IH. intuition.
Qed.

Lemma map_delete_In k m y :
  In y (map_delete k m) <-> In y m /\ fst y <> k.
Proof.
  unfold map_delete. rewrite filter_In.
  destruct (String.eqb_spec (fst y) k); simpl; intuition congruence.
Qed.

End MapFacts.

(** ** Configuration loading *)

Module ConfigFacts.
Import ConfigLoader.

Section Loader.

Variable process_env : string -> option string.
Variable parseFloat : string -> number.

(** A numeric variable is its default or the number its value parsed to. *)
Lemma getEnvVarAsNumber_cases key d :
  getEnvVarAsNumber process_env parseFloat key d = d \/
  parsed process_env parseFloat key (getEnvVarAsNumber process_env parseFloat key d).
Proof.
  unfold getEnvVarAsNumber, parsed.
  destruct (process_env key) as [v|] eqn:E; auto.
  destruct (String.eqb_spec v ""); auto.
  destruct (parseFloat v) eqn:P; simpl; auto;
    right; exists v; repeat split; auto; discriminate.
Qed.

Lemma getEnvVarAsNumber_unparsable key d :
  unparsable process_env parseFloat key -> getEnvVarAsNumber process_env parseFloat key d = d.
Proof.
  intros (v & E & P). unfold getEnvVarAsNumber. rewrite E.
  destruct (String.eqb v ""); auto. rewrite P. reflexivity.
Qed.

Lemma unparsable_not_parsed key n :
  unparsable process_env parseFloat key ->
  ~ parsed process_env parseFloat key n.
Proof.
  intros (v & E & P) (v' & E' & _ & P' & Hn). congruence.
Qed.

(** What [validateConfig] has found when it throws a numeric error. *)
Lemma validateConfig_thrown config e :
  validateConfig config = Thrown e ->
  match e with
  | BadGasLimit => leb (gasLimit config) (of_Z 0) = true
  | BadGasPriceGwei got =>
      got = gasPriceGwei config /\ leb (gasPriceGwei config) (of_Z 0) = true
  | BadInitialBlocksToSkip => ltb (initialBlocksToSkip config) (of_Z 0) = true
  | BadTransactionCount =>
      leb (transactionCount config) (of_Z 0) = true \/
      ltb (of_Z 10) (transactionCount config) = true
  | _ => True
  end.
Proof.
  unfold validateConfig, andThen, check.
  repeat match goal with
         | |- context [if ?b then _ else _] => destruct b eqn:?
         end;
    intros H; inversion H; subst; auto.
  apply orb_true_iff. assumption.
Qed.

(** [load] throws what a missing required variable or [validateConfig]
    throws, the latter on the configuration built from the environment. *)
Lemma load_thrown e :
  load process_env parseFloat = Thrown e ->
  (exists key, e = MissingRequired key) \/
  (exists config,
      validateConfig config = Thrown e /\
      gasLimit config
      = getEnvVarAsNumber process_env parseFloat "GAS_LIMIT" (of_Z 21000) /\
      gasPriceGwei config
      = getEnvVarAsNumber process_env parseFloat "GAS_PRICE_GWEI" (of_Z 20) /\
      initialBlocksToSkip config
      = getEnvVarAsNumber process_env parseFloat "INITIAL_BLOCKS_TO_SKIP" (of_Z 10) /\
      transactionCount config
      = getEnvVarAsNumber process_env parseFloat "TRANSACTION_COUNT" (of_Z 5)).
Proof.
  unfold load, getRequiredEnvVar, andThen.
  repeat match goal with
         | |- context [match process_env ?k with _ => _ end] =>
             destruct (process_env k) as [?v|]
         | |- context [if String.eqb ?v "" then _ else _] =>
             destruct (String.eqb v "")
         end;
    try (intros H; inversion H; left; eexists; reflexivity).
  match goal with
  | |- context [validateConfig ?c] => destruct (validateConfig c) eqn:V
  end; intros H; inversion H; subst.
  right. eexists. split; [exact V|]. repeat split.
Qed.

Lemma load_loaded config :
  load process_env parseFloat = Loaded config ->
  gasLimit config
  = getEnvVarAsNumber process_env parseFloat "GAS_LIMIT" (of_Z 21000) /\
  gasPriceGwei config
  = getEnvVarAsNumber process_env parseFloat "GAS_PRICE_GWEI" (of_Z 20) /\
  initialBlocksToSkip config
  = getEnvVarAsNumber process_env parseFloat "INITIAL_BLOCKS_TO_SKIP" (of_Z 10) /\
  transactionCount config
  = getEnvVarAsNumber process_env parseFloat "TRANSACTION_COUNT" (of_Z 5).
Proof.
  unfold load, getRequiredEnvVar, andThen.
  repeat match goal with
         | |- context [match process_env ?k with _ => _ end] =>
             destruct (process_env k) as [?v|]
         | |- context [if String.eqb ?v "" then _ else _] =>
             destruct (String.eqb v "")
         end;
    try discriminate.
  match goal with
  | |- context [validateConfig ?c] => destruct (validateConfig c) eqn:V
  end; intros H; inversion H; subst. repeat split.
Qed.

(** A numeric variable whose value parsed is that number; one that is unset
    or empty is its default. *)
Lemma getEnvVarAsNumber_parsed key d n :
  parsed process_env parseFloat key n ->
  getEnvVarAsNumber process_env parseFloat key d = n.
Proof.
  intros (v & E & Hv & P & Hn). unfold getEnvVarAsNumber. rewrite E.
  destruct (String.eqb_spec v ""); [contradiction|].
  rewrite P. destruct n; try reflexivity. now contradiction Hn.
Qed.

Lemma getEnvVarAsNumber_falsy key d :
  falsy (process_env key) = true ->
  getEnvVarAsNumber process_env parseFloat key d = d.
Proof.
  unfold falsy, getEnvVarAsNumber. destruct (process_env key) as [v|]; auto.
  intros E. rewrite E. reflexivity.
Qed.

(** [load] on an environment whose required strings pass their checks: the
    four range checks, in the order of [validateConfig]. *)
Lemma load_checks_numbers w h p r :
  strings_pass process_env w h p r ->
  let gl := getEnvVarAsNumber process_env parseFloat "GAS_LIMIT" (of_Z 21000) in
  let gp := getEnvVarAsNumber process_env parseFloat "GAS_PRICE_GWEI" (of_Z 20) in
  let sk := getEnvVarAsNumber process_env parseFloat "INITIAL_BLOCKS_TO_SKIP"
              (of_Z 10) in
  let tc := getEnvVarAsNumber process_env parseFloat "TRANSACTION_COUNT" (of_Z 5) in
  load process_env parseFloat
  = if leb gl (of_Z 0) then Thrown BadGasLimit
    else if leb gp (of_Z 0) then Thrown (BadGasPriceGwei gp)
    else if ltb sk (of_Z 0) then Thrown BadInitialBlocksToSkip
    else if leb tc (of_Z 0) || ltb (of_Z 10) tc then Thrown BadTransactionCount
    else Loaded (mkConfig w h p r gl gp sk tc).
Proof.
  intros (E1 & E2 & E3 & E4 & S1 & S2 & [S3 L3] & [S4 L4]) gl gp sk tc.
  assert (N1 : String.eqb w "" = false)
    by (destruct w; [destruct S1; discriminate|reflexivity]).
  assert (N2 : String.eqb h "" = false)
    by (destruct h; [destruct S2; discriminate|reflexivity]).
  assert (N3 : String.eqb p "" = false) by (destruct p; [discriminate|reflexivity]).
  assert (N4 : String.eqb r "" = false) by (destruct r; [discriminate|reflexivity]).
  unfold load, getRequiredEnvVar. rewrite E1, E2, E3, E4, N1, N2, N3, N4.
  cbn [andThen]. fold gl gp sk tc.
  unfold validateConfig.
  cbn [websocketUrl httpRpcUrl privateKey recipientAddress gasLimit gasPriceGwei
       initialBlocksToSkip transactionCount].
  assert (C1 : negb (startsWith w "wss://") && negb (startsWith w "ws://") = false)
    by (destruct S1 as [S|S]; rewrite S; cbn [negb andb];
        [reflexivity|apply andb_false_r]).
  assert (C2 : negb (startsWith h "http://") && negb (startsWith h "https://") = false)
    by (destruct S2 as [S|S]; rewrite S; cbn [negb andb];
        [reflexivity|apply andb_false_r]).
  assert (C3 : negb (startsWith p "0x") || negb (Nat.eqb (String.length p) 66) = false)
    by (rewrite S3, L3; reflexivity).
  assert (C4 : negb (startsWith r "0x") || negb (Nat.eqb (String.length r) 42) = false)
    by (rewrite S4, L4; reflexivity).
  rewrite C1, C2, C3, C4. cbn [check andThen].
  destruct (leb gl (of_Z 0)); [reflexivity|]. cbn [check andThen].
  destruct (leb gp (of_Z 0)); [reflexivity|]. cbn [check andThen].
  destruct (ltb sk (of_Z 0)); [reflexivity|]. cbn [check andThen].
  destruct (leb tc (of_Z 0) || ltb (of_Z 10) tc); reflexivity.
Qed.

End Loader.

End ConfigFacts.

(** C9.  For each numeric variable (gas limit, fee-rate default, blocks to
    skip, transaction count): a value that parses as a number is the value of
    the variable; a value that does not, an empty value and an unset variable
    give the built-in default (21000, 20, 10, 5), and loading then does not
    throw the error of that variable.  On an environment whose four required
    strings pass their checks, loading makes the four range checks in the
    order gas limit <= 0, fee rate <= 0, skip < 0, count <= 0 or count > 10,
    on these values, throws the error of the first that fails, and otherwise
    returns the configuration with these values; it throws if and only if
    the value of some numeric variable parsed to a number that fails its range
    check.  Whenever loading throws the error of a numeric variable, the
    value of that variable parsed to a number, and that number fails the
    check. *)
Theorem numeric_variables_fall_back
    (process_env : string -> option string)
    (parseFloat : string -> ConfigLoader.number) :
  let unparsable := ConfigLoader.unparsable process_env parseFloat in
  let parsed := ConfigLoader.parsed process_env parseFloat in
  let load := ConfigLoader.load process_env parseFloat in
  let number_of := ConfigLoader.getEnvVarAsNumber process_env parseFloat in
  let zero := ConfigLoader.of_Z 0 in
  (forall key d, unparsable key -> number_of key d = d) /\
  (forall key d, ConfigLoader.falsy (process_env key) = true -> number_of key d = d) /\
  (forall key d n, parsed key n -> number_of key d = n) /\
  (forall w h p r,
      strings_pass process_env w h p r ->
      let gl := number_of "GAS_LIMIT" (ConfigLoader.of_Z 21000) in
      let gp := number_of "GAS_PRICE_GWEI" (ConfigLoader.of_Z 20) in
      let sk := number_of "INITIAL_BLOCKS_TO_SKIP" (ConfigLoader.of_Z 10) in
      let tc := number_of "TRANSACTION_COUNT" (ConfigLoader.of_Z 5) in
      load
      = (if ConfigLoader.leb gl zero then ConfigLoader.Thrown ConfigLoader.BadGasLimit
         else if ConfigLoader.leb gp zero
         then ConfigLoader.Thrown (ConfigLoader.BadGasPriceGwei gp)
         else if ConfigLoader.ltb sk zero
         then ConfigLoader.Thrown ConfigLoader.BadInitialBlocksToSkip
         else if ConfigLoader.leb tc zero
                 || ConfigLoader.ltb (ConfigLoader.of_Z 10) tc
         then ConfigLoader.Thrown ConfigLoader.BadTransactionCount
         else ConfigLoader.Loaded (ConfigLoader.mkConfig w h p r gl gp sk tc)) /\
      ((exists e, load = ConfigLoader.Thrown e) <->
       (exists n, parsed "GAS_LIMIT" n /\ ConfigLoader.leb n zero = true) \/
       (exists n, parsed "GAS_PRICE_GWEI" n /\ ConfigLoader.leb n zero = true) \/
       (exists n, parsed "INITIAL_BLOCKS_TO_SKIP" n /\
                  ConfigLoader.ltb n zero = true) \/
       (exists n, parsed "TRANSACTION_COUNT" n /\
                  (ConfigLoader.leb n zero = true \/
                   ConfigLoader.ltb (ConfigLoader.of_Z 10) n = true)))) /\
  (forall config,
      load = ConfigLoader.Loaded config ->
      (unparsable "GAS_LIMIT" ->
       ConfigLoader.gasLimit config = ConfigLoader.of_Z 21000) /\
      (unparsable "GAS_PRICE_GWEI" ->
       ConfigLoader.gasPriceGwei config = ConfigLoader.of_Z 20) /\
      (unparsable "INITIAL_BLOCKS_TO_SKIP" ->
       ConfigLoader.initialBlocksToSkip config = ConfigLoader.of_Z 10) /\
      (unparsable "TRANSACTION_COUNT" ->
       ConfigLoader.transactionCount config = ConfigLoader.of_Z 5)) /\
  (load = ConfigLoader.Thrown ConfigLoader.BadGasLimit ->
   exists n, parsed "GAS_LIMIT" n /\ ConfigLoader.leb n zero = true) /\
  (forall got,
      load = ConfigLoader.Thrown (ConfigLoader.BadGasPriceGwei got) ->
      parsed "GAS_PRICE_GWEI" got /\ ConfigLoader.leb got zero = true) /\
  (load = ConfigLoader.Thrown ConfigLoader.BadInitialBlocksToSkip ->
   exists n, parsed "INITIAL_BLOCKS_TO_SKIP" n /\ ConfigLoader.ltb n zero = true) /\
  (load = ConfigLoader.Thrown ConfigLoader.BadTransactionCount ->
   exists n,
     parsed "TRANSACTION_COUNT" n /\
     (ConfigLoader.leb n zero = true \/
      ConfigLoader.ltb (ConfigLoader.of_Z 10) n = true)) /\
  (unparsable "GAS_LIMIT" ->
   load <> ConfigLoader.Thrown ConfigLoader.BadGasLimit) /\
  (unparsable "GAS_PRICE_GWEI" ->
   forall got, load <> ConfigLoader.Thrown (ConfigLoader.BadGasPriceGwei got)) /\
  (unparsable "INITIAL_BLOCKS_TO_SKIP" ->
   load <> ConfigLoader.Thrown ConfigLoader.BadInitialBlocksToSkip) /\
  (unparsable "TRANSACTION_COUNT" ->
   load <> ConfigLoader.Thrown ConfigLoader.BadTransactionCount).
Proof.
  intros unparsable parsed load number_of zero.
  assert (HL : load = ConfigLoader.Thrown ConfigLoader.BadGasLimit ->
               exists n, parsed "GAS_LIMIT" n /\ ConfigLoader.leb n zero = true).
  { intros H. apply ConfigFacts.load_thrown in H.
    destruct H as [[key H]|(config & V & E1 & _)]; [discriminate|].
    apply ConfigFacts.validateConfig_thrown in V. rewrite E1 in V.
    destruct (ConfigFacts.getEnvVarAsNumber_cases process_env parseFloat
                "GAS_LIMIT" (ConfigLoader.of_Z 21000)) as [E|P].
    - rewrite E in V. discriminate.
    - eexists. split; [exact P|exact V]. }
  assert (HP : forall got,
             load = ConfigLoader.Thrown (ConfigLoader.BadGasPriceGwei got) ->
             parsed "GAS_PRICE_GWEI" got /\ ConfigLoader.leb got zero = true).
  { intros got H. apply ConfigFacts.load_thrown in H.
    destruct H as [[key H]|(config & V & _ & E2 & _)]; [discriminate|].
    apply ConfigFacts.validateConfig_thrown in V. destruct V as [-> V].
    rewrite E2 in *.
    destruct (ConfigFacts.getEnvVarAsNumber_cases process_env parseFloat
                "GAS_PRICE_GWEI" (ConfigLoader.of_Z 20)) as [E|P].
    - rewrite E in V. discriminate.
    - split; [exact P|exact V]. }
  assert (HS : load = ConfigLoader.Thrown ConfigLoader.BadInitialBlocksToSkip ->
               exists n, parsed "INITIAL_BLOCKS_TO_SKIP" n /\
                         ConfigLoader.ltb n zero = true).
  { intros H. apply ConfigFacts.load_thrown in H.
    destruct H as [[key H]|(config & V & _ & _ & E3 & _)]; [discriminate|].
    apply ConfigFacts.validateConfig_thrown in V. rewrite E3 in V.
    destruct (ConfigFacts.getEnvVarAsNumber_cases process_env parseFloat
                "INITIAL_BLOCKS_TO_SKIP" (ConfigLoader.of_Z 10)) as [E|P].
    - rewrite E in V. discriminate.
    - eexists. split; [exact P|exact V]. }
  assert (HT : load = ConfigLoader.Thrown ConfigLoader.BadTransactionCount ->
               exists n, parsed "TRANSACTION_COUNT" n /\
                         (ConfigLoader.leb n zero = true \/
                          ConfigLoader.ltb (ConfigLoader.of_Z 10) n = true)).
  { intros H. apply ConfigFacts.load_thrown in H.
    destruct H as [[key H]|(config & V & _ & _ & _ & E4)]; [discriminate|].
    apply ConfigFacts.validateConfig_thrown in V. rewrite E4 in V.
    destruct (ConfigFacts.getEnvVarAsNumber_cases process_env parseFloat
                "TRANSACTION_COUNT" (ConfigLoader.of_Z 5)) as [E|P].
    - rewrite E in V. destruct V; discriminate.
    - eexists. split; [exact P|exact V]. }
  split; [|split; [|split; [|split; [|split; [|split; [|split; [|split; [|split;
    [|split; [|split; [|split]]]]]]]]]]]; auto.
  - intros key d. apply ConfigFacts.getEnvVarAsNumber_unparsable.
  - intros key d. apply ConfigFacts.getEnvVarAsNumber_falsy.
  - intros key d n. apply ConfigFacts.getEnvVarAsNumber_parsed.
  - intros w h p r Hs gl gp sk tc.
    pose proof (ConfigFacts.load_checks_numbers process_env parseFloat w h p r Hs)
      as Hload.
    cbv zeta in Hload. fold load number_of gl gp sk tc zero in Hload.
    split; [exact Hload|]. split.
    + intros [e He].
      destruct (ConfigLoader.leb gl zero) eqn:C1;
        [left; apply HL; exact Hload|].
      destruct (ConfigLoader.leb gp zero) eqn:C2;
        [right; left; exists gp; apply HP; exact Hload|].
      destruct (ConfigLoader.ltb sk zero) eqn:C3;
        [right; right; left; apply HS; exact Hload|].
      destruct (ConfigLoader.leb tc zero
                || ConfigLoader.ltb (ConfigLoader.of_Z 10) tc) eqn:C4;
        [right; right; right; apply HT; exact Hload|].
      rewrite Hload in He. discriminate.
    + intros [(n & P & R)|[(n & P & R)|[(n & P & R)|(n & P & R)]]].
      * exists ConfigLoader.BadGasLimit. rewrite Hload. unfold gl.
        unfold number_of.
        rewrite (ConfigFacts.getEnvVarAsNumber_parsed process_env parseFloat _ _ n P).
        rewrite R. reflexivity.
      * rewrite Hload. destruct (ConfigLoader.leb gl zero); [eexists; reflexivity|].
        unfold gp at 1. unfold number_of.
        rewrite (ConfigFacts.getEnvVarAsNumber_parsed process_env parseFloat _ _ n P).
        rewrite R. eexists; reflexivity.
      * rewrite Hload. destruct (ConfigLoader.leb gl zero); [eexists; reflexivity|].
        destruct (ConfigLoader.leb gp zero); [eexists; reflexivity|].
        unfold sk at 1. unfold number_of.
        rewrite (ConfigFacts.getEnvVarAsNumber_parsed process_env parseFloat _ _ n P).
        rewrite R. eexists; reflexivity.
      * rewrite Hload. destruct (ConfigLoader.leb gl zero); [eexists; reflexivity|].
        destruct (ConfigLoader.leb gp zero); [eexists; reflexivity|].
        destruct (ConfigLoader.ltb sk zero); [eexists; reflexivity|].
        assert (E : ConfigLoader.leb tc zero
                    || ConfigLoader.ltb (ConfigLoader.of_Z 10) tc = true).
        { unfold tc, number_of.
          rewrite (ConfigFacts.getEnvVarAsNumber_parsed process_env parseFloat
                     _ _ n P).
          apply orb_true_iff. exact R. }
        rewrite E. eexists; reflexivity.
  - intros config H. apply ConfigFacts.load_loaded in H.
    destruct H as (E1 & E2 & E3 & E4). rewrite E1, E2, E3, E4.
    repeat split; apply ConfigFacts.getEnvVarAsNumber_unparsable.
  - intros U H. destruct (HL H) as (n & P & _).
    exact (ConfigFacts.unparsable_not_parsed process_env parseFloat _ n U P).
  - intros U got H. destruct (HP got H) as (P & _).
    exact (ConfigFacts.unparsable_not_parsed process_env parseFloat _ got U P).
  - intros U H. destruct (HS H) as (n & P & _).
    exact (ConfigFacts.unparsable_not_parsed process_env parseFloat _ n U P).
  - intros U H. destruct (HT H) as (n & P & _).
    exact (ConfigFacts.unparsable_not_parsed process_env parseFloat _ n U P).
Qed.

Lemma numeric_variables_fall_back_witness :
  ConfigLoader.getEnvVarAsNumber sample_env sample_parseFloat "GAS_LIMIT"
    (ConfigLoader.of_Z 21000) = ConfigLoader.of_Z 21000 /\
  ConfigLoader.getEnvVarAsNumber greedy_env sample_parseFloat "TRANSACTION_COUNT"
    (ConfigLoader.of_Z 5) = ConfigLoader.of_Z 11 /\
  ConfigLoader.load sample_env sample_parseFloat
  <> ConfigLoader.Thrown ConfigLoader.BadTransactionCount /\
  (exists e, ConfigLoader.load greedy_env sample_parseFloat = ConfigLoader.Thrown e) /\
  exists n,
    ConfigLoader.parsed greedy_env sample_parseFloat "TRANSACTION_COUNT" n /\
    (ConfigLoader.leb n (ConfigLoader.of_Z 0) = true \/
     ConfigLoader.ltb (ConfigLoader.of_Z 10) n = true).
Proof.
  destruct (numeric_variables_fall_back sample_env sample_parseFloat)
    as (H1 & _ & _ & _ & _ & _ & _ & _ & _ & _ & _ & _ & H13).
  destruct (numeric_variables_fall_back greedy_env sample_parseFloat)
    as (_ & _ & H3 & H4 & _ & _ & _ & _ & H9 & _).
  assert (P : ConfigLoader.parsed greedy_env sample_parseFloat "TRANSACTION_COUNT"
                (ConfigLoader.of_Z 11)).
  { exists "11". repeat split; discriminate. }
  split; [|split; [|split; [|split]]].
  - apply H1. exists "plenty". split; reflexivity.
  - apply H3. exact P.
  - apply H13. exists "many". split; reflexivity.
  - apply (H4 "wss://node.example" "https://node.example"
             "0x0123456789abcdef0123456789abcdef0123456789abcdef0123456789abcdef"
             "0x742d35Cc6634C0532925a3b8D4C9db96C4b4d8b6").
    + unfold strings_pass. repeat split; try reflexivity; auto.
    + right. right. right. exists (ConfigLoader.of_Z 11). split; [exact P|].
      right. reflexivity.
  - apply H9. reflexivity.
Defined.

(** Loading the sample environment: the two unparsable variables, the empty
    one and the unset one all come out as their defaults, and nothing is
    thrown; with a count of 11 the range check throws. *)
Example load_sample_env :
  ConfigLoader.load sample_env sample_parseFloat
  = ConfigLoader.Loaded
      (ConfigLoader.mkConfig "wss://node.example" "https://node.example"
         "0x0123456789abcdef0123456789abcdef0123456789abcdef0123456789abcdef"
         "0x742d35Cc6634C0532925a3b8D4C9db96C4b4d8b6"
         (ConfigLoader.of_Z 21000) (ConfigLoader.of_Z 20)
         (ConfigLoader.of_Z 10) (ConfigLoader.of_Z 5)) /\
  ConfigLoader.load greedy_env sample_parseFloat
  = ConfigLoader.Thrown ConfigLoader.BadTransactionCount.
Proof. split; reflexivity. Qed.

(** ** The sample states and the two scenarios *)

Example start_gives_started_state :
  set_isConnected true
    (snd (start sample_config (mkEnv 0 (answering_chain sample_fees 5 "0x00")) initState))
  = started_state /\
  snd (startHTTP sample_config (mkEnv 0 (serving_chain 10)) initState)
  = polling_state.
Proof. split; reflexivity. Qed.

(** Budget 2, skip 1, blocks 100, 101, 102: block 100 is skipped, the two
    dispatches carry sequence 5 and 6, the receipt of the first at block 103
    gives [blocksToConfirm = 2], and the engine is completed only when both
    receipts have been seen. *)
Example scenario_two_dispatches :
  let s4 := run sample_config (firstn 4 sample_run) started_state in
  let s5 := run sample_config sample_run started_state in
  List.map (fun c => match c with CallSend tx _ => tx_nonce tx | _ => -1 end)
    (filter is_send (calls s5)) = [6; 5] /\
  List.map sentBlockNumber (confirmationMetrics s5) = [101; 102] /\
  List.map blocksToConfirm (confirmationMetrics s4) = [2] /\
  isCompleted sample_config s4 = false /\
  isCompleted sample_config s5 = true.
Proof. vm_compute. repeat split. Qed.

(** The first submission is rejected: the counter is back at 0, and the next
    block event submits with the same sequence value. *)
Example scenario_rejected_submission :
  let rejecting :=
    mkChain (Some sample_fees) (Some 5) (fun _ => None) (fun _ => Some None)
      (fun _ => Some None) (Some 0) in
  let s0 := set_blockCount 1 started_state in
  let s1 := run sample_config [NewBlock (mkEnv 1000 rejecting) (sample_block 101)] s0 in
  let s2 := run sample_config
              [NewBlock (mkEnv 2000 (answering_chain sample_fees 5 "0xaa"))
                 (sample_block 102)] s1 in
  sentTransactionCount s1 = 0 /\
  pendingTransactions s1 = [] /\
  cached_sequence s1 = Some 5 /\
  List.map (fun c => match c with CallSend tx _ => tx_nonce tx | _ => -1 end)
    (filter is_send (calls s2)) = [5; 5] /\
  sentTransactionCount s2 = 1.
Proof. vm_compute. repeat split. Qed.

(** ** Footprints of the handlers *)

Section Footprints.

Variable config : BlockReactionConfig.
Variable I : State -> Prop.

Lemma keeps_weaken (U U' : Update -> bool) :
  (forall u, U' u = true -> U u = true) -> keeps U I -> keeps U' I.
Proof. intros Hsub HU u s Hu. apply HU, Hsub, Hu. Qed.

Lemma keeps_update (U : Update -> bool) u (f : State -> State) :
  (forall s, f s = apply_update u s) -> U u = true -> keeps U I ->
  preserves I (modify f).
Proof. intros Hf Hu HU s H. unfold modify. simpl. rewrite Hf. now apply HU. Qed.

Lemma keeps_rpc (U : Update -> bool) A (c : bool -> Call) (answer : option A) :
  (forall b, U (Record_call (c b)) = true) -> keeps U I ->
  preserves I (rpc c answer).
Proof.
  intros Hc HU s H. unfold rpc.
  destruct answer; unfold bind, modify, ret, throw; simpl;
    apply (HU (Record_call (c _))); auto.
Qed.

Lemma footprint_getCachedGasData env :
  keeps cache_update I -> preserves I (getCachedGasData config env).
Proof.
  intros HU. unfold getCachedGasData.
  apply preserves_bind; [apply preserves_get|]. intros s0.
  assert (Hf : preserves I (fetchGasData config env)).
  { unfold fetchGasData.
    apply preserves_bind; [apply (keeps_rpc cache_update); auto|]. intros fd.
    apply preserves_bind; [|intros _; apply preserves_ret].
    eapply (keeps_update cache_update (Store_gas _)); auto. reflexivity. }
  destruct (cachedGasData s0) as [c|]; [|exact Hf].
  apply preserves_if; [apply preserves_ret | exact Hf].
Qed.

Lemma footprint_getCachedNonce env :
  keeps cache_update I -> preserves I (getCachedNonce env).
Proof.
  intros HU. unfold getCachedNonce.
  apply preserves_bind; [apply preserves_get|]. intros s0.
  assert (Hf : preserves I (fetchNonce env)).
  { unfold fetchNonce.
    apply preserves_bind; [apply (keeps_rpc cache_update); auto|]. intros n.
    apply preserves_bind; [|intros _; apply preserves_ret].
    eapply (keeps_update cache_update (Store_nonce _)); auto. reflexivity. }
  destruct (cachedNonce s0) as [c|]; [|exact Hf].
  apply preserves_if; [apply preserves_ret | exact Hf].
Qed.

Lemma footprint_gasDataRefreshTick env :
  keeps cache_update I -> preserves I (gasDataRefreshTick config env).
Proof.
  intros HU. unfold gasDataRefreshTick.
  apply preserves_try_catch; [|intros e; apply preserves_ret].
  apply preserves_bind; [now apply footprint_getCachedGasData|]. intros _.
  apply preserves_bind; [now apply footprint_getCachedNonce|]. intros _.
  apply preserves_ret.
Qed.

Lemma footprint_sendTransaction env bn bd :
  keeps dispatch_update I -> preserves I (sendTransaction config env bn bd).
Proof.
  intros HU.
  assert (HC : keeps cache_update I).
  { apply (keeps_weaken dispatch_update); auto.
    intros u Hu. destruct u as [[]| | | | | | | | | | | | | |]; auto; discriminate. }
  unfold sendTransaction, sendTransaction_try.
  apply preserves_try_catch.
  - apply preserves_bind; [now apply footprint_getCachedGasData|]. intros g.
    apply preserves_bind; [now apply footprint_getCachedNonce|]. intros n.
    apply preserves_bind;
      [apply (keeps_update dispatch_update Reserve_slot); auto|]. intros _.
    apply preserves_bind; [apply (keeps_rpc dispatch_update); auto|]. intros h.
    apply preserves_bind;
      [apply (keeps_update dispatch_update Advance_nonce); auto|]. intros _.
    eapply (keeps_update dispatch_update (Track _ _)); auto. reflexivity.
  - intros e. apply (keeps_update dispatch_update Release_slot); auto.
Qed.

Lemma footprint_stop :
  keeps push_update I -> preserves I (stop config).
Proof.
  intros HU. unfold stop.
  apply preserves_bind; [apply (keeps_update push_update Disconnect); auto|].
  intros _. apply preserves_bind; [apply preserves_get|]. intros s.
  apply preserves_if; [|apply preserves_ret].
  intros s' H. apply (HU Exit_process); auto.
Qed.

Lemma footprint_stopHTTP :
  keeps pull_update I -> preserves I (stopHTTP config).
Proof.
  intros HU. unfold stopHTTP.
  apply preserves_bind; [apply (keeps_update pull_update Stop_polling); auto|].
  intros _. apply preserves_bind; [apply preserves_get|]. intros s.
  apply preserves_if; [|apply preserves_ret].
  intros s' H. apply (HU Exit_process); auto.
Qed.

Lemma dispatch_in_push u : dispatch_update u = true -> push_update u = true.
Proof. destruct u as [[]| | | | | | | | | | | | | |]; auto. Qed.

Lemma dispatch_in_pull u : dispatch_update u = true -> pull_update u = true.
Proof. destruct u as [[]| | | | | | | | | | | | | |]; auto. Qed.

Lemma footprint_handleNewBlock env bd :
  keeps push_update I -> preserves I (handleNewBlock config env bd).
Proof.
  intros HU. unfold handleNewBlock.
  apply preserves_bind; [apply (keeps_update push_update Count_block); auto|].
  intros _. apply preserves_bind; [apply preserves_get|]. intros s.
  apply preserves_if; [apply preserves_ret|].
  apply preserves_if; [|now apply footprint_stop].
  apply footprint_sendTransaction.
  apply (keeps_weaken push_update); auto. apply dispatch_in_push.
Qed.

Lemma footprint_processBlock env b :
  keeps pull_update I -> preserves I (processBlock config env b).
Proof.
  intros HU. unfold processBlock.
  apply preserves_try_catch; [|intros e; apply preserves_ret].
  apply preserves_bind; [apply (keeps_rpc pull_update); auto|].
  intros [block|]; [|apply preserves_ret].
  apply preserves_bind; [apply (keeps_update pull_update Count_block); auto|].
  intros _. apply preserves_bind; [apply preserves_get|]. intros s.
  apply preserves_if; [apply preserves_ret|].
  apply preserves_if; [|now apply footprint_stopHTTP].
  apply footprint_sendTransaction.
  apply (keeps_weaken pull_update); auto. apply dispatch_in_pull.
Qed.

Lemma footprint_pollBlocks env envs :
  keeps pull_update I -> preserves I (pollBlocks config env envs).
Proof.
  intros HU. unfold pollBlocks.
  apply preserves_bind; [apply preserves_get|]. intros s0.
  apply preserves_if; [apply preserves_ret|].
  apply preserves_try_catch; [|intros e; apply preserves_ret].
  apply preserves_bind; [apply (keeps_rpc pull_update); auto|]. intros cur.
  apply preserves_bind; [apply preserves_get|]. intros s1.
  apply preserves_if; [|apply preserves_ret].
  apply preserves_for_range. intros b. unfold poll_body.
  apply preserves_bind; [now apply footprint_processBlock|]. intros _.
  apply (keeps_update pull_update (Move_baseline b)); auto.
Qed.

Lemma footprint_processConfirmedTransaction env hash receipt info :
  keeps monitor_update I ->
  preserves I (processConfirmedTransaction config env hash receipt info).
Proof.
  intros HU. unfold processConfirmedTransaction.
  apply preserves_bind; [apply (keeps_rpc monitor_update); auto|]. intros blk.
  apply preserves_bind.
  - eapply (keeps_update monitor_update (Append_metrics _)); auto. reflexivity.
  - intros _. apply preserves_bind; [apply preserves_get|]. intros s.
    apply preserves_if; [|apply preserves_ret].
    apply (keeps_update monitor_update Schedule_exit); auto.
Qed.

Lemma footprint_monitor_body env entry :
  keeps monitor_update I -> preserves I (monitor_body config env entry).
Proof.
  intros HU. unfold monitor_body.
  apply preserves_try_catch; [|intros e; apply preserves_ret].
  apply preserves_bind; [apply (keeps_rpc monitor_update); auto|].
  intros [receipt|]; [|apply preserves_ret].
  apply preserves_bind; [now apply footprint_processConfirmedTransaction|].
  intros _. apply (keeps_update monitor_update (Untrack (fst entry))); auto.
Qed.

Lemma footprint_transactionMonitoringTick env :
  keeps monitor_update I -> preserves I (transactionMonitoringTick config env).
Proof.
  intros HU. unfold transactionMonitoringTick.
  apply preserves_bind; [apply preserves_get|]. intros s0.
  apply preserves_if; [apply preserves_ret|].
  apply preserves_forM. intros entry _. now apply footprint_monitor_body.
Qed.

Lemma footprint_handle ev :
  keeps (event_update ev) I -> preserves I (handle config ev).
Proof.
  destruct ev as [env bd|env envs|env|env]; simpl; intros HU.
  - now apply footprint_handleNewBlock.
  - now apply footprint_pollBlocks.
  - now apply footprint_transactionMonitoringTick.
  - now apply footprint_gasDataRefreshTick.
Qed.

Lemma footprint_run evs :
  (forall ev, In ev evs -> keeps (event_update ev) I) ->
  forall s, I s -> I (run config evs s).
Proof.
  intros HU. apply run_preserves. intros ev Hin. apply footprint_handle, HU, Hin.
Qed.

End Footprints.

(** ** More on the confirmation monitor *)

Section MonitorOutcome.

Variable config : BlockReactionConfig.

Lemma forM_cons (A : Type) (x : A) (l : list A) (body : A -> M unit) s :
  forM_ (x :: l) body s
  = match body x s with
    | (Ok _, s') => forM_ l body s'
    | (Throw e, s') => (Throw e, s')
    | (Exit, s') => (Exit, s')
    end.
Proof. reflexivity. Qed.

(** One turn of the loop, by what the client answers. *)
Lemma monitor_body_outcome env entry s :
  let r := monitor_body config env entry s in
  fst r = Ok tt /\
  pendingTransactions (snd r)
  = (if still_pending env entry then pendingTransactions s
     else map_delete (fst entry) (pendingTransactions s)) /\
  confirmationMetrics (snd r)
  = (confirmationMetrics s ++ confirmed_now env [entry])%list.
Proof.
  unfold monitor_body, processConfirmedTransaction, completed, still_pending,
    confirmed_now, confirmation_of.
  cbn [flat_map].
  destruct (getTransactionReceipt (chain env) (fst entry)) as [[r|]|];
    munfold; rewrite ?app_nil_r; auto.
  destruct (getBlock (chain env) (r_blockNumber r)) as [blk|];
    munfold; rewrite ?app_nil_r; auto.
  destruct (_ =? _); simpl; auto.
Qed.

(** The monitor never rejects and never ends the process. *)
Lemma monitor_loop_resolves env l : forall s,
  fst (forM_ l (monitor_body config env) s) = Ok tt.
Proof.
  induction l as [|entry l IH]; intros s; [reflexivity|].
  rewrite forM_cons.
  destruct (monitor_body_outcome env entry s) as (Ho & _).
  destruct (monitor_body config env entry s) as [o s1]. cbn [fst] in Ho. subst o.
  apply IH.
Qed.

Lemma transactionMonitoringTick_resolves env s :
  fst (transactionMonitoringTick config env s) = Ok tt.
Proof.
  unfold transactionMonitoringTick, bind, get.
  destruct (Nat.eqb _ _); [reflexivity|]. apply monitor_loop_resolves.
Qed.

Lemma keeps_same_outside_monitor s0 :
  keeps monitor_update
    (fun s => same_outside_monitor s0 s /\
              exists new, calls s = (new ++ calls s0)%list /\
                          forallb is_lookup new = true).
Proof.
  intros u s Hu [Hs (new & Hn & Hl)]. split.
  - unfold same_outside_monitor in *.
    destruct u as [c| | | | | | | | | | | | | |]; try discriminate; exact Hs.
  - destruct u as [c| | | | | | | | | | | | | |]; try discriminate;
      try (exists new; split; [exact Hn|exact Hl]).
    exists (c :: new). cbn [apply_update calls set_calls]. rewrite Hn.
    split; [reflexivity|]. cbn [forallb]. rewrite Hl.
    destruct c; try discriminate; reflexivity.
Qed.

End MonitorOutcome.

(** X2.  The monitor tick keeps out of everything else: block counter, sent
    counter, baseline, both cache cells, connection flags and the exit flag
    are as before, it resolves, and the only chain calls it makes are receipt
    and block lookups (no submission, no fee or sequence query). *)
Theorem monitor_tick_footprint (config : BlockReactionConfig) (env : Env) (s : State) :
  let r := transactionMonitoringTick config env s in
  fst r = Ok tt /\
  same_outside_monitor s (snd r) /\
  exists new,
    calls (snd r) = (new ++ calls s)%list /\ forallb is_lookup new = true.
Proof.
  intros r. subst r. split; [apply transactionMonitoringTick_resolves|].
  apply (footprint_transactionMonitoringTick config _ env
           (keeps_same_outside_monitor s)).
  split; [repeat split|]. exists []. split; reflexivity.
Qed.

(** ** More on dispatch and refresh *)

Section DispatchMore.

Variable config : BlockReactionConfig.

Lemma gasDataRefreshTick_resolves env s :
  fst (gasDataRefreshTick config env s) = Ok tt.
Proof.
  unfold gasDataRefreshTick, try_catch, bind.
  pose proof (getCachedGasData_outcome config env s) as Hg.
  destruct (getCachedGasData config env s) as [[g|e|] s1]; simpl in *;
    [|reflexivity|congruence].
  pose proof (getCachedNonce_outcome env s1) as Hn.
  destruct (getCachedNonce env s1) as [[n|e|] s2]; simpl in *;
    [reflexivity|reflexivity|congruence].
Qed.

(** *** Shape of the submissions *)

Lemma to_recipient_dispatch env :
  dispatch_keeps config (fun s => Forall (to_recipient config) (calls s)) env.
Proof.
  intros bn bd s H _.
  assert (Hc : ignores_calls (fun s => Forall (to_recipient config) (calls s))).
  { intros c s' Hc H'. cbn [logged calls set_calls]. constructor; [|exact H'].
    destruct c; try discriminate; exact Logic.I. }
  assert (H1 : Forall (to_recipient config)
                 (calls (snd (getCachedGasData config env s)))).
  { apply (preserves_getCachedGasData config _ env Hc); auto.
    intros v s' H'. exact H'. }
  pose proof (getCachedGasData_outcome config env s) as Hg.
  destruct (getCachedGasData config env s) as [[g|e|] s1] eqn:E1; cbn [fst snd] in *;
    [| |congruence].
  - assert (H2 : Forall (to_recipient config) (calls (snd (getCachedNonce env s1)))).
    { apply (preserves_getCachedNonce _ env Hc); auto. intros v s' H'. exact H'. }
    pose proof (getCachedNonce_outcome env s1) as Hn.
    destruct (getCachedNonce env s1) as [[n|e|] s2] eqn:E2; cbn [fst snd] in *;
      [| |congruence].
    + destruct (wallet_sendTransaction (chain env) (built_tx config (fst g) (fst n)))
        as [h|] eqn:E3.
      * erewrite sendTransaction_accepted by eassumption. fields.
        constructor; [|exact H2]. repeat split.
      * erewrite sendTransaction_rejected by eassumption. fields.
        constructor; [|exact H2]. repeat split.
    + erewrite sendTransaction_nonce_fails by eassumption. exact H2.
  - erewrite sendTransaction_gas_fails by eassumption. exact H1.
Qed.

(** *** Invariants that only dispatch can break *)

Lemma coarse_handle (I : State -> Prop) ev :
  ignores_calls I -> ignores_blockCount I -> ignores_lifecycle I ->
  ignores_baseline I -> ignores_metrics I -> ignores_pending I ->
  ignores_gas_cell I -> ignores_nonce_cell I ->
  (forall env, dispatch_keeps config I env) ->
  preserves I (handle config ev).
Proof.
  intros Hc Hb Hl Hp Hm Hq Hg Hn Hd.
  destruct ev as [env bd|env envs|env|env]; cbn [handle].
  - now apply preserves_handleNewBlock.
  - now apply preserves_pollBlocks.
  - now apply preserves_transactionMonitoringTick.
  - now apply preserves_gasDataRefreshTick.
Qed.

End DispatchMore.

(** X4.  The refresh tick always resolves.  When the fee cell is empty or
    expired and the fee-rate query rejects, the tick ends there: the rejected
    query is the only call it records and the sequence cell is not refreshed,
    even if it has expired as well. *)
Theorem refresh_tick_stops_at_fee_failure (config : BlockReactionConfig)
    (env : Env) (s : State) :
  fst (gasDataRefreshTick config env s) = Ok tt /\
  (gas_fresh (now env) s = false ->
   getFeeData (chain env) = None ->
   snd (gasDataRefreshTick config env s) = set_calls (CallFeeData false :: calls s) s).
Proof.
  split; [apply gasDataRefreshTick_resolves|].
  intros Hstale Hfd. unfold gasDataRefreshTick, try_catch, bind.
  rewrite (getCachedGasData_stale config env s Hstale).
  rewrite (fetchGasData_fail config env s Hfd). reflexivity.
Qed.

Lemma refresh_tick_stops_at_fee_failure_witness :
  let env := mkEnv 61000 feeless_chain in
  let s := snd (gasDataRefreshTick sample_config env started_state) in
  nonce_fresh 61000 started_state = false /\
  getNonce (chain env) = Some 9 /\
  cachedNonce s = Some (mkCachedNonce 5 0) /\
  calls s = CallFeeData false :: calls started_state.
Proof.
  intros env s.
  destruct (refresh_tick_stops_at_fee_failure sample_config env started_state)
    as [_ H].
  subst s. rewrite H by reflexivity. repeat split.
Defined.

(** X6.  Whatever the run, every transaction the engine submits goes to the
    configured recipient, carries the fixed amount of 10 wei and the
    configured gas limit. *)
Theorem submissions_go_to_recipient (config : BlockReactionConfig)
    (evs : list Event) (s0 : State) :
  Forall (to_recipient config) (calls s0) ->
  Forall (to_recipient config) (calls (run config evs s0)).
Proof.
  apply (run_preserves config (fun s => Forall (to_recipient config) (calls s))).
  intros ev _. apply coarse_handle; try (intros v s H; exact H).
  - intros c s Hc H. cbn [logged calls set_calls]. constructor; [|exact H].
    destruct c; try discriminate; exact Logic.I.
  - intros v s H. repeat split; exact H.
  - intros env. apply to_recipient_dispatch.
Qed.

Lemma submissions_go_to_recipient_witness :
  Forall (to_recipient sample_config)
    (calls (run sample_config sample_run initState)).
Proof.
  apply (submissions_go_to_recipient sample_config sample_run initState).
  constructor.
Defined.

(** ** More on the pull feed *)

Section PollMore.

Variable config : BlockReactionConfig.

Lemma countdown_snoc n : forall top,
  countdown (S n) top = (countdown n top ++ [top - Z.of_nat n])%list.
Proof.
  induction n as [|n IH]; intros top.
  - cbn [countdown app]. f_equal. lia.
  - change (countdown (S (S n)) top) with (top :: countdown (S n) (top - 1)).
    rewrite IH. cbn [countdown app]. do 2 f_equal. f_equal. lia.
Qed.

Lemma countdown_app a : forall b top,
  countdown (a + b) top = (countdown a top ++ countdown b (top - Z.of_nat a))%list.
Proof.
  induction a as [|a IH]; intros b top.
  - cbn [Nat.add countdown app]. f_equal. lia.
  - cbn [Nat.add countdown app]. rewrite IH. do 3 f_equal. lia.
Qed.

Lemma block_fetches_cons c l :
  block_fetches (c :: l)
  = (match c with CallBlock n _ => [n] | _ => [] end ++ block_fetches l)%list.
Proof. reflexivity. Qed.

(** A dispatch asks for no block. *)
Lemma sendTransaction_block_fetches env bn bd s :
  block_fetches (calls (snd (sendTransaction config env bn bd s)))
  = block_fetches (calls s).
Proof.
  apply (footprint_sendTransaction config
           (fun st => block_fetches (calls st) = block_fetches (calls s)));
    [|reflexivity].
  intros u st Hu H.
  destruct u as [[]| | | | | | | | | | | | | |]; try discriminate; try exact H.
  simpl. destruct (cachedNonce st); exact H.
Qed.

(** [processBlock] asks for its block, once, and for no other. *)
Lemma processBlock_block_fetches env b s :
  block_fetches (calls (snd (processBlock config env b s)))
  = b :: block_fetches (calls s).
Proof.
  unfold processBlock, try_catch, bind at 1.
  destruct (getBlock (chain env) b) as [[block|]|]; munfold; auto.
  destruct (_ <=? _); simpl; auto.
  destruct (_ <? _); simpl.
  - match goal with |- context [sendTransaction ?c ?e ?n ?d ?st] =>
      pose proof (sendTransaction_block_fetches e n d st) as F;
      destruct (sendTransaction c e n d st) as [o s'] end.
    cbn [snd] in F. destruct o; cbn [snd]; rewrite F; reflexivity.
  - unfold stopHTTP. munfold. destruct (completed _ _); reflexivity.
Qed.

Lemma poll_body_fetches envs b s :
  exited s = false ->
  let r := poll_body config envs b s in
  block_fetches (calls (snd r)) = b :: block_fetches (calls s) /\
  ((fst r = Ok tt /\ exited (snd r) = false /\ lastProcessedBlock (snd r) = b) \/
   (fst r = Exit /\ exited (snd r) = true)).
Proof.
  intros Hx r. subst r. unfold poll_body, bind.
  pose proof (processBlock_block_fetches (envs b) b s) as Hf.
  destruct (processBlock_outcome config (envs b) b s Hx) as [[Ho Hs]|[Ho Hs]];
    destruct (processBlock config (envs b) b s) as [o s1]; cbn [fst snd] in *;
    subst o; cbn [modify fst snd]; split; auto.
Qed.

Lemma poll_loop_fetches envs n : forall i s,
  exited s = false ->
  let r := for_range n i (poll_body config envs) s in
  (fst r = Ok tt /\ exited (snd r) = false /\
   block_fetches (calls (snd r))
   = (countdown n (i + Z.of_nat n - 1) ++ block_fetches (calls s))%list /\
   lastProcessedBlock (snd r)
   = if Nat.eqb n 0 then lastProcessedBlock s else i + Z.of_nat n - 1) \/
  (fst r = Exit /\ exited (snd r) = true).
Proof.
  induction n as [|n IH]; intros i s Hx; cbv zeta.
  - left. cbn [for_range countdown app Nat.eqb]. auto.
  - rewrite for_range_S.
    destruct (poll_body_fetches envs i s Hx) as (Hf & [(Ho & Hs & Hl)|(Ho & Hs)]);
      destruct (poll_body config envs i s) as [o s1]; cbn [fst snd] in *; subst o;
      [|right; auto].
    specialize (IH (i + 1) s1 Hs). cbv zeta in IH.
    destruct IH as [(A & B & C & D)|(A & B)]; [left|right; auto].
    repeat split; auto.
    + rewrite C, Hf, countdown_snoc, <- app_assoc. cbn [app].
      replace (i + 1 + Z.of_nat n - 1) with (i + Z.of_nat (S n) - 1) by lia.
      do 2 f_equal. f_equal. lia.
    + rewrite D. destruct n; cbn [Nat.eqb]; lia.
Qed.

Lemma pollBlocks_no_gap env envs s cur :
  isPolling s = true ->
  getBlockNumber (chain env) = Some cur ->
  cur <= lastProcessedBlock s ->
  pollBlocks config env envs s = (Ok tt, logged (CallBlockNumber true) s).
Proof.
  intros Hp Hh Hle. unfold pollBlocks, bind at 1, get. rewrite Hp. cbn [negb].
  unfold try_catch, bind at 1, rpc. rewrite Hh.
  unfold bind at 1, modify, ret, bind at 1, get. fields.
  unfold BLOCK_CONFIRMATION_DELAY. rewrite Z.add_0_r.
  assert (E : (cur >? lastProcessedBlock s) = false).
  { rewrite Z.gtb_ltb. apply Z.ltb_ge. lia. }
  rewrite E. reflexivity.
Qed.

Lemma pollBlocks_stopped env envs s :
  isPolling s = false -> pollBlocks config env envs s = (Ok tt, s).
Proof. intros Hp. unfold pollBlocks, bind, get. rewrite Hp. reflexivity. Qed.

(** One poll keeps the record of the replay. *)
Lemma pollBlocks_replays env envs last0 fetched0 s :
  exited s = false ->
  replayed last0 fetched0 s ->
  replayed last0 fetched0 (snd (pollBlocks config env envs s)).
Proof.
  intros Hx H. destruct (H Hx) as [Hle Hf].
  destruct (isPolling s) eqn:Hp;
    [|rewrite pollBlocks_stopped by exact Hp; exact H].
  destruct (getBlockNumber (chain env)) as [cur|] eqn:Hh.
  - destruct (Z_lt_le_dec (lastProcessedBlock s) cur) as [Hlt|Hge].
    + rewrite (pollBlocks_gap config env envs s cur Hp Hh Hlt).
      destruct (poll_loop_fetches envs (Z.to_nat (cur - lastProcessedBlock s))
                  (lastProcessedBlock s + 1) (logged (CallBlockNumber true) s) Hx)
        as [(_ & _ & C & D)|(_ & B)]; intros Hx'; [|congruence].
      destruct (Z.to_nat (cur - lastProcessedBlock s)) as [|n] eqn:En; [lia|].
      cbn [Nat.eqb] in D. fields.
      assert (Hcur : lastProcessedBlock s + 1 + Z.of_nat (S n) - 1 = cur) by lia.
      rewrite Hcur in *. rewrite D. split; [lia|].
      rewrite C. cbn [block_fetches flat_map app] in *.
      fold (block_fetches (calls s)). rewrite Hf, app_assoc. f_equal.
      unfold gap_desc.
      replace (Z.to_nat (cur - last0))
        with (S n + Z.to_nat (lastProcessedBlock s - last0))%nat by lia.
      rewrite countdown_app. do 2 f_equal. lia.
    + rewrite (pollBlocks_no_gap env envs s cur Hp Hh Hge). exact H.
  - rewrite (pollBlocks_height_fails config env envs s Hp Hh). exact H.
Qed.

Lemma refresh_replays env last0 fetched0 s :
  replayed last0 fetched0 s ->
  replayed last0 fetched0 (snd (gasDataRefreshTick config env s)).
Proof.
  intros H.
  assert (F : exited (snd (gasDataRefreshTick config env s)) = exited s /\
              lastProcessedBlock (snd (gasDataRefreshTick config env s))
              = lastProcessedBlock s /\
              block_fetches (calls (snd (gasDataRefreshTick config env s)))
              = block_fetches (calls s)).
  { apply (footprint_gasDataRefreshTick config
             (fun st => exited st = exited s /\
                        lastProcessedBlock st = lastProcessedBlock s /\
                        block_fetches (calls st) = block_fetches (calls s)));
      [|auto].
    intros u st Hu Hst.
    destruct u as [[]| | | | | | | | | | | | | |]; try discriminate; exact Hst. }
  destruct F as (F1 & F2 & F3). unfold replayed. rewrite F1, F2, F3. exact H.
Qed.

Lemma feed_run_replays last0 fetched0 evs : forall s,
  Forall (fun ev => is_feed_event ev = true) evs ->
  replayed last0 fetched0 s ->
  replayed last0 fetched0 (run config evs s).
Proof.
  induction evs as [|ev evs IH]; intros s Hall H; [exact H|].
  inversion Hall as [|? ? Hev Hrest]; subst.
  change (run config (ev :: evs) s) with (run config evs (step config s ev)).
  apply IH; [exact Hrest|].
  unfold step. destruct (exited s) eqn:Hx; [exact H|].
  destruct ev as [env bd|env envs|env|env]; try discriminate; cbn [handle].
  - now apply pollBlocks_replays.
  - now apply refresh_replays.
Qed.

End PollMore.

(** X10.  Polls and refresh ticks of the pull service, as long as the process
    has not exited: the baseline never moves back, and the blocks asked of the
    client since the start are exactly the numbers above the old baseline up
    to the new one, each asked once, in increasing order (the record is most
    recent first), whether the fetch answered or rejected. *)
Theorem pull_feed_fetches_each_block_once (config : BlockReactionConfig)
    (evs : list Event) (s0 : State) :
  Forall (fun ev => is_feed_event ev = true) evs ->
  let s := run config evs s0 in
  exited s = false ->
  lastProcessedBlock s0 <= lastProcessedBlock s /\
  block_fetches (calls s)
  = (gap_desc (lastProcessedBlock s0) (lastProcessedBlock s)
     ++ block_fetches (calls s0))%list.
Proof.
  intros Hall s Hx.
  apply (feed_run_replays config (lastProcessedBlock s0)
           (block_fetches (calls s0)) evs s0 Hall); [|exact Hx].
  intros _. split; [lia|].
  unfold gap_desc. rewrite Z.sub_diag. reflexivity.
Qed.

Lemma pull_feed_fetches_each_block_once_witness :
  block_fetches
    (calls (run sample_config
              [PollTick (mkEnv 1000 (serving_chain 12))
                 (fun _ => mkEnv 1000 (serving_chain 12));
               RefreshTick (mkEnv 40000 (serving_chain 12));
               PollTick (mkEnv 41000 (blockless_chain 13))
                 (fun _ => mkEnv 41000 (blockless_chain 13))]
              polling_state))
  = [13; 12; 11].
Proof.
  assert (Hall : Forall (fun ev => is_feed_event ev = true)
                   [PollTick (mkEnv 1000 (serving_chain 12))
                      (fun _ => mkEnv 1000 (serving_chain 12));
                    RefreshTick (mkEnv 40000 (serving_chain 12));
                    PollTick (mkEnv 41000 (blockless_chain 13))
                      (fun _ => mkEnv 41000 (blockless_chain 13))])
    by (repeat constructor).
  pose proof (pull_feed_fetches_each_block_once sample_config _ polling_state Hall)
    as H.
  cbv zeta in H. destruct (H eq_refl) as [_ H']. rewrite H'. reflexivity.
Defined.

(** ** Accounting of the submissions *)

Section Accounting.

Variable config : BlockReactionConfig.

Lemma accepted_cons c l h :
  accepted h (c :: l) <->
  (exists tx, c = CallSend tx (Some h)) \/ accepted h l.
Proof.
  unfold accepted. cbn [In]. split.
  - intros (tx & [E|H]); [left|right]; exists tx; auto.
  - intros [(tx & E)|(tx & H)]; exists tx; auto.
Qed.

Lemma accepted_skip c l h :
  is_accepted_send c = false -> (accepted h (c :: l) <-> accepted h l).
Proof.
  intros Hc. rewrite accepted_cons. split; [|auto].
  intros [(tx & ->)|H]; [discriminate|exact H].
Qed.

Lemma is_send_accepted c : is_send c = false -> is_accepted_send c = false.
Proof. destruct c; try reflexivity; discriminate. Qed.

Lemma map_delete_keys_iff (V : Type) (k : string) (m : list (string * V)) k' :
  In k' (List.map fst (map_delete k m)) <-> In k' (List.map fst m) /\ k' <> k.
Proof.
  rewrite !in_map_iff. split.
  - intros (y & <- & Hy). apply map_delete_In in Hy. split; [exists y|]; intuition.
  - intros ((y & <- & Hy) & Hne). exists y. split; [reflexivity|].
    apply map_delete_In. auto.
Qed.

Lemma accounted_ignores_calls : ignores_calls accounted.
Proof.
  intros c s Hc H h. cbn [logged calls set_calls]. fields.
  rewrite accepted_skip by now apply is_send_accepted. apply H.
Qed.

Lemma accounted_dispatch env : dispatch_keeps config accounted env.
Proof.
  intros bn bd s H _.
  pose proof accounted_ignores_calls as Hc.
  assert (H1 : accounted (snd (getCachedGasData config env s))).
  { apply (preserves_getCachedGasData config _ env Hc); auto.
    intros v s' H'. exact H'. }
  pose proof (getCachedGasData_outcome config env s) as Hg.
  destruct (getCachedGasData config env s) as [[g|e|] s1] eqn:E1; cbn [fst snd] in *;
    [| |congruence].
  - assert (H2 : accounted (snd (getCachedNonce env s1))).
    { apply (preserves_getCachedNonce _ env Hc); auto. intros v s' H'. exact H'. }
    pose proof (getCachedNonce_outcome env s1) as Hn.
    destruct (getCachedNonce env s1) as [[n|e|] s2] eqn:E2; cbn [fst snd] in *;
      [| |congruence].
    + destruct (wallet_sendTransaction (chain env) (built_tx config (fst g) (fst n)))
        as [h|] eqn:E3.
      * erewrite sendTransaction_accepted by eassumption. intros h'. fields.
        rewrite accepted_cons, map_set_keys, (H2 h'). split.
        -- intros [(tx & E)|[Hp|Hm]]; auto. inversion E; auto.
        -- intros [[->|Hp]|Hm]; auto. left. eexists. reflexivity.
      * erewrite sendTransaction_rejected by eassumption. intros h'. fields.
        rewrite accepted_skip by reflexivity. apply H2.
    + erewrite sendTransaction_nonce_fails by eassumption. exact H2.
  - erewrite sendTransaction_gas_fails by eassumption. exact H1.
Qed.

Lemma accounted_with_same keys s s' :
  (forall h, accepted h (calls s') <-> accepted h (calls s)) ->
  pendingTransactions s' = pendingTransactions s ->
  confirmationMetrics s' = confirmationMetrics s ->
  accounted_with keys s -> accounted_with keys s'.
Proof.
  intros Hc Hp Hm [H Hk]. split.
  - intros h. rewrite Hc, Hp, Hm. apply H.
  - intros k Hin. apply Hc. now apply Hk.
Qed.

Lemma accounted_with_confirmed keys k m s s' :
  In k keys -> transactionHash m = k ->
  (forall h, accepted h (calls s') <-> accepted h (calls s)) ->
  pendingTransactions s' = map_delete k (pendingTransactions s) ->
  confirmationMetrics s' = (confirmationMetrics s ++ [m])%list ->
  accounted_with keys s -> accounted_with keys s'.
Proof.
  intros Hin Hm Hc Hp Hcm [H Hk]. split.
  - intros h. rewrite Hc, Hp, Hcm.
    rewrite map_delete_keys_iff, map_app, in_app_iff. cbn [List.map In].
    rewrite Hm, (H h). split.
    + intros [Hq|Hq]; [|auto].
      destruct (string_dec h k) as [->|Hne]; auto.
    + intros [[Hq _]|[Hq|[<-|[]]]]; auto.
      apply H, Hk, Hin.
  - intros k' Hin'. apply Hc. now apply Hk.
Qed.

(** One entry of the monitor loop, for a hash that was answered. *)
Lemma accounted_monitor_body keys env entry :
  In (fst entry) keys ->
  preserves (accounted_with keys) (monitor_body config env entry).
Proof.
  intros Hin s H.
  unfold monitor_body, processConfirmedTransaction, completed.
  destruct (getTransactionReceipt (chain env) (fst entry)) as [[r|]|]; munfold;
    [|eapply accounted_with_same; [| | |exact H]; fields; try reflexivity;
      intros h; rewrite !accepted_skip by reflexivity; reflexivity ..].
  destruct (getBlock (chain env) (r_blockNumber r)) as [blk|]; munfold;
    [|eapply accounted_with_same; [| | |exact H]; fields; try reflexivity;
      intros h; rewrite !accepted_skip by reflexivity; reflexivity].
  destruct (_ =? transactionCount config);
    (eapply accounted_with_confirmed; [exact Hin| | | | |exact H];
     [|intros h; fields; rewrite !accepted_skip by reflexivity; reflexivity
      |fields; reflexivity|fields; reflexivity]; reflexivity).
Qed.

Lemma accounted_monitor env :
  preserves accounted (transactionMonitoringTick config env).
Proof.
  intros s H. unfold transactionMonitoringTick, bind, get.
  destruct (Nat.eqb _ _); [exact H|].
  apply (preserves_forM (accounted_with (List.map fst (pendingTransactions s)))
           _ (pendingTransactions s) (monitor_body config env)).
  - intros entry Hin. apply accounted_monitor_body. now apply in_map.
  - split; [exact H|]. intros k Hk. apply H. now left.
Qed.

Lemma accounted_handle ev : preserves accounted (handle config ev).
Proof.
  pose proof accounted_ignores_calls as Hc.
  assert (Hl : ignores_lifecycle accounted)
    by (intros v s H; split; [exact H|split; [exact H|split; exact H]]).
  destruct ev as [env bd|env envs|env|env]; cbn [handle].
  - apply preserves_handleNewBlock; auto.
    + intros v s H; exact H.
    + apply accounted_dispatch.
  - apply preserves_pollBlocks; auto.
    + intros v s H; exact H.
    + intros v s H; exact H.
    + intros b. apply accounted_dispatch.
  - apply accounted_monitor.
  - apply preserves_gasDataRefreshTick; auto; intros v s H; exact H.
Qed.

End Accounting.

(** X12.  Whatever the events and whatever the client answers, the engine
    keeps the books: from the constructor's state on, a hash is pending or
    has a confirmation entry exactly when the client answered a submission
    with it.  No answered submission is lost track of before it is confirmed,
    and no confirmation is recorded for a hash the client never returned. *)
Theorem submissions_are_accounted (config : BlockReactionConfig) (evs : list Event) :
  accounted (run config evs initState).
Proof.
  apply run_preserves.
  - intros ev _. apply accounted_handle.
  - intros h. cbn. split; [intros (tx & [])|intros [[]|[]]].
Qed.

(** ** Start, shutdown and the socket *)

Section Lifecycle.

Variable config : BlockReactionConfig.




End Lifecycle.




(** X16.  [stop] of the push service does not end the reconnect cycle.  When
    [stop] closes the socket and does not end the process, the [close]
    handler still arms the reconnect timer; when the timer fires and the new
    socket opens, the service is connected again and has subscribed to new
    blocks on the new socket. *)
Theorem stop_does_not_end_reconnects (config : BlockReactionConfig)
    (p : PushService) (socket : nat) :
  ws p = Some socket ->
  completed config (engine p) = false ->
  let stopped := pushStop config p in
  let p' := on_open (on_reconnect_timer (on_close stopped)) in
  ws stopped = None /\ closing stopped = socket :: closing p /\
  isConnected (engine stopped) = false /\ exited (engine stopped) = exited (engine p) /\
  ws p' = Some (created p) /\ isConnected (engine p') = true /\
  subscriptions p' = created p :: subscriptions p /\
  reconnects p' = reconnects p.
Proof.
  intros Hw Hc. cbv zeta.
  unfold pushStop, close_socket, stop, completed, bind, modify, get, ret in *.
  rewrite Hw. cbn [engine with_engine]. fields. rewrite Hc.
  cbn. repeat split; reflexivity.
Qed.

Lemma stop_does_not_end_reconnects_witness :
  let p := mkPush started_state (Some 0%nat) 1 [0%nat] [] 0 in
  let p' := on_open (on_reconnect_timer (on_close (pushStop sample_config p))) in
  ws p' = Some 1%nat /\ isConnected (engine p') = true /\
  subscriptions p' = [1%nat; 0%nat].
Proof.
  intros p p'.
  destruct (stop_does_not_end_reconnects sample_config p 0%nat eq_refl eq_refl)
    as (_ & _ & _ & _ & H1 & H2 & H3 & _).
  repeat split; assumption.
Defined.

(** ** More on configuration loading *)

Module ConfigMore.
Import ConfigLoader.

Section Loader.

Variable process_env : string -> option string.
Variable parseFloat : string -> number.

Lemma getEnvVarAsNumber_number key d :
  isNaN d = false -> isNaN (getEnvVarAsNumber process_env parseFloat key d) = false.
Proof.
  intros Hd. unfold getEnvVarAsNumber.
  destruct (process_env key) as [v|]; [|exact Hd].
  destruct (String.eqb v ""); [exact Hd|].
  destruct (isNaN (parseFloat v)) eqn:E; [exact Hd|exact E].
Qed.

Lemma not_leb_ltb a b :
  isNaN a = false -> isNaN b = false -> leb a b = false -> ltb b a = true.
Proof.
  intros Ha Hb H. destruct a, b; try discriminate; cbn [ltb]; rewrite H; reflexivity.
Qed.

Lemma not_ltb_leb a b :
  isNaN a = false -> isNaN b = false -> ltb a b = false -> leb b a = true.
Proof.
  intros Ha Hb H. destruct a, b; try discriminate; cbn [ltb] in H;
    apply negb_false_iff in H; exact H.
Qed.

Lemma validateConfig_loaded config :
  validateConfig config = Loaded tt ->
  isNaN (gasLimit config) = false -> isNaN (gasPriceGwei config) = false ->
  isNaN (initialBlocksToSkip config) = false ->
  isNaN (transactionCount config) = false ->
  well_formed config.
Proof.
  unfold validateConfig, andThen, check. intros H N1 N2 N3 N4.
  repeat match type of H with
         | context [if ?b then _ else _] => destruct b eqn:?; [discriminate|]
         end.
  repeat match goal with
         | E : _ && _ = false |- _ => apply andb_false_iff in E
         | E : _ || _ = false |- _ => apply orb_false_iff in E; destruct E
         | E : negb _ = false |- _ => apply negb_false_iff in E
         end.
  unfold well_formed. repeat split.
  - match goal with
    | E : negb (startsWith (websocketUrl _) _) = false \/ _ |- _ =>
        let E1 := fresh in
        destruct E as [E1|E1]; apply negb_false_iff in E1; auto
    end.
  - match goal with
    | E : negb (startsWith (httpRpcUrl _) _) = false \/ _ |- _ =>
        let E1 := fresh in
        destruct E as [E1|E1]; apply negb_false_iff in E1; auto
    end.
  - assumption.
  - now apply Nat.eqb_eq.
  - assumption.
  - now apply Nat.eqb_eq.
  - now apply not_leb_ltb.
  - now apply not_leb_ltb.
  - now apply not_ltb_leb.
  - now apply not_leb_ltb.
  - now apply not_ltb_leb.
Qed.

Lemma validateConfig_not_missing config key :
  validateConfig config <> Thrown (MissingRequired key).
Proof.
  unfold validateConfig, andThen, check.
  repeat match goal with
         | |- context [if ?b then _ else _] => destruct b
         end; discriminate.
Qed.

Lemma load_well_formed config :
  load process_env parseFloat = Loaded config ->
  well_formed config /\
  process_env "WEBSOCKET_URL" = Some (websocketUrl config) /\
  process_env "HTTP_RPC_URL" = Some (httpRpcUrl config) /\
  process_env "PRIVATE_KEY" = Some (privateKey config) /\
  process_env "RECIPIENT_ADDRESS" = Some (recipientAddress config).
Proof.
  unfold load, getRequiredEnvVar, andThen.
  destruct (process_env "WEBSOCKET_URL") as [v1|]; [|discriminate].
  destruct (String.eqb v1 ""); [discriminate|].
  destruct (process_env "HTTP_RPC_URL") as [v2|]; [|discriminate].
  destruct (String.eqb v2 ""); [discriminate|].
  destruct (process_env "PRIVATE_KEY") as [v3|]; [|discriminate].
  destruct (String.eqb v3 ""); [discriminate|].
  destruct (process_env "RECIPIENT_ADDRESS") as [v4|]; [|discriminate].
  destruct (String.eqb v4 ""); [discriminate|].
  match goal with
  | |- context [validateConfig ?c] => destruct (validateConfig c) as [[]|e] eqn:V
  end; intros H; inversion H; subst. clear H.
  split; [|repeat split].
  apply validateConfig_loaded; [exact V|..]; cbn [gasLimit gasPriceGwei
    initialBlocksToSkip transactionCount]; now apply getEnvVarAsNumber_number.
Qed.

Lemma load_missing key :
  load process_env parseFloat = Thrown (MissingRequired key) <->
  first_missing process_env = Some key.
Proof.
  unfold load, getRequiredEnvVar, andThen, first_missing, required_keys, falsy.
  cbn [find].
  destruct (process_env "WEBSOCKET_URL") as [v1|];
    [destruct (String.eqb v1 "")|]; try (split; intros H; inversion H; reflexivity).
  destruct (process_env "HTTP_RPC_URL") as [v2|];
    [destruct (String.eqb v2 "")|]; try (split; intros H; inversion H; reflexivity).
  destruct (process_env "PRIVATE_KEY") as [v3|];
    [destruct (String.eqb v3 "")|]; try (split; intros H; inversion H; reflexivity).
  destruct (process_env "RECIPIENT_ADDRESS") as [v4|];
    [destruct (String.eqb v4 "")|]; try (split; intros H; inversion H; reflexivity).
  match goal with
  | |- context [validateConfig ?c] =>
      pose proof (validateConfig_not_missing c key) as V;
      destruct (validateConfig c) as [[]|e]
  end; split; intros H; try discriminate.
  inversion H; subst. now contradiction V.
Qed.

End Loader.

End ConfigMore.

(** X17.  A configuration that [load] returns is well formed: the four
    required strings are the values of their variables and have the expected
    prefixes and lengths, and the four numeric fields are numbers (never
    [NaN]) in range: gas limit and gas price above 0, blocks to skip at least
    0, transaction count above 0 and at most 10. *)
Theorem loaded_config_is_well_formed
    (process_env : string -> option string)
    (parseFloat : string -> ConfigLoader.number)
    (config : ConfigLoader.BlockReactionConfig) :
  ConfigLoader.load process_env parseFloat = ConfigLoader.Loaded config ->
  well_formed config /\
  process_env "WEBSOCKET_URL" = Some (ConfigLoader.websocketUrl config) /\
  process_env "HTTP_RPC_URL" = Some (ConfigLoader.httpRpcUrl config) /\
  process_env "PRIVATE_KEY" = Some (ConfigLoader.privateKey config) /\
  process_env "RECIPIENT_ADDRESS" = Some (ConfigLoader.recipientAddress config).
Proof. apply ConfigMore.load_well_formed. Qed.

Lemma loaded_config_is_well_formed_witness :
  well_formed
    (ConfigLoader.mkConfig "wss://node.example" "https://node.example"
       "0x0123456789abcdef0123456789abcdef0123456789abcdef0123456789abcdef"
       "0x742d35Cc6634C0532925a3b8D4C9db96C4b4d8b6"
       (ConfigLoader.of_Z 21000) (ConfigLoader.of_Z 20)
       (ConfigLoader.of_Z 10) (ConfigLoader.of_Z 5)).
Proof.
  apply (loaded_config_is_well_formed sample_env sample_parseFloat).
  reflexivity.
Defined.

(** X18.  [load] throws the missing-variable error for a key exactly when
    that key is the first of the four required variables, in the order
    WEBSOCKET_URL, HTTP_RPC_URL, PRIVATE_KEY, RECIPIENT_ADDRESS, that is
    unset or empty; in particular a missing required variable is reported
    before any validation error, and validation never reports one. *)
Theorem load_reports_first_missing
    (process_env : string -> option string)
    (parseFloat : string -> ConfigLoader.number) (key : string) :
  ConfigLoader.load process_env parseFloat
  = ConfigLoader.Thrown (ConfigLoader.MissingRequired key) <->
  first_missing process_env = Some key.
Proof. apply ConfigMore.load_missing. Qed.

(** ** Submission rate and process exit *)

Section RateAndExit.

Variable config : BlockReactionConfig.







(** *** Exit *)

Lemma exit_justified_quiet : keeps quiet_update (exit_justified config).
Proof.
  intros u s Hu H. unfold exit_justified, completed in *.
  destruct u; try discriminate; try exact H.
  cbn [apply_update]. destruct (cachedNonce s); exact H.
Qed.

Lemma exit_justified_stop : preserves (exit_justified config) (stop config).
Proof.
  intros s H. unfold stop, bind, modify, get, process_exit, ret. fields.
  destruct (completed config (set_isConnected false s)) eqn:E; fields.
  - intros _. exact E.
  - exact H.
Qed.

Lemma exit_justified_stopHTTP : preserves (exit_justified config) (stopHTTP config).
Proof.
  intros s H. unfold stopHTTP, bind, modify, get, process_exit, ret. fields.
  destruct (completed config (set_isPolling false s)) eqn:E; fields.
  - intros _. exact E.
  - exact H.
Qed.

Lemma exit_justified_dispatch env bn bd :
  preserves (exit_justified config) (sendTransaction config env bn bd).
Proof.
  apply footprint_sendTransaction. apply (keeps_weaken _ quiet_update).
  - intros u Hu. destruct u as [[]| | | | | | | | | | | | | |]; auto; discriminate.
  - apply exit_justified_quiet.
Qed.

Lemma exit_justified_feeds ev :
  is_feed_source ev = true -> preserves (exit_justified config) (handle config ev).
Proof.
  assert (Hc : ignores_calls (exit_justified config)) by (intros c s _ H; exact H).
  destruct ev as [env bd|env envs|env|env]; try discriminate; intros _; cbn [handle].
  - unfold handleNewBlock.
    apply preserves_bind; [apply preserves_modify; intros s H; exact H|]. intros _.
    apply preserves_bind; [apply preserves_get|]. intros s.
    apply preserves_if; [apply preserves_ret|].
    apply preserves_if; [apply exit_justified_dispatch|apply exit_justified_stop].
  - unfold pollBlocks.
    apply preserves_bind; [apply preserves_get|]. intros s0.
    apply preserves_if; [apply preserves_ret|].
    apply preserves_try_catch; [|intros e; apply preserves_ret].
    apply preserves_bind; [apply preserves_rpc; auto|]. intros cur.
    apply preserves_bind; [apply preserves_get|]. intros s1.
    apply preserves_if; [|apply preserves_ret].
    apply preserves_for_range. intros b. unfold poll_body.
    apply preserves_bind; [|intros _; apply preserves_modify; intros s H; exact H].
    unfold processBlock.
    apply preserves_try_catch; [|intros e; apply preserves_ret].
    apply preserves_bind; [apply preserves_rpc; auto|].
    intros [block|]; [|apply preserves_ret].
    apply preserves_bind; [apply preserves_modify; intros s H; exact H|]. intros _.
    apply preserves_bind; [apply preserves_get|]. intros s.
    apply preserves_if; [apply preserves_ret|].
    apply preserves_if; [apply exit_justified_dispatch|apply exit_justified_stopHTTP].
Qed.

(** The timers leave [exited] alone. *)
Lemma timers_do_not_exit ev s :
  is_feed_source ev = false -> exited (snd (handle config ev s)) = exited s.
Proof.
  intros Hev.
  apply (footprint_handle config (fun st => exited st = exited s) ev); [|reflexivity].
  intros u st Hu H.
  destruct ev as [env bd|env envs|env|env]; try discriminate;
    destruct u as [[]| | | | | | | | | | | | | |]; try discriminate; try exact H.
Qed.

Lemma exit_justified_run evs : forall s,
  exit_justified config s -> exit_justified config (run config evs s).
Proof.
  induction evs as [|ev evs IH]; intros s H; [exact H|].
  change (run config (ev :: evs) s) with (run config evs (step config s ev)).
  apply IH. unfold step. destruct (exited s) eqn:Hx; [exact H|].
  destruct (is_feed_source ev) eqn:Hev.
  - now apply exit_justified_feeds.
  - intros Hx'. rewrite (timers_do_not_exit ev s Hev) in Hx'. congruence.
Qed.

End RateAndExit.


(** X20.  The handlers of the engine end the process only on completion: if
    a run that started in a live engine has ended the process, the number of
    confirmation entries equals the transaction count.  A used-up budget
    alone, a rejected query or a failed submission never ends it. *)
Theorem exit_only_on_completion (config : BlockReactionConfig)
    (evs : list Event) (s0 : State) :
  exited s0 = false ->
  let s := run config evs s0 in
  exited s = true ->
  Z.of_nat (List.length (confirmationMetrics s)) = transactionCount config.
Proof.
  intros H0 s Hx.
  apply Z.eqb_eq.
  apply (exit_justified_run config evs s0); [|exact Hx].
  intros H. congruence.
Qed.

Lemma exit_only_on_completion_witness :
  let evs := (sample_run ++
              [NewBlock (mkEnv 7000 (answering_chain sample_fees 5 "0xdd"))
                 (sample_block 105)])%list in
  exited (run sample_config evs started_state) = true /\
  List.length (confirmationMetrics (run sample_config evs started_state)) = 2%nat.
Proof.
  intros evs.
  assert (Hx : exited (run sample_config evs started_state) = true)
    by (vm_compute; reflexivity).
  split; [exact Hx|].
  apply Nat2Z.inj.
  exact (exit_only_on_completion sample_config evs started_state eq_refl Hx).
Defined.

(** ** Fee rate of the submissions, and what a run keeps *)

Section Price.

Variable config : BlockReactionConfig.
Hypothesis default_price : gasPriceGwei config <> 0.

Lemma bigint_or_nonzero a b : b <> 0 -> bigint_or a b <> 0.
Proof.
  intros Hb. unfold bigint_or. destruct a as [x|]; [|exact Hb].
  destruct (x =? 0) eqn:E; [exact Hb|]. now apply Z.eqb_neq.
Qed.

Lemma default_price_nonzero : parseUnits_gwei (gasPriceGwei config) <> 0.
Proof. unfold parseUnits_gwei. lia. Qed.

Lemma never_free_ignores_calls : ignores_calls never_free.
Proof.
  intros c s Hc [H1 H2]. split; [exact H1|].
  cbn [logged calls set_calls]. constructor; [|exact H2].
  destruct c; try exact Logic.I. discriminate.
Qed.

Lemma never_free_getCachedGasData env s :
  never_free s ->
  never_free (snd (getCachedGasData config env s)) /\
  forall g, fst (getCachedGasData config env s) = Ok g -> fst g <> 0.
Proof.
  intros H. destruct (gas_fresh (now env) s) eqn:F.
  - unfold gas_fresh in F. destruct (cachedGasData s) as [c|] eqn:Ec; [|discriminate].
    apply Z.ltb_lt in F. rewrite (getCachedGasData_fresh config env s c Ec F).
    cbn [fst snd]. split; [exact H|].
    intros g Hg. inversion Hg. cbn [fst]. now apply H.
  - rewrite (getCachedGasData_stale config env s F).
    destruct (getFeeData (chain env)) as [fd|] eqn:Ef.
    + rewrite (fetchGasData_ok config env s fd Ef). cbn [fst snd]. split.
      * split.
        -- intros c Hc. fields. inversion Hc. cbn [gasPrice].
           apply bigint_or_nonzero, default_price_nonzero.
        -- fields. constructor; [exact Logic.I|apply H].
      * intros g Hg. inversion Hg. cbn [fst].
        apply bigint_or_nonzero, default_price_nonzero.
    + rewrite (fetchGasData_fail config env s Ef). cbn [fst snd]. split.
      * now apply never_free_ignores_calls.
      * discriminate.
Qed.

Lemma never_free_dispatch env : dispatch_keeps config never_free env.
Proof.
  intros bn bd s H _.
  pose proof never_free_ignores_calls as Hc.
  destruct (never_free_getCachedGasData env s H) as [H1 Hp].
  pose proof (getCachedGasData_outcome config env s) as Hg.
  destruct (getCachedGasData config env s) as [[g|e|] s1] eqn:E1; cbn [fst snd] in *;
    [| |congruence].
  - specialize (Hp g eq_refl).
    assert (H2 : never_free (snd (getCachedNonce env s1))).
    { apply (preserves_getCachedNonce _ env Hc); auto. intros v s' H'. exact H'. }
    pose proof (getCachedNonce_outcome env s1) as Hn.
    destruct (getCachedNonce env s1) as [[n|e|] s2] eqn:E2; cbn [fst snd] in *;
      [| |congruence].
    + destruct (wallet_sendTransaction (chain env) (built_tx config (fst g) (fst n)))
        as [h|] eqn:E3.
      * erewrite sendTransaction_accepted by eassumption.
        destruct H2 as [Hcell Hcalls]. split; fields; [exact Hcell|].
        constructor; [exact Hp|exact Hcalls].
      * erewrite sendTransaction_rejected by eassumption.
        destruct H2 as [Hcell Hcalls]. split; fields; [exact Hcell|].
        constructor; [exact Hp|exact Hcalls].
    + erewrite sendTransaction_nonce_fails by eassumption. exact H2.
  - erewrite sendTransaction_gas_fails by eassumption. exact H1.
Qed.

Lemma never_free_handle ev : preserves never_free (handle config ev).
Proof.
  pose proof never_free_ignores_calls as Hc.
  assert (Hl : ignores_lifecycle never_free)
    by (intros v s H; split; [exact H|split; [exact H|split; exact H]]).
  destruct ev as [env bd|env envs|env|env]; cbn [handle].
  - apply preserves_handleNewBlock; auto.
    + intros v s H; exact H.
    + apply never_free_dispatch.
  - apply preserves_pollBlocks; auto.
    + intros v s H; exact H.
    + intros v s H; exact H.
    + intros b. apply never_free_dispatch.
  - apply preserves_transactionMonitoringTick; auto; intros v s H; exact H.
  - unfold gasDataRefreshTick.
    apply preserves_try_catch; [|intros e; apply preserves_ret].
    apply preserves_bind; [intros s H; now apply never_free_getCachedGasData|].
    intros _. apply preserves_bind; [|intros _; apply preserves_ret].
    apply preserves_getCachedNonce; auto. intros v s H; exact H.
Qed.

End Price.

Section Growth.

Variable config : BlockReactionConfig.

Lemma grown_from_update s0 ev : keeps (event_update ev) (grown_from s0).
Proof.
  intros u s Hu (Hm & Hb & Hx).
  destruct u; try (repeat split; assumption).
  - cbn [apply_update]. destruct (cachedNonce s); repeat split; assumption.
  - destruct Hm as [more Hm]. split; [|split; assumption].
    exists (more ++ [m])%list. cbn [apply_update]. fields.
    now rewrite Hm, app_assoc.
  - split; [exact Hm|]. split; [|exact Hx]. cbn [apply_update]. fields. lia.
Qed.

End Growth.

(** X21.  With a configured gas price other than 0, the engine never submits
    a transaction with a fee rate of 0: in any run from the constructor's
    state, a fee rate of 0 reported by the client is replaced by the
    configured rate just as a missing one is, in the cell and in every
    submission. *)
Theorem no_submission_at_zero_price (config : BlockReactionConfig)
    (evs : list Event) :
  gasPriceGwei config <> 0 ->
  let s := run config evs initState in
  (forall c, cachedGasData s = Some c -> gasPrice c <> 0) /\
  forall tx res, In (CallSend tx res) (calls s) -> tx_gasPrice tx <> 0.
Proof.
  intros Hd s.
  assert (H : never_free s).
  { apply run_preserves.
    - intros ev _. now apply never_free_handle.
    - split; [discriminate|constructor]. }
  destruct H as [H1 H2]. split; [exact H1|].
  intros tx res Hin. rewrite Forall_forall in H2. exact (H2 _ Hin).
Qed.

Lemma no_submission_at_zero_price_witness :
  let zero_fees := mkFeeData (Some 0) None None in
  let evs := [NewBlock (mkEnv 1000 (answering_chain zero_fees 5 "0xaa")) (sample_block 100);
              NewBlock (mkEnv 2000 (answering_chain zero_fees 5 "0xaa")) (sample_block 101)] in
  calls (run sample_config evs initState)
  = [CallSend (built_tx sample_config 20000000000 5) (Some "0xaa");
     CallNonce true; CallFeeData true] /\
  tx_gasPrice (built_tx sample_config 20000000000 5) <> 0.
Proof.
  intros zero_fees evs.
  assert (Hd : gasPriceGwei sample_config <> 0) by discriminate.
  destruct (no_submission_at_zero_price sample_config evs Hd) as [_ H].
  split; [reflexivity|].
  apply (H _ (Some "0xaa")). left. reflexivity.
Defined.

(** X22.  What a run keeps.  Whatever the events and the answers of the
    client, the confirmation entries recorded so far are kept as they are and
    only appended to, the block counter never goes down, and an exit that has
    been scheduled stays scheduled. *)
Theorem confirmations_are_kept (config : BlockReactionConfig)
    (evs : list Event) (s0 : State) :
  let s := run config evs s0 in
  (exists more, confirmationMetrics s = (confirmationMetrics s0 ++ more)%list) /\
  blockCount s0 <= blockCount s /\
  (exitScheduled s0 = true -> exitScheduled s = true).
Proof.
  cbv zeta. apply (footprint_run config (grown_from s0)).
  - intros ev _. apply grown_from_update.
  - split; [exists []; now rewrite app_nil_r|]. split; [lia|auto].
Qed.

(** ** The push service, await by await *)

Module AsyncFacts.
Import ConfigLoader.
Import Async.

(** *** Comparisons of whole numbers *)

Lemma leb_of_Z a b : leb (of_Z a) (of_Z b) = (a <=? b).
Proof.
  unfold leb, of_Z, Qle_bool, inject_Z. cbn [Qnum Qden].
  now rewrite !Z.mul_1_r.
Qed.

Lemma ltb_of_Z a b : ltb (of_Z a) (of_Z b) = (a <? b).
Proof.
  unfold ltb, of_Z. fold (of_Z a) (of_Z b). rewrite leb_of_Z.
  rewrite Z.ltb_antisym. reflexivity.
Qed.

(** *** Handlers run alone *)

Lemma alone_settle (A B : Type) env (p : Proc A) (f : Outcome A -> Proc B) :
  forall s,
    alone env (settle p f) s
    = alone env (f (fst (alone env p s))) (snd (alone env p s)).
Proof.
  induction p as [o|u p IH|k IH|k IH]; intros s; cbn [settle alone fst snd]; auto.
Qed.



Lemma alone_bind (A B : Type) env (p : Proc A) (f : A -> Proc B) s :
  alone env (bind p f) s
  = match alone env p s with
    | (Ok a, s') => alone env (f a) s'
    | (Throw e, s') => (Throw e, s')
    | (Exit, s') => (Exit, s')
    end.
Proof.
  unfold bind. rewrite alone_settle.
  destruct (alone env p s) as [[a|e|] s']; reflexivity.
Qed.

(** *** What the writes of a handler keep *)

Section Respects.

Variable I : State -> Prop.

Lemma respects_settle (A B : Type) (p : Proc A) (f : Outcome A -> Proc B) :
  respects I p -> (forall o, respects I (f o)) -> respects I (settle p f).
Proof.
  intros Hp Hf. induction Hp; cbn [settle]; auto; constructor; auto.
Qed.

Lemma respects_awaited (A B : Type) (p : Proc A) (k : Env -> A -> Proc B) :
  respects I p -> (forall env a, respects I (k env a)) -> respects I (awaited p k).
Proof.
  intros Hp Hk. apply respects_settle; [exact Hp|].
  intros [a|e|]; constructor; intros; auto; constructor.
Qed.

Lemma respects_try_catch (A : Type) (p : Proc A) (h : Error -> Proc A) :
  respects I p -> (forall e, respects I (h e)) -> respects I (try_catch p h).
Proof.
  intros Hp Hh. apply respects_settle; [exact Hp|].
  intros [a|e|]; auto; constructor.
Qed.

Lemma respects_bind (A B : Type) (p : Proc A) (f : A -> Proc B) :
  respects I p -> (forall a, respects I (f a)) -> respects I (bind p f).
Proof.
  intros Hp Hf. apply respects_settle; [exact Hp|].
  intros [a|e|]; auto; constructor.
Qed.

Lemma respects_rpc (A B : Type) (c : bool -> Call) (answer : Chain -> option A)
    (k : Env -> A -> Proc B) :
  (forall b s, I s -> I (logged (c b) s)) ->
  (forall env a, respects I (k env a)) ->
  respects I (rpc c answer k).
Proof.
  intros Hc Hk. unfold rpc. constructor. intros env.
  destruct (answer (chain env)); constructor; auto. constructor.
Qed.

(** One turn of a handler that respects [I], and what is left of it. *)
Lemma segment_respects (A : Type) (p : Proc A) :
  respects I p -> forall s, I s -> I (snd (segment p s)).
Proof.
  intros Hp. induction Hp as [o|f p Hf Hp IH|k Hk IH|k Hk]; intros s Hs;
    cbn [segment fst snd]; auto.
Qed.

Lemma suspended_respects (A : Type) (p : Proc A) :
  respects I p ->
  forall s k, fst (segment p s) = Suspended k -> forall env, respects I (k env).
Proof.
  intros Hp. induction Hp as [o|f p Hf Hp IH|k Hk IH|k Hk]; intros s k' E;
    cbn [segment fst snd] in E.
  - discriminate.
  - now apply (IH (f s)).
  - now apply (IH s s).
  - inversion E. subst. exact Hk.
Qed.


End Respects.

(** *** The cells and the refresh tick dispatch nothing *)

Section Quiet.

Variable config : BlockReactionConfig.
Variable I : State -> Prop.
Hypothesis I_calls : forall c s, is_send c = false -> I s -> I (logged c s).
Hypothesis I_gas : forall v s, I s -> I (set_cachedGasData v s).
Hypothesis I_nonce : forall v s, I s -> I (set_cachedNonce v s).

Lemma respects_getCachedGasData env : respects I (getCachedGasData config env).
Proof.
  unfold getCachedGasData. constructor. intros s.
  assert (F : respects I
                (rpc CallFeeData getFeeData
                   (fun (_ : Env) (feeData : FeeData) =>
                      match gasPrice_or_default config feeData with
                      | Ok gasPrice0 =>
                          Upd (set_cachedGasData
                                 (Some (mkCachedGas gasPrice0
                                          (bigint_or_undefined (fd_maxFeePerGas feeData))
                                          (bigint_or_undefined
                                             (fd_maxPriorityFeePerGas feeData))
                                          (now env))))
                            (Ret (Ok (gasPrice0, false)))
                      | Throw e => Ret (Throw e)
                      | Exit => Ret Exit
                      end))).
  { apply respects_rpc; [intros b s'; now apply I_calls|].
    intros env' fd. destruct (gasPrice_or_default config fd); constructor; auto.
    constructor. }
  destruct (cachedGasData s) as [c|]; [|exact F].
  destruct (_ <? _); [constructor|exact F].
Qed.

Lemma respects_getCachedNonce env : respects I (getCachedNonce env).
Proof.
  unfold getCachedNonce. constructor. intros s.
  assert (F : respects I
                (rpc CallNonce getNonce
                   (fun (_ : Env) (nonce0 : Z) =>
                      Upd (set_cachedNonce (Some (mkCachedNonce nonce0 (now env))))
                        (Ret (Ok (nonce0, false)))))).
  { apply respects_rpc; [intros b s'; now apply I_calls|].
    intros env' n. constructor; auto. constructor. }
  destruct (cachedNonce s) as [c|]; [|exact F].
  destruct (_ <? _); [constructor|exact F].
Qed.

Lemma respects_gasDataRefresh env : respects I (gasDataRefresh config env).
Proof.
  unfold gasDataRefresh. apply respects_try_catch; [|intros e; constructor].
  apply respects_awaited; [apply respects_getCachedGasData|]. intros env1 _.
  apply respects_awaited; [apply respects_getCachedNonce|]. intros _ _.
  constructor.
Qed.

End Quiet.

(** *** A dispatch run alone *)

Section Dispatch.

Variable config : BlockReactionConfig.






End Dispatch.

End AsyncFacts.

(** *** The budget under overlapping handlers *)

Import ConfigLoader.
Import Async.

(** The loader takes a budget of 2.5: whatever [parseFloat] is, if it reads
    the values of the file as JavaScript does, [load] returns the
    configuration with [transactionCount = 2.5]. *)
Lemma fractional_budget_loads (parseFloat : string -> number) :
  parseFloat "1" = of_Z 1 -> parseFloat "2.5" = Fin (Qmake 5 2) ->
  load fractional_env parseFloat = Loaded fractional_config.
Proof.
  intros E1 E2. unfold load, getRequiredEnvVar, getEnvVarAsNumber.
  cbn [fractional_env String.eqb Ascii.eqb Bool.eqb andThen].
  rewrite E1, E2. reflexivity.
Qed.

(** With that budget the engine submits three transactions, each handler
    run to its end before the next notification arrives. *)
Lemma fractional_budget_admits_three :
  let P := run fractional_config three_in_turn (mkPool started [] []) in
  sentTransactionCount (engine P) = 3 /\
  map fst (map_entries (pendingTransactions (engine P))) = ["0xaa"; "0xbb"; "0xcc"] /\
  ltb (transactionCount fractional_config) (of_Z 3) = true /\
  tasks P = [] /\ rejections P = [].
Proof. vm_compute. repeat split. Qed.

(** The same notifications with the budget 2: two submissions, and the third
    notification stops the feed. *)
Lemma budget_kept_in_turn :
  let P := run sample_config three_in_turn (mkPool started [] []) in
  sentTransactionCount (engine P) = 2 /\
  map fst (map_entries (pendingTransactions (engine P))) = ["0xaa"; "0xbb"] /\
  isConnected (engine P) = false /\ tasks P = [] /\ rejections P = [].
Proof. vm_compute. repeat split. Qed.

(** C5.  The counter of sent transactions exceeds the budget when handlers of
    block notifications overlap: with a budget of 2, one block to skip and the
    fee cell expired, the handlers of three notifications that arrive before
    the first fee query is answered all pass the budget test
    ([sentTransactionCount < transactionCount], read as 0 by each) and all
    increment the counter, which stands at 3 while the three submissions are
    in flight.  The three submissions carry the same sequence number 5; the
    client takes one and rejects the two others, whose decrement leaves the
    counter at 1. *)
Theorem overlapping_dispatches_exceed_budget :
  let P := run sample_config three_in_flight (mkPool started [] []) in
  let Q := run sample_config three_answers P in
  let tx := built_tx sample_config 30000000000 5 in
  transactionCount sample_config = of_Z 2 /\
  sentTransactionCount (engine P) = 3 /\
  List.length (tasks P) = 3%nat /\
  filter is_send (calls (engine Q))
  = [CallSend tx None; CallSend tx None; CallSend tx (Some "0xaa")] /\
  sentTransactionCount (engine Q) = 1 /\
  map fst (map_entries (pendingTransactions (engine Q))) = ["0xaa"] /\
  tasks Q = [] /\ rejections Q = [].
Proof. vm_compute. repeat split. Qed.

(** *** The blocks skipped and the first dispatch *)

Module AsyncSkip.
Import ConfigLoader.
Import Async.
Import AsyncFacts.



Lemma Forall_replace_nth (Q : Task -> Prop) l : forall i t,
  Forall Q l -> (forall t', t = Some t' -> Q t') -> Forall Q (replace_nth i t l).
Proof.
  induction l as [|x l IH]; intros i t Hl Ht; [destruct i; cbn; constructor|].
  inversion Hl; subst. destruct i; cbn [replace_nth].
  - destruct t as [t'|]; auto.
  - constructor; auto.
Qed.


Section Window.

Variable config : BlockReactionConfig.
Variable k : Z.
Hypothesis skip_k : initialBlocksToSkip config = of_Z k.




End Window.

End AsyncSkip.




(** *** Confirmations under overlapping monitor ticks *)

(** C8.  One transaction hash gets two metrics entries when two ticks of the
    monitor overlap, and [blocksToConfirm] is negative when the receipt names
    a block below the one the transaction was sent for.  After one dispatch
    (0xaa, sent for block 101, budget 2): a tick at 40000 finds the receipt of
    0xaa and waits for its block; the tick at 42000 starts before the first
    has deleted the entry, finds the same receipt, and both record an entry
    for 0xaa.  The list of metrics then has as many entries as the budget, so
    the final summary is printed and the exit scheduled with one transaction
    sent.  On a client that reports the receipt in block 98 the one entry
    recorded has [blocksToConfirm = -3]. *)
Theorem overlapping_ticks_confirm_twice :
  let P := run sample_config one_dispatch (mkPool started [] []) in
  let Q := run sample_config two_ticks P in
  let R := run sample_config early_receipt P in
  map fst (map_entries (pendingTransactions (engine P))) = ["0xaa"] /\
  sentTransactionCount (engine P) = 1 /\
  map transactionHash (confirmationMetrics (engine Q)) = ["0xaa"; "0xaa"] /\
  exitScheduled (engine Q) = true /\
  sentTransactionCount (engine Q) = 1 /\
  transactionCount sample_config = of_Z 2 /\
  map (fun m => (sentBlockNumber m, confirmedBlockNumber m, blocksToConfirm m))
    (confirmationMetrics (engine R))
  = [(of_Z 101, 98, of_Z (-3))] /\
  ltb (of_Z (-3)) (of_Z 0) = true.
Proof. vm_compute. repeat split. Qed.

(** *** The default fee rate *)

Lemma Qred_inject_Z (z : Z) : Qred (inject_Z z) = inject_Z z.
Proof.
  unfold Qred, inject_Z.
  pose proof (Z.ggcd_gcd z 1) as G.
  pose proof (Z.ggcd_correct_divisors z 1) as D.
  destruct (Z.ggcd z 1) as [g [aa bb]]. cbn [fst snd] in *.
  rewrite Z.gcd_1_r in G. subst g. destruct D as [D1 D2].
  rewrite Z.mul_1_l in D1, D2. subst. reflexivity.
Qed.

(** The default of an integral [gasPriceGwei] below 1e21. *)
Lemma parseUnits_gwei_integer (g : Z) :
  0 < g < 10 ^ 21 -> parseUnits_gwei (of_Z g) = Some (g * 10 ^ 9).
Proof.
  intros [Hlo Hhi]. unfold parseUnits_gwei, of_Z.
  assert (P : plain_notation (inject_Z g) = true).
  { unfold plain_notation, abs_ge, Qle_bool, Qeq_bool, inject_Z, Qopp.
    cbn [Qnum Qden].
    apply Bool.orb_true_iff. right. apply andb_true_iff. split.
    - apply Bool.orb_true_iff. left. apply Z.leb_le. lia.
    - apply Bool.negb_true_iff. apply Bool.orb_false_iff. split.
      + apply Z.leb_gt. lia.
      + apply Z.leb_gt. lia. }
  rewrite P.
  assert (R : Qred (Qmult (inject_Z g) (inject_Z (10 ^ 9))) = inject_Z (g * 10 ^ 9)).
  { apply (Qred_inject_Z (g * 10 ^ 9)). }
  rewrite R. reflexivity.
Qed.




(** *** Invariants of the push service under every schedule *)

Module AsyncMore.
Import ConfigLoader.
Import Async.
Import AsyncFacts.

(** **** Writes *)

Section Invariant.

Variable config : BlockReactionConfig.
Variable I : State -> Prop.
Hypothesis handleNewBlock_respects :
  forall env blockData, respects I (handleNewBlock config env blockData).
Hypothesis monitor_turn_respects :
  forall hash info env, respects I (monitor_turn config hash info env).
Hypothesis gasDataRefresh_respects :
  forall env, respects I (gasDataRefresh config env).

Lemma turn_respects t env s :
  task_respects I t -> I s ->
  I (snd (turn config t env s)) /\
  match fst (turn config t env s) with
  | Waiting t' => task_respects I t'
  | _ => True
  end.
Proof.
  intros Ht Hs. destruct t as [k|i k]; cbn [task_respects] in Ht; unfold turn.
  - pose proof (segment_respects I unit (k env) (Ht env) s Hs) as H1.
    pose proof (suspended_respects I unit (k env) (Ht env) s) as H2.
    destruct (segment (k env) s) as [[[[]|e|]|k'] s']; cbn [fst snd] in *; auto.
    split; [exact H1|]. intros env'. now apply (H2 k').
  - pose proof (segment_respects I unit (k env) (Ht env) s Hs) as H1.
    pose proof (suspended_respects I unit (k env) (Ht env) s) as H2.
    destruct (segment (k env) s) as [[[[]|e|]|k'] s']; cbn [fst snd] in *; auto.
    + split; [exact H1|]. unfold advance.
      destruct (map_next i (pendingTransactions s')) as [[j [hash info]]|]; auto.
      intros env'. apply monitor_turn_respects.
    + split; [exact H1|]. intros env'. now apply (H2 k').
Qed.

Lemma fire_respects ev env s :
  I s ->
  I (snd (fire config ev env s)) /\
  match fst (fire config ev env s) with
  | Waiting t' => task_respects I t'
  | _ => True
  end.
Proof.
  intros Hs. destruct ev as [bd| |]; unfold fire.
  - apply turn_respects; [|exact Hs]. intros env'. apply handleNewBlock_respects.
  - destruct (Nat.eqb _ 0); cbn [fst snd]; [auto|]. split; [exact Hs|].
    unfold advance.
    destruct (map_next 0 (pendingTransactions s)) as [[j [hash info]]|]; auto.
    intros env'. apply monitor_turn_respects.
  - apply turn_respects; [|exact Hs]. intros env'. apply gasDataRefresh_respects.
Qed.

Lemma step_respects P a :
  I (engine P) -> Forall (task_respects I) (tasks P) ->
  I (engine (step config P a)) /\ Forall (task_respects I) (tasks (step config P a)).
Proof.
  intros Hs Hq. unfold step. destruct (exited (engine P)); [auto|].
  destruct a as [ev env|i env].
  - destruct (fire_respects ev env (engine P) Hs) as [H1 H2].
    destruct (fire config ev env (engine P)) as [[|t'|e] s'];
      cbn [fst snd engine tasks] in *; auto.
    split; [exact H1|]. apply Forall_app. split; [exact Hq|].
    constructor; [exact H2|constructor].
  - destruct (nth_error (tasks P) i) as [t|] eqn:Et; [|auto].
    assert (Ht : task_respects I t).
    { rewrite Forall_forall in Hq. apply Hq. eapply nth_error_In, Et. }
    destruct (turn_respects t env (engine P) Ht Hs) as [H1 H2].
    destruct (turn config t env (engine P)) as [[|t'|e] s'];
      cbn [fst snd engine tasks] in *;
      (split; [exact H1|]); apply AsyncSkip.Forall_replace_nth; auto;
        try discriminate.
    intros t'' E. inversion E. subst. exact H2.
Qed.

Lemma run_respects acts : forall P,
  I (engine P) -> Forall (task_respects I) (tasks P) ->
  I (engine (run config acts P)) /\
  Forall (task_respects I) (tasks (run config acts P)).
Proof.
  induction acts as [|a acts IH]; intros P Hs Hq; [auto|].
  change (run config (a :: acts) P) with (run config acts (step config P a)).
  destruct (step_respects P a Hs Hq) as [Hs' Hq']. now apply IH.
Qed.

End Invariant.

(** **** The metrics entries *)

Section Metrics.

Variable config : BlockReactionConfig.

Lemma subtracting_sendTransaction env blockNumber blockData :
  respects subtracting (sendTransaction config env blockNumber blockData).
Proof.
  unfold sendTransaction.
  apply respects_try_catch; [|intros e; constructor; [same|constructor]].
  apply respects_awaited;
    [apply respects_getCachedGasData; intros; assumption|]. intros env1 g.
  apply respects_awaited;
    [apply respects_getCachedNonce; intros; assumption|]. intros env2 q.
  constructor; [same|]. constructor. intros env3.
  destruct (wallet_sendTransaction (chain env3) _) as [h|].
  - constructor; [same|]. constructor.
    + intros s H. destruct (cachedNonce s); exact H.
    + constructor; [same|constructor].
  - constructor; [same|constructor].
Qed.

Lemma subtracting_handleNewBlock env blockData :
  respects subtracting (handleNewBlock config env blockData).
Proof.
  unfold handleNewBlock. constructor; [same|]. constructor. intros s.
  destruct (leb _ _); [destruct (header_date_ok blockData); constructor|].
  destruct (header_date_ok blockData); [|constructor].
  destruct (ltb _ _).
  - apply respects_awaited; [apply subtracting_sendTransaction|].
    intros; constructor.
  - unfold stop. constructor; [same|]. constructor. intros s'.
    destruct (completed config s'); constructor; [same|constructor].
Qed.

Lemma subtracting_processConfirmedTransaction env hash receipt info :
  respects subtracting (processConfirmedTransaction config env hash receipt info).
Proof.
  unfold processConfirmedTransaction. apply respects_rpc; [intros b; same|].
  intros env' confirmedBlock. constructor.
  - intros s H. unfold subtracting. cbn [confirmationMetrics set_confirmationMetrics].
    apply Forall_app. split; [exact H|].
    constructor; [reflexivity|constructor].
  - constructor. intros s. destruct (completed config s); [|constructor].
    apply respects_bind.
    + unfold printFinalSummary. constructor. intros s'.
      destruct (forallb _ _); constructor.
    + intros _. constructor; [same|constructor].
Qed.

Lemma subtracting_monitor_turn hash info env :
  respects subtracting (monitor_turn config hash info env).
Proof.
  unfold monitor_turn. apply respects_try_catch; [|intros e; constructor].
  destruct (getTransactionReceipt (chain env) hash) as [[receipt|]|].
  - constructor; [same|].
    apply respects_awaited; [apply subtracting_processConfirmedTransaction|].
    intros _ _. constructor; [same|constructor].
  - constructor; [same|constructor].
  - constructor; [same|constructor].
Qed.

Lemma subtracting_gasDataRefresh env :
  respects subtracting (gasDataRefresh config env).
Proof. apply respects_gasDataRefresh; intros; assumption. Qed.

Lemma subtracting_run acts P :
  subtracting (engine P) ->
  Forall (task_respects subtracting) (tasks P) ->
  subtracting (engine (run config acts P)).
Proof.
  intros Hs Hq.
  apply (run_respects config subtracting subtracting_handleNewBlock
           subtracting_monitor_turn subtracting_gasDataRefresh acts P Hs Hq).
Qed.

End Metrics.

(** **** How handlers end *)

Section Ends.

Lemma ends_any (A : Type) (p : Proc A) : ends (fun _ => True) p.
Proof. induction p; constructor; auto. Qed.

Lemma ends_weaken (A : Type) (Q Q' : Outcome A -> Prop) (p : Proc A) :
  (forall o, Q o -> Q' o) -> ends Q p -> ends Q' p.
Proof. intros H Hp. induction Hp; constructor; auto. Qed.

Lemma ends_settle (A B : Type) (Q' : Outcome A -> Prop) (Q : Outcome B -> Prop)
    (p : Proc A) (f : Outcome A -> Proc B) :
  ends Q' p -> (forall o, Q' o -> ends Q (f o)) -> ends Q (settle p f).
Proof.
  intros Hp Hf. induction Hp; cbn [settle]; auto; constructor; auto.
Qed.

Lemma segment_ends (A : Type) (Q : Outcome A -> Prop) (p : Proc A) :
  ends Q p ->
  forall s,
    match fst (segment p s) with
    | Finished o => Q o
    | Suspended k => forall env, ends Q (k env)
    end.
Proof.
  intros Hp. induction Hp as [o Ho|f p Hp IH|k Hk IH|k Hk]; intros s;
    cbn [segment fst].
  - exact Ho.
  - apply IH.
  - apply (IH s).
  - exact Hk.
Qed.

Variable config : BlockReactionConfig.

(** [sendTransaction] catches whatever is thrown in it. *)
Lemma sendTransaction_ends env blockNumber blockData :
  ends (rejects_only (fun _ => False))
    (sendTransaction config env blockNumber blockData).
Proof.
  unfold sendTransaction, try_catch.
  apply ends_settle with (Q' := fun _ => True); [apply ends_any|].
  intros [a|e|] _; repeat constructor.
Qed.

(** A notification handler throws nothing but the [RangeError] of a
    timestamp that does not format. *)
Lemma handleNewBlock_ends env blockData :
  ends (rejects_only (fun e => e = RangeError /\ header_date_ok blockData = false))
    (handleNewBlock config env blockData).
Proof.
  unfold handleNewBlock. constructor. constructor. intros s.
  destruct (header_date_ok blockData) eqn:Hd.
  - destruct (leb _ _); [repeat constructor|].
    destruct (ltb _ _).
    + unfold awaited.
      apply ends_settle with (Q' := rejects_only (fun _ => False));
        [apply sendTransaction_ends|].
      intros [a|e|] Ho; [repeat constructor|destruct Ho|repeat constructor].
    + unfold stop. constructor. constructor. intros s'.
      destruct (completed config s'); repeat constructor.
  - destruct (leb _ _); repeat constructor.
Qed.

Lemma monitor_turn_ends hash info env :
  ends (rejects_only (fun _ => False)) (monitor_turn config hash info env).
Proof.
  unfold monitor_turn, try_catch.
  apply ends_settle with (Q' := fun _ => True); [apply ends_any|].
  intros [a|e|] _; repeat constructor.
Qed.

Lemma gasDataRefresh_ends env :
  ends (rejects_only (fun _ => False)) (gasDataRefresh config env).
Proof.
  unfold gasDataRefresh, try_catch.
  apply ends_settle with (Q' := fun _ => True); [apply ends_any|].
  intros [a|e|] _; repeat constructor.
Qed.

Variable R : Error -> Prop.
Variable good : BlockData -> Prop.
Hypothesis good_ends :
  forall env blockData,
    good blockData -> ends (rejects_only R) (handleNewBlock config env blockData).

Lemma turn_ends t env s :
  task_ends (rejects_only R) t ->
  match fst (turn config t env s) with
  | Gone => True
  | Waiting t' => task_ends (rejects_only R) t'
  | Failed e => R e
  end.
Proof.
  intros Ht. destruct t as [k|i k]; cbn [task_ends] in Ht; unfold turn.
  - pose proof (segment_ends unit (rejects_only R) (k env) (Ht env) s) as H.
    destruct (segment (k env) s) as [[[[]|e|]|k'] s']; cbn [fst] in *; auto.
  - pose proof (segment_ends unit (rejects_only R) (k env) (Ht env) s) as H.
    destruct (segment (k env) s) as [[[[]|e|]|k'] s']; cbn [fst] in *; auto.
    unfold advance.
    destruct (map_next i (pendingTransactions s')) as [[j [hash info]]|]; auto.
    intros env'. eapply ends_weaken; [|apply monitor_turn_ends].
    intros [a|e|] H'; auto. destruct H'.
Qed.

Lemma step_ends P a :
  notifies good a ->
  Forall (task_ends (rejects_only R)) (tasks P) -> Forall R (rejections P) ->
  Forall (task_ends (rejects_only R)) (tasks (step config P a)) /\
  Forall R (rejections (step config P a)).
Proof.
  intros Ha Hq Hr. unfold step. destruct (exited (engine P)); [auto|].
  destruct a as [ev env|i env].
  - assert (H : match fst (fire config ev env (engine P)) with
                | Gone => True
                | Waiting t' => task_ends (rejects_only R) t'
                | Failed e => R e
                end).
    { destruct ev as [bd| |]; unfold fire.
      - apply turn_ends. intros env'. apply good_ends. exact Ha.
      - destruct (Nat.eqb _ 0); cbn [fst]; [auto|]. unfold advance.
        destruct (map_next 0 (pendingTransactions (engine P)))
          as [[j [hash info]]|]; auto.
        intros env'. eapply ends_weaken; [|apply monitor_turn_ends].
        intros [a|e|] H'; auto. destruct H'.
      - apply turn_ends. intros env'.
        eapply ends_weaken; [|apply gasDataRefresh_ends].
        intros [a|e|] H'; auto. destruct H'. }
    destruct (fire config ev env (engine P)) as [[|t'|e] s'];
      cbn [fst tasks rejections] in *; auto.
    split; [|exact Hr]. apply Forall_app. split; [exact Hq|].
    constructor; [exact H|constructor].
  - destruct (nth_error (tasks P) i) as [t|] eqn:Et; [|auto].
    assert (Ht : task_ends (rejects_only R) t).
    { rewrite Forall_forall in Hq. apply Hq. eapply nth_error_In, Et. }
    pose proof (turn_ends t env (engine P) Ht) as H.
    destruct (turn config t env (engine P)) as [[|t'|e] s'];
      cbn [fst tasks rejections] in *;
      (split; [apply AsyncSkip.Forall_replace_nth; auto; try discriminate|auto]).
    intros t'' E. inversion E. subst. exact H.
Qed.

Lemma run_ends acts : forall P,
  Forall (notifies good) acts ->
  Forall (task_ends (rejects_only R)) (tasks P) -> Forall R (rejections P) ->
  Forall R (rejections (run config acts P)).
Proof.
  induction acts as [|a acts IH]; intros P Ha Hq Hr; [exact Hr|].
  inversion Ha; subst.
  change (run config (a :: acts) P) with (run config acts (step config P a)).
  destruct (step_ends P a) as [Hq' Hr']; auto.
Qed.

End Ends.

(** **** A handler run alone *)

Section Alone.

Variable config : BlockReactionConfig.

Lemma run_exited acts : forall P,
  exited (engine P) = true -> run config acts P = P.
Proof.
  induction acts as [|a acts IH]; intros P H; [reflexivity|].
  change (run config (a :: acts) P) with (run config acts (step config P a)).
  unfold step. rewrite H. now apply IH.
Qed.


End Alone.

End AsyncMore.

(** X23.  What the handlers of the push service can reject with.  Under
    every schedule, from a pool with no suspended handler, the only error a
    handler rejects with is the [RangeError] of a block notification whose
    timestamp does not format as a date: the dispatch, the monitor tick and
    the refresh tick catch whatever is thrown in them.  If every header
    notified has a timestamp that formats, no handler rejects. *)
Theorem push_handlers_reject_only_on_bad_header (config : BlockReactionConfig)
    (s0 : State) (acts : list Action) :
  let P := run config acts (mkPool s0 [] []) in
  Forall (fun e => e = RangeError) (rejections P) /\
  (Forall (notifies (fun blockData => header_date_ok blockData = true)) acts ->
   rejections P = []).
Proof.
  intros P. split.
  - apply (AsyncMore.run_ends config (fun e => e = RangeError) (fun _ => True)).
    + intros env bd _. eapply AsyncMore.ends_weaken;
        [|apply AsyncMore.handleNewBlock_ends].
      intros [a|e|] H; cbn [rejects_only] in *; auto. apply H.
    + rewrite Forall_forall. intros [[bd| |] env|i env] _; exact Logic.I.
    + constructor.
    + constructor.
  - intros Hgood.
    assert (H : Forall (fun _ : Error => False) (rejections P)).
    { apply (AsyncMore.run_ends config (fun _ => False)
               (fun bd => header_date_ok bd = true)).
      - intros env bd Hd. eapply AsyncMore.ends_weaken;
          [|apply AsyncMore.handleNewBlock_ends].
        intros [a|e|] H; cbn [rejects_only] in *; auto.
        destruct H as [_ H]. congruence.
      - exact Hgood.
      - constructor.
      - constructor. }
    destruct (rejections P) as [|e l]; [reflexivity|].
    inversion H; subst. contradiction.
Qed.

Lemma push_handlers_reject_only_on_bad_header_witness :
  rejections (run sample_config three_in_flight (mkPool started [] [])) = [].
Proof.
  apply (push_handlers_reject_only_on_bad_header sample_config started
           three_in_flight).
  repeat constructor.
Defined.

(** X24.  The arithmetic of the metrics.  Under every schedule of the push
    service, every metrics entry recorded satisfies
    [blocksToConfirm = confirmedBlockNumber - sentBlockNumber] (as JavaScript
    numbers: the difference is [NaN] when the block number of the notification
    did not parse). *)
Theorem metrics_record_the_difference (config : BlockReactionConfig)
    (s0 : State) (acts : list Action) :
  Forall metric_subtracts (confirmationMetrics s0) ->
  Forall metric_subtracts
    (confirmationMetrics (engine (run config acts (mkPool s0 [] [])))).
Proof.
  intros H. apply AsyncMore.subtracting_run; [exact H|constructor].
Qed.

Lemma metrics_record_the_difference_witness :
  Forall metric_subtracts
    (confirmationMetrics
       (engine (run sample_config (one_dispatch ++ two_ticks)
                  (mkPool started [] [])))).
Proof.
  apply (metrics_record_the_difference sample_config started
           (one_dispatch ++ two_ticks)).
  constructor.
Defined.

(** X25.  The budget gate.  A block notification past the skipped blocks,
    with a header that formats, that finds the counter of sent transactions
    at or above the budget starts no dispatch: it counts the block and calls
    [stop], which clears [isConnected] and ends the process if the number of
    metrics entries equals the budget.  No call is made and no handler is
    left suspended. *)
Theorem notification_at_budget_stops (config : BlockReactionConfig) (P : Pool)
    (blockData : BlockData) (env : Env) :
  exited (engine P) = false ->
  leb (of_Z (blockCount (engine P) + 1)) (initialBlocksToSkip config) = false ->
  header_date_ok blockData = true ->
  ltb (of_Z (sentTransactionCount (engine P))) (transactionCount config) = false ->
  let counted :=
    set_isConnected false (set_blockCount (blockCount (engine P) + 1) (engine P)) in
  step config P (Fire (NewBlock blockData) env)
  = mkPool (if completed config (engine P) then set_exited true counted else counted)
      (tasks P) (rejections P).
Proof.
  intros Hx Hk Hd Hb counted. unfold step. rewrite Hx.
  unfold fire, turn, handleNewBlock, stop. cbn [segment].
  cbn [blockCount sentTransactionCount set_blockCount set_isConnected].
  rewrite Hk, Hd, Hb. cbn [segment].
  change (completed config
            (set_isConnected false
               (set_blockCount (blockCount (engine P) + 1) (engine P))))
    with (completed config (engine P)).
  destruct (completed config (engine P)); reflexivity.
Qed.

Lemma notification_at_budget_stops_witness :
  let P := run sample_config
             (Fire (NewBlock (header "0x64")) (at_ 1000 None)
                :: in_turn "0x65" 2000 "0xaa" ++ in_turn "0x66" 3000 "0xbb")%list
             (mkPool started [] []) in
  let Q := step sample_config P (Fire (NewBlock (header "0x67")) (at_ 4000 None)) in
  isConnected (engine Q) = false /\ calls (engine Q) = calls (engine P) /\
  tasks Q = [] /\ sentTransactionCount (engine Q) = 2.
Proof.
  intros P Q. unfold Q.
  rewrite (notification_at_budget_stops sample_config P (header "0x67")
             (at_ 4000 None) eq_refl eq_refl eq_refl eq_refl).
  vm_compute. repeat split.
Defined.


